(** * Omarchy IDE theme generator: the colour pipeline of [theme_generator.py]

    A shallow embedding of the colour model of [src/theme_generator.py]
    ([normalize_hex_color], [hex_to_rgb], [rgb_to_hex], [is_light_theme],
    [adjust_color_for_theme], [generate_ui_colors],
    [calculate_contrast_ratio], [validate_and_fix_colors],
    [parse_alacritty_colors] and [generate_vscode_theme]), the properties
    its specification states about it, and further properties of the code.

    Conventions.
    - A Python [str] is a [string]; a character is a code point below 256,
      and the whitespace tables of [str.strip] and [int] are the
      restrictions of Python's to that range.
    - A Python [int] is a [Z].
    - A function that returns [None] or raises returns [None]; a
      [ValueError] raised inside a [try] is propagated as [None] up to the
      [except] clause that catches it.
    - A dictionary with string keys and string values is a
      [gmap string string]; the dictionary literal of the theme document,
      whose order matters, is an association list.
    - The [float] arithmetic of [is_light_theme] and
      [adjust_color_for_theme] consists of IEEE 754 basic operations and is
      modelled bit for bit on binary64 ([PrimFloat]).
    - [calculate_contrast_ratio] calls [pow] with the exponent 2.4, for
      which binary64 fixes no result; luminance and contrast are real
      numbers here ([Rpower]), and the comparisons with the thresholds 3.0
      and 2.0 are comparisons of reals.
    - [parse_alacritty_colors] takes the text of the file; the regular
      expressions it applies are matched by functions written for them
      ([PyRe]). *)

From Stdlib Require Import ZArith Lia Bool List Ascii String.
From Stdlib Require Import PrimFloat SpecFloat FloatOps Uint63.
From Stdlib Require Import Reals Lra.
From stdpp Require Import base option strings gmap.

Import ListNotations.
Local Open Scope string_scope.
Local Open Scope Z_scope.

(** ** Python string primitives *)

Module PyStr.

(** [str.isspace] on code points below 256: the characters [str.strip()]
    removes. *)
Definition is_space (c : ascii) : bool :=
  let n := N_of_ascii c in
  ((9 <=? n) && (n <=? 13) || (28 <=? n) && (n <=? 32)
   || (n =? 133) || (n =? 160))%N.

(** The double quote, code point 34. *)
Definition dquote : ascii :=
  Ascii false true false false false true false false.

(** The two characters of the argument of the second [strip]: the double
    and the single quote. *)
Definition is_quote (c : ascii) : bool :=
  (Ascii.eqb c dquote || Ascii.eqb c "'")%char.

Fixpoint lstrip (p : ascii -> bool) (s : string) : string :=
  match s with
  | String c s' => if p c then lstrip p s' else s
  | EmptyString => EmptyString
  end.

Fixpoint rstrip (p : ascii -> bool) (s : string) : string :=
  match s with
  | EmptyString => EmptyString
  | String c s' =>
      match rstrip p s' with
      | EmptyString => if p c then EmptyString else String c EmptyString
      | r => String c r
      end
  end.

Definition strip (p : ascii -> bool) (s : string) : string :=
  rstrip p (lstrip p s).

(** [s.startswith(p)] *)
Definition startswith (s p : string) : bool := String.prefix p s.

(** [s[n:]] *)
Fixpoint slice_from (n : nat) (s : string) : string :=
  match n, s with
  | O, _ => s
  | S n', String _ s' => slice_from n' s'
  | S _, EmptyString => EmptyString
  end.

(** [s[a:b]] for [0 <= a <= b] *)
Definition slice (a b : nat) (s : string) : string :=
  String.substring a (b - a) s.

(** [''.join([c*2 for c in s])] *)
Fixpoint double_chars (s : string) : string :=
  match s with
  | EmptyString => EmptyString
  | String c s' => String c (String c (double_chars s'))
  end.

End PyStr.

(** ** [int(s, 16)] *)

Module PyInt.

(** The whitespace [int()] skips around a literal (code points below
    256): narrower than [str.isspace], the separators 28..31 are not in
    it. *)
Definition is_space (c : ascii) : bool :=
  let n := N_of_ascii c in
  ((9 <=? n) && (n <=? 13) || (n =? 32) || (n =? 133) || (n =? 160))%N.

Definition hex_digit (c : ascii) : option Z :=
  let n := Z.of_N (N_of_ascii c) in
  if (48 <=? n) && (n <=? 57) then Some (n - 48)
  else if (97 <=? n) && (n <=? 102) then Some (n - 87)
  else if (65 <=? n) && (n <=? 70) then Some (n - 55)
  else None.

(** The digit loop: digits with single underscores between them; the
    scan stops at the first other character and a trailing underscore is
    an error. *)
Fixpoint scan_digits (acc : Z) (prev_underscore : bool) (s : string)
  : option (Z * string) :=
  match s with
  | String c s' =>
      if Ascii.eqb c "_" then
        if prev_underscore then None else scan_digits acc true s'
      else
        match hex_digit c with
        | Some d => scan_digits (16 * acc + d) false s'
        | None => if prev_underscore then None else Some (acc, s)
        end
  | EmptyString => if prev_underscore then None else Some (acc, s)
  end.

(** After the sign: an optional [0x]/[0X] prefix, itself optionally
    followed by one underscore. *)
Definition skip_prefix (s : string) : string :=
  match s with
  | String "0" (String x r) =>
      if (Ascii.eqb x "x" || Ascii.eqb x "X")%char then
        match r with
        | String "_" r' => r'
        | _ => r
        end
      else s
  | _ => s
  end.

(** [int(s, 16)]; [None] is [ValueError]. *)
Definition int16 (s : string) : option Z :=
  let s1 := PyStr.lstrip is_space s in
  let '(neg, s2) :=
    match s1 with
    | String "+" r => (false, r)
    | String "-" r => (true, r)
    | _ => (false, s1)
    end in
  let s3 := skip_prefix s2 in
  match s3 with
  | String c _ =>
      match hex_digit c with
      | None => None
      | Some _ =>
          match scan_digits 0 false s3 with
          | Some (v, rest) =>
              match PyStr.lstrip is_space rest with
              | EmptyString => Some (if neg then - v else v)
              | _ => None
              end
          | None => None
          end
      end
  | EmptyString => None
  end.

End PyInt.

(** ** Colour normalisation *)

Definition normalize_hex_color (color_value : string) : option string :=
  match color_value with
  | EmptyString => None
  | _ =>
      let color_value :=
        PyStr.strip PyStr.is_quote (PyStr.strip PyStr.is_space color_value) in
      let color_value :=
        if PyStr.startswith color_value "0x"
        then "#" ++ PyStr.slice_from 2 color_value
        else color_value in
      let color_value :=
        if negb (PyStr.startswith color_value "#")
        then "#" ++ color_value
        else color_value in
      let color_value :=
        if (String.length color_value =? 4)%nat
        then "#" ++ PyStr.double_chars (PyStr.slice_from 1 color_value)
        else color_value in
      if negb (String.length color_value =? 7)%nat then None
      else
        match PyInt.int16 (PyStr.slice_from 1 color_value) with
        | Some _ => Some color_value
        | None => None
        end
  end.

Definition is_valid_hex_color (hex_color : string) : bool :=
  match normalize_hex_color hex_color with
  | Some _ => true
  | None => false
  end.

(** ** Integers, floats and channel formatting *)

Module PyNum.

(** [float(z)], as in the implicit conversion of [0.299 * r]; exact on the
    integers the program meets (channels). *)
Definition float_of_int (z : Z) : float :=
  if z <? 0 then (- of_uint63 (Uint63.of_Z (- z)))%float
  else of_uint63 (Uint63.of_Z z).

(** [int(f)]: truncation toward zero; [None] is the [OverflowError] or
    [ValueError] Python raises on an infinity or a NaN. *)
Definition int_of_float (f : float) : option Z :=
  match Prim2SF f with
  | S754_zero _ => Some 0
  | S754_finite s m e =>
      let v := if 0 <=? e then Z.pos m * 2 ^ e else Z.pos m / 2 ^ (- e) in
      Some (if s then - v else v)
  | S754_infinity _ => None
  | S754_nan => None
  end.

Definition hex_char (d : Z) : ascii :=
  if d <? 10 then ascii_of_N (Z.to_N (48 + d))
  else ascii_of_N (Z.to_N (87 + d)).

(** Lowercase hexadecimal digits of [z >= 0], most significant first;
    [fuel] bounds the number of digits. *)
Fixpoint hex_digits (fuel : nat) (z : Z) (acc : string) : string :=
  match fuel with
  | O => acc
  | S fuel' =>
      let acc' := String (hex_char (z mod 16)) acc in
      if z / 16 =? 0 then acc' else hex_digits fuel' (z / 16) acc'
  end.

Definition hex_of_nonneg (z : Z) : string :=
  hex_digits (S (Z.to_nat (Z.log2 z))) z EmptyString.

(** Left padding with zeros up to [width] characters. *)
Definition zfill (width : nat) (s : string) : string :=
  String.concat "" (repeat "0" (width - String.length s)) ++ s.

(** The format specification [02x]: sign first, then zeros up to a total
    width of two. *)
Definition format_02x (z : Z) : string :=
  if z <? 0 then "-" ++ zfill 1 (hex_of_nonneg (- z))
  else zfill 2 (hex_of_nonneg z).

End PyNum.

(** ** Channels *)

Definition hex_to_rgb (hex_color : string) : Z * Z * Z :=
  match normalize_hex_color hex_color with
  | None => (0, 0, 0)
  | Some normalized =>
      match PyInt.int16 (PyStr.slice 1 3 normalized),
            PyInt.int16 (PyStr.slice 3 5 normalized),
            PyInt.int16 (PyStr.slice 5 7 normalized) with
      | Some r, Some g, Some b => (r, g, b)
      | _, _, _ => (0, 0, 0)
      end
  end.

Definition rgb_to_hex (r g b : Z) : string :=
  "#" ++ PyNum.format_02x r ++ PyNum.format_02x g ++ PyNum.format_02x b.

(** ** Classification *)

#[local] Set Warnings "-inexact-float".

Definition is_light_theme (background_color : string) : bool :=
  match normalize_hex_color background_color with
  | None => false
  | Some normalized =>
      let '(r, g, b) := hex_to_rgb normalized in
      let brightness :=
        ((0.299 * PyNum.float_of_int r + 0.587 * PyNum.float_of_int g
          + 0.114 * PyNum.float_of_int b) / 255.0)%float in
      (0.5 <? brightness)%float
  end.

(** ** Surface colours *)

Definition adjust_color_for_theme (hex_color : string) (is_light : bool)
    (factor : float) : option string :=
  match normalize_hex_color hex_color with
  | None => Some hex_color
  | Some normalized =>
      let '(r, g, b) := hex_to_rgb normalized in
      if is_light then
        r' ← PyNum.int_of_float (PyNum.float_of_int r * (1 - factor))%float;
        g' ← PyNum.int_of_float (PyNum.float_of_int g * (1 - factor))%float;
        b' ← PyNum.int_of_float (PyNum.float_of_int b * (1 - factor))%float;
        Some (rgb_to_hex (Z.max 0 r') (Z.max 0 g') (Z.max 0 b'))
      else
        r' ← PyNum.int_of_float (PyNum.float_of_int r * (1 + factor))%float;
        g' ← PyNum.int_of_float (PyNum.float_of_int g * (1 + factor))%float;
        b' ← PyNum.int_of_float (PyNum.float_of_int b * (1 + factor))%float;
        Some (rgb_to_hex (Z.min 255 r') (Z.min 255 g') (Z.min 255 b'))
  end.

(** ** The palette dictionary

    The dictionary [colors] has string entries ([background], [foreground],
    [cursor]) and two dictionary entries ([normal], [bright]); an absent
    key is an absent entry of the map, or [None]. *)

Record colors := Colors {
  c_primary : gmap string string;
  c_normal : option (gmap string string);
  c_bright : option (gmap string string)
}.

(** [d.get(key, dflt)] *)
Definition dict_get (d : gmap string string) (key dflt : string) : string :=
  default dflt (d !! key).

(** The seven surfaces of the dictionary [generate_ui_colors] returns. *)
Inductive surface :=
| side_bg | panel_bg | tab_bg | input_bg | list_bg | hover_bg | border_color.

(** The third argument of the call of [adjust_color_for_theme] that
    computes the surface, in the light and in the dark branch. *)
Definition surface_factor (is_light : bool) (s : surface) : float :=
  if is_light then
    match s with
    | side_bg => 0.15
    | panel_bg => 0.2
    | tab_bg => 0.1
    | input_bg => 0.05
    | list_bg => 0.1
    | hover_bg => 0.2
    | border_color => 0.3
    end%float
  else
    match s with
    | side_bg => 0.1
    | panel_bg => 0.15
    | tab_bg => 0.05
    | input_bg => 0.05
    | list_bg => 0.1
    | hover_bg => 0.15
    | border_color => 0.2
    end%float.

Record ui_colors := UiColors {
  ui_side_bg : string;
  ui_panel_bg : string;
  ui_tab_bg : string;
  ui_input_bg : string;
  ui_list_bg : string;
  ui_hover_bg : string;
  ui_border_color : string
}.

Definition generate_ui_colors (colors : colors) (is_light : bool)
  : option ui_colors :=
  let bg := dict_get (c_primary colors) "background" "#1e1e2e" in
  let adjust s := adjust_color_for_theme bg is_light (surface_factor is_light s) in
  side ← adjust side_bg;
  panel ← adjust panel_bg;
  tab ← adjust tab_bg;
  input ← adjust input_bg;
  lst ← adjust list_bg;
  hover ← adjust hover_bg;
  border ← adjust border_color;
  Some (UiColors side panel tab input lst hover border).

(** ** Contrast *)

Local Open Scope R_scope.

Definition GAMMA_THRESHOLD : R := 0.03928.
Definition GAMMA_OFFSET : R := 0.055.
Definition GAMMA_POWER : R := 2.4.
Definition GAMMA_DIVISOR : R := 12.92.
Definition GAMMA_DENOMINATOR : R := 1.055.

Definition LUMINANCE_R : R := 0.2126.
Definition LUMINANCE_G : R := 0.7152.
Definition LUMINANCE_B : R := 0.0722.

Definition MIN_READABLE_CONTRAST : R := 3.0.
Definition MIN_ACCEPTABLE_CONTRAST : R := 2.0.

Definition gamma_correct (c : R) : R :=
  if Rle_dec c GAMMA_THRESHOLD then c / GAMMA_DIVISOR
  else Rpower ((c + GAMMA_OFFSET) / GAMMA_DENOMINATOR) GAMMA_POWER.

(** The three channels [get_luminance] reads off a normalised colour;
    [None] is the [ValueError] its [except] clause catches. *)
Definition luminance_channels (normalized : string) : option (Z * Z * Z) :=
  r ← PyInt.int16 (PyStr.slice 1 3 normalized);
  g ← PyInt.int16 (PyStr.slice 3 5 normalized);
  b ← PyInt.int16 (PyStr.slice 5 7 normalized);
  Some (r, g, b).

Definition get_luminance (hex_color : string) : R :=
  match normalize_hex_color hex_color with
  | None => 0
  | Some normalized =>
      match luminance_channels normalized with
      | Some (r, g, b) =>
          let r := gamma_correct (IZR r / 255.0) in
          let g := gamma_correct (IZR g / 255.0) in
          let b := gamma_correct (IZR b / 255.0) in
          LUMINANCE_R * r + LUMINANCE_G * g + LUMINANCE_B * b
      | None => 0
      end
  end.

Definition calculate_contrast_ratio (color1 color2 : string) : R :=
  let lum1 := get_luminance color1 in
  let lum2 := get_luminance color2 in
  if Rgt_dec lum1 lum2 then (lum1 + 0.05) / (lum2 + 0.05)
  else (lum2 + 0.05) / (lum1 + 0.05).

Local Close Scope R_scope.

(** ** Validation *)

(** An entry of [issues_found]: the text of the message, or, for the one
    message that formats a float, the number it formats
    ([Low contrast ratio (<contrast, two decimals>) between background and
    foreground]). *)
Inductive issue :=
| Msg (text : string)
| LowContrast (contrast : R).

(** [issues_found.append(i)] *)
Definition append (issues_found : list issue) (i : issue) : list issue :=
  (issues_found ++ [i])%list.

Definition fallback_primary : gmap string string :=
  {[ "background" := "#282a36"; "foreground" := "#f8f8f2" ]}.

Definition fallback_normal : gmap string string :=
  {[ "black" := "#21222c"; "red" := "#ff5555"; "green" := "#50fa7b";
     "yellow" := "#f1fa8c"; "blue" := "#bd93f9"; "magenta" := "#ff79c6";
     "cyan" := "#8be9fd"; "white" := "#f8f8f2" ]}.

Definition fallback_bright : gmap string string :=
  {[ "black" := "#6272a4"; "red" := "#ff6e6e"; "green" := "#69ff94";
     "yellow" := "#ffffa5"; "blue" := "#d6acff"; "magenta" := "#ff92df";
     "cyan" := "#a4ffff"; "white" := "#ffffff" ]}.

Definition primary_keys : list string := ["background"; "foreground"; "cursor"].

Definition color_names : list string :=
  ["black"; "red"; "green"; "yellow"; "blue"; "magenta"; "cyan"; "white"].

(** The state of the loops: the dictionary under construction and
    [issues_found]. [None] is a [KeyError]. *)
Definition fix_state : Type := gmap string string * list issue.

(** One iteration of the loop over the primary keys. *)
Definition fix_primary (raw : gmap string string) (st : option fix_state)
    (key : string) : option fix_state :=
  '(fixed_colors, issues_found) ← st;
  match raw !! key with
  | Some value =>
      match normalize_hex_color value with
      | Some normalized => Some (<[key := normalized]> fixed_colors, issues_found)
      | None =>
          fb ← fallback_primary !! "background";
          Some (<[key := dict_get fallback_primary key fb]> fixed_colors,
                append issues_found (Msg ("Invalid " ++ key ++ " color '" ++ value ++ "' - using fallback")))
      end
  | None =>
      match (if String.eqb key "cursor" then fixed_colors !! "foreground" else None) with
      | Some fg =>
          Some (<[key := fg]> fixed_colors,
                append issues_found (Msg ("Missing " ++ key ++ " color - derived from foreground")))
      | None =>
          fb ← fallback_primary !! "background";
          Some (<[key := dict_get fallback_primary key fb]> fixed_colors,
                append issues_found (Msg ("Missing " ++ key ++ " color - using fallback")))
      end
  end.

(** One iteration of the loop over the colour names of [section]
    ([normal] or [bright]). *)
Definition fix_slot (section : string) (raw fallback : gmap string string)
    (st : option fix_state) (color_name : string) : option fix_state :=
  '(fixed, issues_found) ← st;
  match raw !! color_name with
  | Some value =>
      match normalize_hex_color value with
      | Some normalized => Some (<[color_name := normalized]> fixed, issues_found)
      | None =>
          fb ← fallback !! color_name;
          Some (<[color_name := fb]> fixed,
                append issues_found (Msg ("Invalid " ++ section ++ "." ++ color_name ++ " color '"
                        ++ value ++ "' - using fallback")))
      end
  | None =>
      fb ← fallback !! color_name;
      Some (<[color_name := fb]> fixed,
            append issues_found (Msg ("Missing " ++ section ++ "." ++ color_name ++ " color - using fallback")))
  end.

(** The three loops: everything before the contrast check. *)
Definition resolve_slots (raw : colors) : option (colors * list issue) :=
  '(fixed_primary, issues_found) ←
    fold_left (fix_primary (c_primary raw)) primary_keys (Some (∅, []));
  '(fixed_normal, issues_found) ←
    fold_left (fix_slot "normal" (default ∅ (c_normal raw)) fallback_normal)
      color_names (Some (∅, issues_found));
  '(fixed_bright, issues_found) ←
    fold_left (fix_slot "bright" (default ∅ (c_bright raw)) fallback_bright)
      color_names (Some (∅, issues_found));
  Some (Colors fixed_primary (Some fixed_normal) (Some fixed_bright), issues_found).

(** The contrast check at the end of [validate_and_fix_colors]. *)
Definition check_contrast (fixed_colors : colors) (issues_found : list issue)
  : option (colors * list issue) :=
  bg_color ← c_primary fixed_colors !! "background";
  fg_color ← c_primary fixed_colors !! "foreground";
  let contrast := calculate_contrast_ratio bg_color fg_color in
  if Rlt_dec contrast MIN_READABLE_CONTRAST then
    let issues_found := append issues_found (LowContrast contrast) in
    if Rlt_dec contrast MIN_ACCEPTABLE_CONTRAST then
      fb_bg ← fallback_primary !! "background";
      fb_fg ← fallback_primary !! "foreground";
      Some (Colors (<["foreground" := fb_fg]> (<["background" := fb_bg]> (c_primary fixed_colors)))
              (c_normal fixed_colors) (c_bright fixed_colors),
            append issues_found (Msg "Applied fallback colors due to extremely low contrast"))
    else Some (fixed_colors, issues_found)
  else Some (fixed_colors, issues_found).

Definition validate_and_fix_colors (raw : colors) : option (colors * list issue) :=
  '(fixed_colors, issues_found) ← resolve_slots raw;
  check_contrast fixed_colors issues_found.

(** ** The theme document *)

(** A dictionary literal: items in source order; a key written twice keeps
    its first position and takes its last value. *)
Fixpoint dict_set (d : list (string * string)) (key value : string)
  : list (string * string) :=
  match d with
  | [] => [(key, value)]
  | (k, v) :: d' =>
      if String.eqb k key then (k, value) :: d'
      else (k, v) :: dict_set d' key value
  end.

Definition dict_literal (items : list (string * string)) : list (string * string) :=
  fold_left (fun d kv => dict_set d (fst kv) (snd kv)) items [].

(** [d[key]] on such a dictionary *)
Fixpoint dict_lookup (d : list (string * string)) (key : string) : option string :=
  match d with
  | [] => None
  | (k, v) :: d' => if String.eqb k key then Some v else dict_lookup d' key
  end.

(** An entry of [textMateRules]. *)
Record rule := Rule {
  scope : list string;
  foreground : string
}.

Record theme := Theme {
  colorTheme : string;
  colorCustomizations : list (string * string);
  textMateRules : list rule
}.

(** The items of the literal under [workbench.colorCustomizations], in
    source order. *)
Definition color_customization_items (bg fg cursor : string)
    (normal bright : gmap string string) (ui : ui_colors)
  : list (string * string) :=
  [
    ("editor.background", bg);
    ("editor.foreground", fg);
    ("editor.emptyBackground", bg);
    ("editor.lineHighlightBackground", ui_list_bg ui);
    ("editor.selectionBackground", ui_tab_bg ui);
    ("editor.findMatchBackground", dict_get normal "green" "#50fa7b");
    ("editor.findMatchHighlightBackground", ui_hover_bg ui);
    ("editorCursor.foreground", cursor);
    ("editorWhitespace.foreground", dict_get normal "black" "#6272a4");
    ("editorIndentGuide.background", ui_border_color ui);
    ("editorIndentGuide.activeBackground", dict_get normal "green" "#50fa7b");
    ("editor.lineHighlightBorder", ui_border_color ui);
    ("editor.rangeHighlightBackground", ui_hover_bg ui);
    ("editor.symbolHighlightBackground", ui_hover_bg ui);
    ("editor.wordHighlightBackground", ui_hover_bg ui);
    ("editor.wordHighlightStrongBackground", ui_tab_bg ui);
    ("editorBracketMatch.background", ui_border_color ui);
    ("editorBracketMatch.border", dict_get normal "blue" "#8be9fd");
    ("editorCodeLens.foreground", dict_get normal "black" "#6272a4");
    ("editorError.foreground", dict_get normal "red" "#ff5555");
    ("editorWarning.foreground", dict_get normal "yellow" "#f1fa8c");
    ("editorInfo.foreground", dict_get normal "blue" "#8be9fd");
    ("editorHint.foreground", dict_get normal "green" "#50fa7b");
    ("editorGutter.background", bg);
    ("editorGutter.modifiedBackground", dict_get normal "yellow" "#f1fa8c");
    ("editorGutter.addedBackground", dict_get normal "green" "#50fa7b");
    ("editorGutter.deletedBackground", dict_get normal "red" "#ff5555");
    ("editorUnnecessaryCode.opacity", "0.4");
    ("editorSuggestWidget.background", ui_input_bg ui);
    ("editorSuggestWidget.border", ui_border_color ui);
    ("editorSuggestWidget.selectedBackground", ui_list_bg ui);
    ("editorSuggestWidget.highlightForeground", dict_get normal "blue" "#8be9fd");
    ("editorHoverWidget.background", ui_input_bg ui);
    ("editorHoverWidget.border", ui_border_color ui);
    ("editorGroup.background", bg);
    ("editorGroup.border", ui_border_color ui);
    ("editorGroupHeader.background", ui_side_bg ui);
    ("editorGroupHeader.tabsBackground", ui_side_bg ui);
    ("editorGroupHeader.tabsBorder", ui_border_color ui);
    ("editorGroupHeader.noTabsBackground", ui_side_bg ui);
    ("breadcrumb.background", bg);
    ("breadcrumb.foreground", fg);
    ("breadcrumb.focusForeground", dict_get normal "blue" "#8be9fd");
    ("breadcrumb.activeSelectionForeground", fg);
    ("breadcrumbPicker.background", ui_input_bg ui);
    ("breadcrumbPicker.foreground", fg);
    ("sideBar.background", ui_side_bg ui);
    ("sideBar.foreground", fg);
    ("sideBarTitle.foreground", fg);
    ("sideBarSectionHeader.background", ui_border_color ui);
    ("sideBarSectionHeader.foreground", fg);
    ("activityBar.background", ui_side_bg ui);
    ("activityBar.foreground", fg);
    ("activityBar.activeBorder", dict_get normal "blue" "#8be9fd");
    ("activityBar.activeBackground", ui_hover_bg ui);
    ("activityBar.inactiveForeground", dict_get normal "black" "#6272a4");
    ("activityBarBadge.background", dict_get normal "red" "#ff5555");
    ("activityBarBadge.foreground", bg);
    ("statusBar.background", ui_side_bg ui);
    ("statusBar.foreground", fg);
    ("statusBar.debuggingBackground", dict_get normal "red" "#ff5555");
    ("statusBar.debuggingForeground", fg);
    ("statusBar.noFolderBackground", ui_side_bg ui);
    ("statusBar.noFolderForeground", fg);
    ("statusBarItem.prominentBackground", ui_tab_bg ui);
    ("statusBarItem.prominentForeground", fg);
    ("statusBarItem.hoverBackground", ui_hover_bg ui);
    ("statusBarItem.errorBackground", dict_get normal "red" "#ff5555");
    ("statusBarItem.errorForeground", fg);
    ("statusBarItem.warningBackground", dict_get normal "yellow" "#f1fa8c");
    ("statusBarItem.warningForeground", bg);
    ("titleBar.activeBackground", ui_side_bg ui);
    ("titleBar.activeForeground", fg);
    ("titleBar.inactiveBackground", ui_panel_bg ui);
    ("titleBar.inactiveForeground", dict_get normal "black" "#6272a4");
    ("tab.activeBackground", ui_tab_bg ui);
    ("tab.activeForeground", fg);
    ("tab.inactiveBackground", ui_side_bg ui);
    ("tab.inactiveForeground", dict_get normal "black" "#6272a4");
    ("tab.border", ui_border_color ui);
    ("tab.activeBorder", dict_get normal "blue" "#8be9fd");
    ("tab.hoverBackground", ui_hover_bg ui);
    ("tab.hoverForeground", fg);
    ("tab.unfocusedActiveBackground", ui_tab_bg ui);
    ("tab.unfocusedActiveForeground", dict_get normal "black" "#6272a4");
    ("tab.unfocusedInactiveBackground", ui_side_bg ui);
    ("tab.unfocusedInactiveForeground", dict_get normal "black" "#6272a4");
    ("panel.background", ui_panel_bg ui);
    ("panel.foreground", fg);
    ("panel.border", ui_border_color ui);
    ("panelTitle.activeForeground", fg);
    ("panelTitle.inactiveForeground", dict_get normal "black" "#6272a4");
    ("panelTitle.activeBorder", dict_get normal "blue" "#8be9fd");
    ("terminal.background", bg);
    ("terminal.foreground", fg);
    ("terminal.ansiBlack", dict_get normal "black" "#000000");
    ("terminal.ansiRed", dict_get normal "red" "#ff5555");
    ("terminal.ansiGreen", dict_get normal "green" "#50fa7b");
    ("terminal.ansiYellow", dict_get normal "yellow" "#f1fa8c");
    ("terminal.ansiBlue", dict_get normal "blue" "#bd93f9");
    ("terminal.ansiMagenta", dict_get normal "magenta" "#ff79c6");
    ("terminal.ansiCyan", dict_get normal "cyan" "#8be9fd");
    ("terminal.ansiWhite", dict_get normal "white" "#f8f8f2");
    ("terminal.ansiBrightBlack", dict_get bright "black" "#6272a4");
    ("terminal.ansiBrightRed", dict_get bright "red" "#ff6e6e");
    ("terminal.ansiBrightGreen", dict_get bright "green" "#69ff94");
    ("terminal.ansiBrightYellow", dict_get bright "yellow" "#ffffa5");
    ("terminal.ansiBrightBlue", dict_get bright "blue" "#d6acff");
    ("terminal.ansiBrightMagenta", dict_get bright "magenta" "#ff92df");
    ("terminal.ansiBrightCyan", dict_get bright "cyan" "#a4ffff");
    ("terminal.ansiBrightWhite", dict_get bright "white" "#ffffff");
    ("terminal.border", ui_border_color ui);
    ("terminalCursor.background", cursor);
    ("terminalCursor.foreground", bg);
    ("input.background", ui_input_bg ui);
    ("input.foreground", fg);
    ("input.border", ui_border_color ui);
    ("input.placeholderForeground", dict_get normal "black" "#6272a4");
    ("inputOption.activeBorder", dict_get normal "blue" "#8be9fd");
    ("inputValidation.infoBackground", dict_get normal "blue" "#8be9fd");
    ("inputValidation.infoBorder", dict_get normal "blue" "#8be9fd");
    ("inputValidation.warningBackground", dict_get normal "yellow" "#f1fa8c");
    ("inputValidation.warningBorder", dict_get normal "yellow" "#f1fa8c");
    ("inputValidation.errorBackground", dict_get normal "red" "#ff5555");
    ("inputValidation.errorBorder", dict_get normal "red" "#ff5555");
    ("dropdown.background", ui_input_bg ui);
    ("dropdown.foreground", fg);
    ("dropdown.border", ui_border_color ui);
    ("dropdown.listBackground", ui_input_bg ui);
    ("list.activeSelectionBackground", ui_list_bg ui);
    ("list.activeSelectionForeground", fg);
    ("list.hoverBackground", ui_hover_bg ui);
    ("list.hoverForeground", fg);
    ("list.focusBackground", ui_list_bg ui);
    ("list.focusForeground", fg);
    ("list.inactiveSelectionBackground", ui_list_bg ui);
    ("list.inactiveSelectionForeground", fg);
    ("list.inactiveFocusBackground", ui_list_bg ui);
    ("list.inactiveFocusForeground", fg);
    ("list.warningForeground", dict_get normal "yellow" "#f1fa8c");
    ("list.errorForeground", dict_get normal "red" "#ff5555");
    ("list.infoForeground", dict_get normal "blue" "#8be9fd");
    ("list.highlightForeground", dict_get normal "blue" "#8be9fd");
    ("list.deemphasizedForeground", dict_get normal "black" "#6272a4");
    ("ai-prompt-bar.background", ui_input_bg ui);
    ("ai-prompt-bar.foreground", fg);
    ("ai-prompt-bar.border", dict_get normal "blue" "#8be9fd");
    ("ai-prompt-bar.button.background", ui_list_bg ui);
    ("ai-prompt-bar.button.foreground", fg);
    ("ai-prompt-bar.button.hoverBackground", ui_hover_bg ui);
    ("ai-prompt-bar.button.keep.background", dict_get normal "green" "#50fa7b");
    ("ai-prompt-bar.button.keep.foreground", bg);
    ("chat.background", ui_side_bg ui);
    ("chat.foreground", fg);
    ("chat.border", dict_get normal "blue" "#8be9fd");
    ("chat.requestBackground", ui_input_bg ui);
    ("chat.responseBackground", ui_list_bg ui);
    ("button.background", ui_input_bg ui);
    ("button.foreground", fg);
    ("button.hoverBackground", ui_hover_bg ui);
    ("button.border", ui_border_color ui);
    ("button.secondaryBackground", ui_panel_bg ui);
    ("button.secondaryForeground", fg);
    ("button.secondaryHoverBackground", ui_hover_bg ui);
    ("button.prominentBackground", dict_get normal "blue" "#8be9fd");
    ("button.prominentForeground", bg);
    ("button.prominentHoverBackground", dict_get bright "blue" "#d6acff");
    ("scrollbarSlider.background", ui_border_color ui);
    ("scrollbarSlider.hoverBackground", dict_get normal "black" "#6272a4");
    ("scrollbarSlider.activeBackground", dict_get normal "blue" "#8be9fd");
    ("focusBorder", dict_get normal "blue" "#8be9fd");
    ("contrastBorder", ui_border_color ui);
    ("contrastActiveBorder", dict_get normal "blue" "#8be9fd");
    ("foreground", fg);
    ("disabledForeground", dict_get normal "black" "#6272a4");
    ("errorForeground", dict_get normal "red" "#ff5555");
    ("descriptionForeground", dict_get normal "black" "#6272a4");
    ("widget.background", ui_input_bg ui);
    ("widget.foreground", fg);
    ("widget.border", ui_border_color ui);
    ("widget.shadow", "#00000040");
    ("editorWidget.background", ui_input_bg ui);
    ("editorWidget.foreground", fg);
    ("editorWidget.border", ui_border_color ui);
    ("editorWidget.resizeBorder", dict_get normal "blue" "#8be9fd");
    ("inputOption.activeBackground", dict_get normal "blue" "#8be9fd");
    ("inputOption.activeForeground", bg);
    ("inputOption.activeBorder", dict_get normal "blue" "#8be9fd");
    ("inputOption.hoverBackground", ui_hover_bg ui);
    ("selection.background", dict_get normal "blue" "#8be9fd");
    ("editorLineNumber.foreground", dict_get normal "black" "#6272a4");
    ("editorLineNumber.activeForeground", fg);
    ("editorLineNumber.background", bg);
    ("actionItem.background", ui_input_bg ui);
    ("actionItem.foreground", fg);
    ("actionItem.border", ui_border_color ui);
    ("actionItem.hoverBackground", ui_hover_bg ui);
    ("actionItem.hoverForeground", fg);
    ("actionItem.activeBackground", ui_list_bg ui);
    ("actionItem.activeForeground", fg);
    ("actionItem.disabledForeground", dict_get normal "black" "#6272a4");
    ("actionLabel.background", ui_input_bg ui);
    ("actionLabel.foreground", fg);
    ("actionLabel.border", ui_border_color ui);
    ("actionLabel.hoverBackground", ui_hover_bg ui);
    ("actionLabel.hoverForeground", fg);
    ("actionLabel.activeBackground", ui_list_bg ui);
    ("actionLabel.activeForeground", fg);
    ("actionLabel.disabledForeground", dict_get normal "black" "#6272a4");
    ("menuEntry.background", ui_input_bg ui);
    ("menuEntry.foreground", fg);
    ("menuEntry.border", ui_border_color ui);
    ("menuEntry.hoverBackground", ui_hover_bg ui);
    ("menuEntry.hoverForeground", fg);
    ("menuEntry.activeBackground", ui_list_bg ui);
    ("menuEntry.activeForeground", fg);
    ("menuEntry.disabledForeground", dict_get normal "black" "#6272a4");
    ("outlineElement.background", ui_side_bg ui);
    ("outlineElement.foreground", fg);
    ("outlineElement.border", ui_border_color ui);
    ("outlineElement.hoverBackground", ui_hover_bg ui);
    ("outlineElement.hoverForeground", fg);
    ("outlineElement.activeBackground", ui_list_bg ui);
    ("outlineElement.activeForeground", fg);
    ("outlineElement.icon", dict_get normal "blue" "#8be9fd");
    ("outlineElement.activeIcon", dict_get normal "cyan" "#8be9fd");
    ("outlineElement.inactiveIcon", dict_get normal "black" "#6272a4");
    ("codicon.foreground", dict_get normal "blue" "#8be9fd");
    ("codicon.activeForeground", dict_get normal "cyan" "#8be9fd");
    ("codicon.inactiveForeground", dict_get normal "black" "#6272a4");
    ("codicon.hoverForeground", dict_get normal "cyan" "#8be9fd");
    ("codicon.disabledForeground", dict_get normal "black" "#6272a4");
    ("codicon.symbolClass", dict_get normal "cyan" "#8be9fd");
    ("codicon.symbolMethod", dict_get normal "green" "#50fa7b");
    ("codicon.symbolFunction", dict_get normal "green" "#50fa7b");
    ("codicon.symbolVariable", dict_get normal "blue" "#8be9fd");
    ("codicon.symbolInterface", dict_get normal "cyan" "#8be9fd");
    ("codicon.symbolModule", dict_get normal "cyan" "#8be9fd");
    ("codicon.symbolProperty", dict_get normal "blue" "#8be9fd");
    ("codicon.symbolEnum", dict_get normal "yellow" "#f1fa8c");
    ("codicon.symbolKeyword", dict_get normal "magenta" "#ff79c6");
    ("codicon.symbolSnippet", dict_get normal "green" "#50fa7b");
    ("codicon.symbolColor", dict_get normal "magenta" "#ff79c6");
    ("codicon.symbolFile", dict_get normal "cyan" "#8be9fd");
    ("codicon.symbolReference", dict_get normal "blue" "#8be9fd");
    ("codicon.symbolFolder", dict_get normal "blue" "#8be9fd");
    ("codicon.symbolTypeParameter", dict_get normal "cyan" "#8be9fd");
    ("codicon.symbolUnit", dict_get normal "yellow" "#f1fa8c");
    ("codicon.symbolValue", dict_get normal "yellow" "#f1fa8c");
    ("codicon.symbolEnum", dict_get normal "yellow" "#f1fa8c");
    ("codicon.symbolStruct", dict_get normal "cyan" "#8be9fd");
    ("codicon.symbolEvent", dict_get normal "red" "#ff5555");
    ("codicon.symbolOperator", dict_get normal "red" "#ff5555");
    ("codicon.symbolTypeParameter", dict_get normal "cyan" "#8be9fd");
    ("icon.foreground", dict_get normal "blue" "#8be9fd");
    ("icon.activeForeground", dict_get normal "cyan" "#8be9fd");
    ("icon.inactiveForeground", dict_get normal "black" "#6272a4");
    ("icon.hoverForeground", dict_get normal "cyan" "#8be9fd");
    ("icon.disabledForeground", dict_get normal "black" "#6272a4");
    ("icon.warningForeground", dict_get normal "yellow" "#f1fa8c");
    ("icon.errorForeground", dict_get normal "red" "#ff5555");
    ("icon.successForeground", dict_get normal "green" "#50fa7b");
    ("icon.infoForeground", dict_get normal "blue" "#8be9fd");
    ("symbolIcon.arrayForeground", dict_get normal "yellow" "#f1fa8c");
    ("symbolIcon.booleanForeground", dict_get normal "blue" "#8be9fd");
    ("symbolIcon.classForeground", dict_get normal "cyan" "#8be9fd");
    ("symbolIcon.colorForeground", dict_get normal "magenta" "#ff79c6");
    ("symbolIcon.constantForeground", dict_get normal "yellow" "#f1fa8c");
    ("symbolIcon.constructorForeground", dict_get normal "green" "#50fa7b");
    ("symbolIcon.enumeratorForeground", dict_get normal "yellow" "#f1fa8c");
    ("symbolIcon.enumeratorMemberForeground", dict_get normal "blue" "#8be9fd");
    ("symbolIcon.eventForeground", dict_get normal "red" "#ff5555");
    ("symbolIcon.fieldForeground", dict_get normal "blue" "#8be9fd");
    ("symbolIcon.fileForeground", dict_get normal "cyan" "#8be9fd");
    ("symbolIcon.folderForeground", dict_get normal "blue" "#8be9fd");
    ("symbolIcon.functionForeground", dict_get normal "green" "#50fa7b");
    ("symbolIcon.interfaceForeground", dict_get normal "cyan" "#8be9fd");
    ("symbolIcon.keyForeground", dict_get normal "blue" "#8be9fd");
    ("symbolIcon.keywordForeground", dict_get normal "magenta" "#ff79c6");
    ("symbolIcon.methodForeground", dict_get normal "green" "#50fa7b");
    ("symbolIcon.moduleForeground", dict_get normal "cyan" "#8be9fd");
    ("symbolIcon.namespaceForeground", dict_get normal "cyan" "#8be9fd");
    ("symbolIcon.nullForeground", dict_get normal "red" "#ff5555");
    ("symbolIcon.numberForeground", dict_get normal "yellow" "#f1fa8c");
    ("symbolIcon.objectForeground", dict_get normal "blue" "#8be9fd");
    ("symbolIcon.operatorForeground", dict_get normal "red" "#ff5555");
    ("symbolIcon.packageForeground", dict_get normal "cyan" "#8be9fd");
    ("symbolIcon.propertyForeground", dict_get normal "blue" "#8be9fd");
    ("symbolIcon.referenceForeground", dict_get normal "blue" "#8be9fd");
    ("symbolIcon.snippetForeground", dict_get normal "green" "#50fa7b");
    ("symbolIcon.stringForeground", dict_get normal "green" "#50fa7b");
    ("symbolIcon.structForeground", dict_get normal "cyan" "#8be9fd");
    ("symbolIcon.textForeground", fg);
    ("symbolIcon.typeParameterForeground", dict_get normal "cyan" "#8be9fd");
    ("symbolIcon.unitForeground", dict_get normal "yellow" "#f1fa8c");
    ("symbolIcon.variableForeground", dict_get normal "blue" "#8be9fd");
    ("debugIcon.startForeground", dict_get normal "green" "#50fa7b");
    ("debugIcon.pauseForeground", dict_get normal "yellow" "#f1fa8c");
    ("debugIcon.stopForeground", dict_get normal "red" "#ff5555");
    ("debugIcon.disconnectForeground", dict_get normal "red" "#ff5555");
    ("debugIcon.restartForeground", dict_get normal "green" "#50fa7b");
    ("debugIcon.stepOverForeground", dict_get normal "blue" "#8be9fd");
    ("debugIcon.stepIntoForeground", dict_get normal "blue" "#8be9fd");
    ("debugIcon.stepOutForeground", dict_get normal "blue" "#8be9fd");
    ("debugIcon.continueForeground", dict_get normal "green" "#50fa7b");
    ("debugIcon.stepBackForeground", dict_get normal "blue" "#8be9fd");
    ("problemsErrorIcon.foreground", dict_get normal "red" "#ff5555");
    ("problemsWarningIcon.foreground", dict_get normal "yellow" "#f1fa8c");
    ("problemsInfoIcon.foreground", dict_get normal "blue" "#8be9fd");
    ("tree.expandIcon", dict_get normal "blue" "#8be9fd");
    ("tree.collapseIcon", dict_get normal "blue" "#8be9fd");
    ("commentsView.resolvedIcon", dict_get normal "green" "#50fa7b");
    ("commentsView.unresolvedIcon", dict_get normal "blue" "#8be9fd")
  ].

(** The list under [editor.tokenColorCustomizations], [textMateRules]. *)
Definition text_mate_rules (fg : string) (normal : gmap string string)
  : list rule :=
  [
    Rule ["comment"; "punctuation.definition.comment"; "comment.line"; "comment.block"]
      (dict_get normal "black" "#6272a4");
    Rule ["string"; "string.quoted"; "string.quoted.single"; "string.quoted.double"]
      (dict_get normal "green" "#50fa7b");
    Rule ["constant.numeric"; "constant.numeric.integer"; "constant.numeric.float"]
      (dict_get normal "yellow" "#f1fa8c");
    Rule ["constant.language"; "constant.character"; "constant.character.escape"]
      (dict_get normal "red" "#ff5555");
    Rule ["variable"; "variable.other"; "variable.parameter"]
      (fg);
    Rule ["keyword"; "storage.type"; "storage.modifier"; "storage.class"]
      (dict_get normal "magenta" "#ff79c6");
    Rule ["entity.name.function"; "support.function"; "meta.function-call"]
      (dict_get normal "blue" "#8be9fd");
    Rule ["entity.name.class"; "entity.name.type"; "support.class"]
      (dict_get normal "cyan" "#8be9fd");
    Rule ["entity.name.tag"; "support.type"]
      (dict_get normal "green" "#50fa7b");
    Rule ["punctuation.definition.string"; "punctuation.definition.parameters"]
      (dict_get normal "black" "#6272a4")
  ].

Definition generate_vscode_theme (theme_name : string) (colors : colors)
  : option theme :=
  let is_light := is_light_theme (dict_get (c_primary colors) "background" "#1e1e2e") in
  let bg := dict_get (c_primary colors) "background" "#1e1e2e" in
  let fg := dict_get (c_primary colors) "foreground" "#cdd6f4" in
  let normal := default ∅ (c_normal colors) in
  let bright := default ∅ (c_bright colors) in
  let cursor := dict_get (c_primary colors) "cursor" fg in
  ui ← generate_ui_colors colors is_light;
  Some (Theme theme_name
          (dict_literal (color_customization_items bg fg cursor normal bright ui))
          (text_mate_rules fg normal)).

(** The raw palette [parse_alacritty_colors] extracts from a source that
    holds the two assignments of [background] and [foreground] and nothing
    else: the two scalar patterns match, the [cursor] pattern and the two
    section patterns do not, and [normal] and [bright] are set to empty
    dictionaries. *)
Definition minimal_raw : colors :=
  Colors {[ "background" := "#282a36"; "foreground" := "#f8f8f2" ]}
    (Some ∅) (Some ∅).

(** A palette with no key at all. *)
Definition empty_raw : colors := Colors ∅ None None.

(** ** The palette of the terminal configuration

    [parse_alacritty_colors] applies five regular expressions to the text
    of the file. Each of them is matched here by a function written for
    it; in none of them can backtracking find a match that the greedy (or,
    for the section, the lazy) scan misses. *)

Module PyRe.

(** The line feed, code point 10. *)
Definition newline : ascii := "010"%char.

(** The rest of [s] after the literal [p], when [s] begins with it. *)
Fixpoint after_prefix (p s : string) : option string :=
  match p with
  | EmptyString => Some s
  | String a p' =>
      match s with
      | String b s' => if Ascii.eqb a b then after_prefix p' s' else None
      | EmptyString => None
      end
  end.

(** The longest run of characters that satisfy [p] at the head of [s],
    and what follows it. *)
Fixpoint span (p : ascii -> bool) (s : string) : string * string :=
  match s with
  | String c s' =>
      if p c then let '(run, rest) := span p s' in (String c run, rest)
      else (EmptyString, s)
  | EmptyString => (EmptyString, EmptyString)
  end.

(** A match of [<key>\s*=\s*Q([^Q]+)Q] at the head of [s], where Q is the
    class of the two quote characters: its group. [\s] on a [str] is
    [str.isspace]. After the key the pattern is deterministic: the
    character that must follow each repetition is outside the repeated
    class. *)
Definition match_assignment (key s : string) : option string :=
  s ← after_prefix key s;
  match PyStr.lstrip PyStr.is_space s with
  | String "=" s =>
      match PyStr.lstrip PyStr.is_space s with
      | String q s =>
          if PyStr.is_quote q then
            match span (fun c => negb (PyStr.is_quote c)) s with
            | (String c value, String _ _) => Some (String c value)
            | _ => None
            end
          else None
      | EmptyString => None
      end
  | _ => None
  end.

(** [re.search] of that pattern: the match at the first position that has
    one. *)
Fixpoint search_assignment (key s : string) : option string :=
  match match_assignment key s with
  | Some value => Some value
  | None =>
      match s with
      | String _ s' => search_assignment key s'
      | EmptyString => None
      end
  end.

(** The group of [(.*?)(?=\[|$)] under [re.DOTALL] at the head of [s]: the
    shortest text after which comes a bracket, the end of the string, or
    the line feed that ends the string. *)
Fixpoint lazy_until_bracket (s : string) : string :=
  match s with
  | EmptyString => EmptyString
  | String c s' =>
      if Ascii.eqb c "[" then EmptyString
      else
        match s' with
        | EmptyString => if Ascii.eqb c newline then EmptyString else String c EmptyString
        | _ => String c (lazy_until_bracket s')
        end
  end.

(** [re.search] of [<header>(.*?)(?=\[|$)], the header being a literal:
    the group at the first occurrence of the header. *)
Fixpoint search_section (header s : string) : option string :=
  match after_prefix header s with
  | Some rest => Some (lazy_until_bracket rest)
  | None =>
      match s with
      | String _ s' => search_section header s'
      | EmptyString => None
      end
  end.

End PyRe.

Module PyText.

(** [s.split(sep)] for a separator of one character. *)
Fixpoint split (sep : ascii) (s : string) : list string :=
  match s with
  | EmptyString => [EmptyString]
  | String c s' =>
      if Ascii.eqb c sep then EmptyString :: split sep s'
      else
        match split sep s' with
        | piece :: pieces => String c piece :: pieces
        | [] => [String c EmptyString]
        end
  end.

(** [s.split(sep, 1)] when [sep in s]: the text before the first
    separator and the text after it; [None] when [sep] is not in [s]. *)
Fixpoint split_once (sep : ascii) (s : string) : option (string * string) :=
  match s with
  | EmptyString => None
  | String c s' =>
      if Ascii.eqb c sep then Some (EmptyString, s')
      else '(before, after) ← split_once sep s'; Some (String c before, after)
  end.

(** The truth value of a string. *)
Definition nonempty (s : string) : bool :=
  match s with
  | EmptyString => false
  | String _ _ => true
  end.

End PyText.

(** One iteration of the loop over the lines of a section. *)
Definition parse_line (section_colors : gmap string string) (line : string)
  : gmap string string :=
  match PyText.split_once "=" line with
  | Some (key, value) =>
      let key := PyStr.strip PyStr.is_space key in
      let value := PyStr.strip PyStr.is_quote (PyStr.strip PyStr.is_space value) in
      if PyText.nonempty key && PyText.nonempty value
         && negb (PyStr.startswith key "#")
      then <[key := value]> section_colors
      else section_colors
  | None => section_colors
  end.

(** The dictionary of one section, [header] being [[colors.normal]] or
    [[colors.bright]]. *)
Definition parse_section (header content : string) : gmap string string :=
  match PyRe.search_section header content with
  | Some body => fold_left parse_line (PyText.split PyRe.newline body) ∅
  | None => ∅
  end.

(** [d[key] = m.group(1)] if the pattern of [key] matches. *)
Definition set_match (key content : string) (d : gmap string string)
  : gmap string string :=
  match PyRe.search_assignment key content with
  | Some value => <[key := value]> d
  | None => d
  end.

(** [parse_alacritty_colors] on the text [f.read()] returns; [None] is a
    file that cannot be opened or read: the exception is caught and the
    dictionary, still empty, is returned. *)
Definition parse_alacritty_colors (file : option string) : colors :=
  match file with
  | None => Colors ∅ None None
  | Some content =>
      Colors
        (set_match "cursor" content
           (set_match "foreground" content (set_match "background" content ∅)))
        (Some (parse_section "[colors.normal]" content))
        (Some (parse_section "[colors.bright]" content))
  end.

(** A source that holds the two assignments of [background] and
    [foreground] and nothing else. *)
Definition minimal_source : string :=
  "background = '#282a36'" ++ String PyRe.newline
    ("foreground = '#f8f8f2'" ++ String PyRe.newline "").

(** ** The pipeline *)

(** The part of [generate_theme_for_name] between reading the palette and
    writing the document: validation, then generation from the validated
    palette; the issues are what the function prints. *)
Definition generate_theme_for_colors (theme_name : string) (raw_colors : colors)
  : option (theme * list issue) :=
  '(colors, issues) ← validate_and_fix_colors raw_colors;
  vscode_theme ← generate_vscode_theme theme_name colors;
  Some (vscode_theme, issues).

(** ** Vocabulary of the properties *)

(** [a] is adjusted at least as much as [b]. *)
Definition factor_ge (is_light : bool) (a b : surface) : bool :=
  (surface_factor is_light b <=? surface_factor is_light a)%float.

(** A chain [s1 >= s2 >= ... >= sn] of surfaces. *)
Fixpoint factor_chain (is_light : bool) (l : list surface) : bool :=
  match l with
  | a :: (b :: _) as l' => factor_ge is_light a b && factor_chain is_light l'
  | _ => true
  end.

Definition is_lower_hex (c : ascii) : bool :=
  let n := N_of_ascii c in
  ((48 <=? n) && (n <=? 57) || (97 <=? n) && (n <=? 102))%N.

(** [#] followed by six lowercase hexadecimal digits. *)
Definition is_canonical (s : string) : bool :=
  match s with
  | String "#" (String a (String b (String c (String d (String e (String f EmptyString)))))) =>
      is_lower_hex a && is_lower_hex b && is_lower_hex c
      && is_lower_hex d && is_lower_hex e && is_lower_hex f
  | _ => false
  end.

(** The scopes of the token rule for variables. *)
Definition variable_scopes : list string :=
  ["variable"; "variable.other"; "variable.parameter"].

(** A raw palette without [cursor] whose foreground is not the fallback
    foreground. *)
Definition no_cursor_raw : colors :=
  Colors {[ "background" := "#1e1e2e"; "foreground" := "#cdd6f4" ]}
    (Some ∅) (Some ∅).

(** [c] is the colour of one of the eight slots of [normal]. *)
Definition from_normal_slot (normal : gmap string string) (c : string) : Prop :=
  exists name, In name color_names /\ normal !! name = Some c.

(** A fully populated palette whose foreground is none of its normal
    colours. *)
Definition sample_palette : colors :=
  Colors {[ "background" := "#1e1e2e"; "foreground" := "#cdd6f4";
            "cursor" := "#cdd6f4" ]}
    (Some fallback_normal) (Some fallback_bright).

(** The raw palette with a white background and the foreground [#fefefe]. *)
Definition white_raw : colors :=
  Colors {[ "background" := "#ffffff"; "foreground" := "#fefefe" ]}
    (Some ∅) (Some ∅).

Definition cursor_fallback_issue : issue :=
  Msg "Missing cursor color - using fallback".

Definition cursor_derived_issue : issue :=
  Msg "Missing cursor color - derived from foreground".

(** The messages of the loops over [normal] and [bright]. *)
Definition slot_issue (section : string) (i : issue) : Prop :=
  exists rest,
    i = Msg ("Invalid " ++ section ++ "." ++ rest)
    \/ i = Msg ("Missing " ++ section ++ "." ++ rest).

(** The messages of the contrast check. *)
Definition contrast_issue (i : issue) : Prop :=
  (exists c, i = LowContrast c)
  \/ i = Msg "Applied fallback colors due to extremely low contrast".

(** The issues of a section whose eight slots are all missing. *)
Definition fallback_issues (section : string) : list issue :=
  map (fun name => Msg ("Missing " ++ section ++ "." ++ name ++ " color - using fallback"))
    color_names.

(** The sixteen keys of the theme document that carry the ANSI slots. *)
Definition ansi_keys : list string :=
  ["terminal.ansiBlack"; "terminal.ansiRed"; "terminal.ansiGreen";
   "terminal.ansiYellow"; "terminal.ansiBlue"; "terminal.ansiMagenta";
   "terminal.ansiCyan"; "terminal.ansiWhite";
   "terminal.ansiBrightBlack"; "terminal.ansiBrightRed";
   "terminal.ansiBrightGreen"; "terminal.ansiBrightYellow";
   "terminal.ansiBrightBlue"; "terminal.ansiBrightMagenta";
   "terminal.ansiBrightCyan"; "terminal.ansiBrightWhite"].

(** The fallback colours of the sixteen slots, in the order of
    [ansi_keys]. *)
Definition ansi_fallbacks : list (option string) :=
  (map (fun name => fallback_normal !! name) color_names
   ++ map (fun name => fallback_bright !! name) color_names)%list.

(** The value of a hexadecimal digit. *)
Definition hex_value (c : ascii) : Z := default 0 (PyInt.hex_digit c).

(** One channel through the adjustment of surface [s]: the truncation
    succeeds and the clamped value is written as two lowercase digits. *)
Definition channel_adjusted (is_light : bool) (s : surface) (v : Z) : bool :=
  let factor := surface_factor is_light s in
  let scaled :=
    if is_light then PyNum.int_of_float (PyNum.float_of_int v * (1 - factor))%float
    else PyNum.int_of_float (PyNum.float_of_int v * (1 + factor))%float in
  match scaled with
  | Some v' =>
      match PyNum.format_02x (if is_light then Z.max 0 v' else Z.min 255 v') with
      | String x (String y EmptyString) => is_lower_hex x && is_lower_hex y
      | _ => false
      end
  | None => false
  end.

(** The values a channel of a canonical colour takes. *)
Definition channel_values : list Z := map Z.of_nat (seq 0 256).

Ltac each_char c :=
  destruct c as [[] [] [] [] [] [] [] []].

Ltac each_color_name H :=
  simpl in H;
  repeat (destruct H as [H | H]; [subst | ]); [ .. | destruct H].

(** ** Vocabulary of the properties of normalisation and channels *)

(** [#] followed by six other characters. *)
Definition is_hash7 (s : string) : bool :=
  match s with
  | String "#" rest => (String.length rest =? 6)%nat
  | _ => false
  end.

(** Every character of [s] satisfies [p]. *)
Definition all_chars (p : ascii -> bool) (s : string) : bool :=
  forallb p (list_ascii_of_string s).

(** A hexadecimal digit of either case, as [int(.., 16)] reads it. *)
Definition is_hex_digit (c : ascii) : bool :=
  match PyInt.hex_digit c with
  | Some _ => true
  | None => false
  end.

(** The 256 characters. *)
Definition all_ascii : list ascii := map ascii_of_nat (seq 0 256).

(** A property of all two-character strings, checked by enumeration. *)
Definition for_all_pairs (P : ascii -> ascii -> bool) : bool :=
  forallb (fun a => forallb (P a) all_ascii) all_ascii.

Definition pair_bounded (a b : ascii) : bool :=
  match PyInt.int16 (String a (String b "")) with
  | Some v => (-15 <=? v) && (v <=? 255)
  | None => true
  end.

Definition pair_round_trip (a b : ascii) : bool :=
  if is_lower_hex a && is_lower_hex b then
    match PyInt.int16 (String a (String b "")) with
    | Some v => (0 <=? v) && (v <=? 255)
                && String.eqb (PyNum.format_02x v) (String a (String b ""))
    | None => false
    end
  else true.

Definition channel_round_trip (v : Z) : bool :=
  match PyNum.format_02x v with
  | String a (String b EmptyString) =>
      is_lower_hex a && is_lower_hex b
      && match PyInt.int16 (String a (String b "")) with
         | Some v' => v' =? v
         | None => false
         end
  | _ => false
  end.

(** One channel through [adjust_color_for_theme]: scaled, truncated and
    clamped on the side the branch clamps. *)
Definition adjust_channel (is_light : bool) (factor : float) (v : Z) : option Z :=
  if is_light then
    v' ← PyNum.int_of_float (PyNum.float_of_int v * (1 - factor))%float;
    Some (Z.max 0 v')
  else
    v' ← PyNum.int_of_float (PyNum.float_of_int v * (1 + factor))%float;
    Some (Z.min 255 v').

(** The values a channel of any string takes. *)
Definition signed_channel_values : list Z :=
  map (fun n => Z.of_nat n - 15) (seq 0 271).

Definition channel_defined (is_light : bool) (s : surface) (v : Z) : bool :=
  match adjust_channel is_light (surface_factor is_light s) v with
  | Some _ => true
  | None => false
  end.

Definition channel_moves (is_light : bool) (s : surface) (v : Z) : bool :=
  match adjust_channel is_light (surface_factor is_light s) v with
  | Some v' =>
      (0 <=? v') && (v' <=? 255) && (if is_light then v' <=? v else v <=? v')
  | None => false
  end.

Definition channel_kept (is_light : bool) (v : Z) : bool :=
  match adjust_channel is_light 0 v with
  | Some v' => v' =? v
  | None => false
  end.

(** ** Vocabulary of the exact brightness test *)

(** The perceived brightness test of [is_light_theme] on three channels. *)
Definition is_bright (r g b : Z) : bool :=
  (0.5 <? (0.299 * PyNum.float_of_int r + 0.587 * PyNum.float_of_int g
           + 0.114 * PyNum.float_of_int b) / 255.0)%float.

(** The same test in exact arithmetic: 0.299 r + 0.587 g + 0.114 b > 127.5. *)
Definition is_bright_exact (r g b : Z) : bool :=
  127500 <? 299 * r + 587 * g + 114 * b.

(** The channel values as machine integers, each with its weighted float
    and its weighted integer. *)
Definition weighted (w : float) (k : int) : list (int * float * int) :=
  map (fun v => let i := Uint63.of_Z v in (i, (w * of_uint63 i)%float, (k * i)%uint63))
    channel_values.

(** A property of all triples drawn from three lists. *)
Definition for_all_triples {A : Type} (P : A -> A -> A -> bool)
    (la lb lc : list A) : bool :=
  forallb (fun a => forallb (fun b => forallb (P a b) lc) lb) la.

(** On three weighted channels: the float test agrees with the exact test,
    but for the colour (218, 58, 248). *)
Definition weighted_agree (x y z : int * float * int) : bool :=
  let '(r, fr, ir) := x in
  let '(g, fg, ig) := y in
  let '(b, fb, ib) := z in
  Bool.eqb (0.5 <? (fr + fg + fb) / 255.0)%float
    ((127500 <? ir + ig + ib)%uint63
     || (r =? 218)%uint63 && (g =? 58)%uint63 && (b =? 248)%uint63).

(** ** Vocabulary of the properties of the theme document *)

(** No string occurs twice in the list. *)
Fixpoint distinct (l : list string) : bool :=
  match l with
  | [] => true
  | x :: l' => negb (existsb (String.eqb x) l') && distinct l'
  end.

(** A value of the document: a canonical colour or one of the two
    literals of the table. *)
Definition document_value (v : string) : Prop :=
  is_canonical v = true \/ v = "0.4" \/ v = "#00000040".

(** Every value a dictionary holds is a canonical colour. *)
Definition canonical_dict (d : gmap string string) : Prop :=
  forall k v, d !! k = Some v -> is_canonical v = true.

(** ** Vocabulary of the properties of validation *)

(** The colour a field resolves to: its normalised raw value, or [dflt]
    when the field is missing or invalid. *)
Definition resolved (raw : gmap string string) (key dflt : string) : string :=
  default dflt (raw !! key ≫= normalize_hex_color).

(** The colour the cursor resolves to, [fg] being the resolved
    foreground. *)
Definition resolved_cursor (raw : gmap string string) (fg : string) : string :=
  match raw !! "cursor" with
  | Some value => default "#282a36" (normalize_hex_color value)
  | None => fg
  end.

(** The field is present and valid. *)
Definition field_ok (raw : gmap string string) (key : string) : bool :=
  match raw !! key with
  | Some value => is_valid_hex_color value
  | None => false
  end.

(** The number of fields of [keys] that are missing or invalid. *)
Definition bad_fields (raw : gmap string string) (keys : list string) : nat :=
  list_sum (map (fun key => if field_ok raw key then 0%nat else 1%nat) keys).

(** The number of missing or invalid fields of a raw palette, out of
    nineteen. *)
Definition problems (raw : colors) : nat :=
  (bad_fields (c_primary raw) primary_keys
   + bad_fields (default ∅ (c_normal raw)) color_names
   + bad_fields (default ∅ (c_bright raw)) color_names)%nat.

(** The issue recorded for a cursor entry that is not a colour. *)
Definition invalid_cursor_issue (value : string) : issue :=
  Msg ("Invalid cursor color '" ++ value ++ "' - using fallback").

(** The primary dictionary [validate_and_fix_colors] builds before the
    contrast check. *)
Definition resolved_primary (raw : gmap string string) : gmap string string :=
  let fg := resolved raw "foreground" "#f8f8f2" in
  <["cursor" := resolved_cursor raw fg]>
    (<["foreground" := fg]>
       (<["background" := resolved raw "background" "#282a36"]> ∅)).

(** The contrast the check at the end of [validate_and_fix_colors]
    measures. *)
Definition resolved_contrast (raw : gmap string string) : R :=
  calculate_contrast_ratio (resolved raw "background" "#282a36")
    (resolved raw "foreground" "#f8f8f2").

(** A section dictionary of the result: each of the eight names resolves
    against [fallback], and there is no other key. *)
Definition section_resolved (raw fallback fixed : gmap string string) : Prop :=
  (forall name, In name color_names ->
     exists fb, fallback !! name = Some fb
                /\ fixed !! name = Some (resolved raw name fb))
  /\ (forall name, ~ In name color_names -> fixed !! name = None).

(** The issues and the primary dictionary after the contrast check, as
    functions of the contrast [c]. *)
Definition contrast_issues (c : R) : list issue :=
  if Rlt_dec c MIN_READABLE_CONTRAST then
    LowContrast c ::
      (if Rlt_dec c MIN_ACCEPTABLE_CONTRAST
       then [Msg "Applied fallback colors due to extremely low contrast"] else [])
  else [].

Definition contrast_fallback (c : R) : bool :=
  if Rlt_dec c MIN_ACCEPTABLE_CONTRAST then true else false.

(** A palette whose cursor entry is a word, not a colour. *)
Definition named_cursor_raw : colors :=
  Colors {[ "background" := "#282a36"; "foreground" := "#f8f8f2";
            "cursor" := "white" ]} (Some ∅) (Some ∅).

Local Open Scope R_scope.

(** The luminance of three channels. *)
Definition channels_luminance (rgb : Z * Z * Z) : R :=
  let '(r, g, b) := rgb in
  LUMINANCE_R * gamma_correct (IZR r / 255.0)
  + LUMINANCE_G * gamma_correct (IZR g / 255.0)
  + LUMINANCE_B * gamma_correct (IZR b / 255.0).

Local Close Scope R_scope.

(** ** Vocabulary of the properties of the parser *)

(** [c] is not a quote. *)
Definition not_quote (c : ascii) : bool := negb (PyStr.is_quote c).

(** An assignment as the pattern of a primary key reads it: the key, white
    space, [=], white space, and the value between two quotes, with any
    text before and after. *)
Definition assignment (pre key ws1 ws2 : string) (q1 : ascii) (value : string)
    (q2 : ascii) (post : string) : string :=
  pre ++ key ++ ws1 ++ "=" ++ ws2 ++ String q1 (value ++ String q2 post).

(** The pattern of [key] matches [pre ++ follow] at a position inside
    [pre]. *)
Fixpoint matched_within (key pre follow : string) : bool :=
  match pre with
  | EmptyString => false
  | String _ pre' =>
      match PyRe.match_assignment key (pre ++ follow) with
      | Some _ => true
      | None => matched_within key pre' follow
      end
  end.

(** [c] is not the character [x]. *)
Definition is_not (x c : ascii) : bool := negb (Ascii.eqb c x).

(** An entry as the loop over the lines of a section stores it: neither
    side is empty, neither holds a line feed or an opening bracket, the key
    is not a comment, holds no [=] and has no white space around it, and
    the value has no quote at either end. *)
Definition clean_entry (key value : string) : bool :=
  PyText.nonempty key && PyText.nonempty value
  && negb (PyStr.startswith key "#")
  && String.eqb (PyStr.strip PyStr.is_space key) key
  && String.eqb (PyStr.strip PyStr.is_quote value) value
  && all_chars (is_not "=") key
  && all_chars (is_not PyRe.newline) key && all_chars (is_not PyRe.newline) value
  && all_chars (is_not "[") key && all_chars (is_not "[") value.

(** A literal occurs in [pre ++ follow] at a position inside [pre]. *)
Fixpoint occurs_within (literal pre follow : string) : bool :=
  match pre with
  | EmptyString => false
  | String _ pre' =>
      match PyRe.after_prefix literal (pre ++ follow) with
      | Some _ => true
      | None => occurs_within literal pre' follow
      end
  end.

(** A key and a value as a configuration file writes them: a key is a
    word without white space, [=] or bracket that does not begin with [#];
    a value is a text without quote, line feed or bracket. *)
Definition key_char (c : ascii) : bool :=
  negb (PyStr.is_space c) && is_not "=" c && is_not "[" c.

Definition value_char (c : ascii) : bool :=
  not_quote c && is_not PyRe.newline c && is_not "[" c.

Definition plain_key (key : string) : bool :=
  PyText.nonempty key && negb (PyStr.startswith key "#") && all_chars key_char key.

Definition plain_value (value : string) : bool :=
  PyText.nonempty value && all_chars value_char value.

Definition plain_entry (entry : string * string) : bool :=
  plain_key (fst entry) && plain_value (snd entry).

(** The line of an entry, its value between two quotes [q], and the text
    of a list of entries, one line each. *)
Definition entry_line (q : ascii) (entry : string * string) : string :=
  fst entry ++ " = " ++ String q (snd entry ++ String q "").

Definition section_text (q : ascii) (entries : list (string * string)) : string :=
  fold_right (fun entry text => entry_line q entry ++ String PyRe.newline text)
    "" entries.

(** The dictionary of a list of entries; a later entry replaces an earlier
    one of the same key. *)
Definition dict_of (entries : list (string * string)) : gmap string string :=
  fold_left (fun d entry => <[fst entry := snd entry]> d) entries ∅.

(** ** Properties *)

(** C5, as the specification states it, fails: the prefix [0x] is rewritten
    but the digits keep their case, so the result is not the lowercase
    colour. *)
Lemma normalize_examples_lowercase_fails :
  normalize_hex_color "0xAABBCC" <> Some "#aabbcc".
Proof. vm_compute. discriminate. Qed.

(** C5 (amended): [normalize_hex_color] maps [0xAABBCC] to [#AABBCC], the
    case of the digits unchanged, maps [#abc] to [#aabbcc], and fails on
    [not-a-color]. *)
Theorem normalize_examples :
  normalize_hex_color "0xAABBCC" = Some "#AABBCC"
  /\ normalize_hex_color "#abc" = Some "#aabbcc"
  /\ normalize_hex_color "not-a-color" = None.
Proof. repeat split; vm_compute; reflexivity. Qed.

(** *** The factor table of [generate_ui_colors] *)

(** The surfaces of a [ui_colors] are the adjustments of the background by
    the factors of the table. *)
Lemma generate_ui_colors_factors (c : colors) (is_light : bool) (ui : ui_colors) :
  generate_ui_colors c is_light = Some ui ->
  let adjust s :=
    adjust_color_for_theme (dict_get (c_primary c) "background" "#1e1e2e")
      is_light (surface_factor is_light s) in
  adjust side_bg = Some (ui_side_bg ui)
  /\ adjust panel_bg = Some (ui_panel_bg ui)
  /\ adjust tab_bg = Some (ui_tab_bg ui)
  /\ adjust input_bg = Some (ui_input_bg ui)
  /\ adjust list_bg = Some (ui_list_bg ui)
  /\ adjust hover_bg = Some (ui_hover_bg ui)
  /\ adjust border_color = Some (ui_border_color ui).
Proof.
  intros H. cbv zeta. unfold generate_ui_colors in H.
  repeat
    match type of H with
    | context [adjust_color_for_theme ?bg is_light (surface_factor is_light ?s)] =>
        destruct (adjust_color_for_theme bg is_light (surface_factor is_light s));
        simpl in H; [|discriminate H]
    end.
  injection H as <-. simpl. repeat split; reflexivity.
Qed.

(** C1, as the specification states it, fails in both classifications: the
    hover surface is adjusted less than the border, and in the dark table
    the tab surface less than the list surface. *)
Lemma surface_order_as_specified_fails :
  factor_chain true
    [hover_bg; border_color; panel_bg; side_bg; tab_bg; list_bg; input_bg] = false
  /\ factor_chain false
    [hover_bg; border_color; panel_bg; side_bg; tab_bg; list_bg; input_bg] = false
  /\ factor_ge true hover_bg border_color = false
  /\ factor_ge false hover_bg border_color = false
  /\ factor_ge false tab_bg list_bg = false.
Proof. repeat split; vm_compute; reflexivity. Qed.

(** C1 (amended): in both classifications the factors of the table of
    [generate_ui_colors] are ordered
    border >= hover >= panel >= side >= list >= tab >= input. *)
Theorem surface_order (is_light : bool) :
  factor_chain is_light
    [border_color; hover_bg; panel_bg; side_bg; list_bg; tab_bg; input_bg] = true.
Proof. destruct is_light; vm_compute; reflexivity. Qed.

(** *** Classification of an invalid background *)

(** C10: a background that fails normalisation is classified as dark:
    [is_light_theme] returns [false]. *)
Theorem is_light_theme_invalid (background_color : string) :
  normalize_hex_color background_color = None ->
  is_light_theme background_color = false.
Proof. intros H. unfold is_light_theme. rewrite H. reflexivity. Qed.

Lemma is_light_theme_invalid_witness :
  normalize_hex_color "not-a-color" = None
  /\ is_light_theme "not-a-color" = false
  /\ is_light_theme "" = false.
Proof.
  split; [reflexivity|].
  split; apply is_light_theme_invalid; reflexivity.
Defined.

(** *** Canonical colours *)

(** What the primitives do on a lowercase hexadecimal digit. *)
Lemma lower_hex_char (c : ascii) :
  is_lower_hex c = true ->
  PyStr.is_space c = false
  /\ PyStr.is_quote c = false
  /\ PyInt.is_space c = false
  /\ Ascii.eqb c "_" = false
  /\ Ascii.eqb c "x" = false
  /\ Ascii.eqb c "X" = false
  /\ PyInt.hex_digit c = Some (hex_value c)
  /\ 0 <= hex_value c < 16.
Proof.
  each_char c; intros H; vm_compute in H; try discriminate H;
    vm_compute; repeat split; congruence.
Qed.

(** The digit loop reads a string of lowercase digits to its end. *)
Lemma scan_digits_lower_hex (s : string) :
  forallb is_lower_hex (list_ascii_of_string s) = true ->
  forall acc, exists v, PyInt.scan_digits acc false s = Some (v, EmptyString).
Proof.
  induction s as [|c s IH]; intros Hs acc.
  - exists acc. reflexivity.
  - simpl in Hs. apply andb_prop in Hs as [Hc Hs].
    destruct (lower_hex_char c Hc) as (_ & _ & _ & Hu & _ & _ & Hd & _).
    cbn [PyInt.scan_digits]. rewrite Hu, Hd. apply IH, Hs.
Qed.

(** [int(s, 16)] succeeds on a non-empty string of lowercase digits. *)
Lemma int16_lower_hex (c : ascii) (s : string) :
  forallb is_lower_hex (list_ascii_of_string (String c s)) = true ->
  exists v, PyInt.int16 (String c s) = Some v.
Proof.
  intros Hs. pose proof Hs as Hcs. simpl in Hcs.
  apply andb_prop in Hcs as [Hc Hrest].
  destruct (lower_hex_char c Hc) as (_ & _ & Hsp & _ & _ & _ & Hd & _).
  assert (Hskip : PyInt.skip_prefix (String c s) = String c s).
  { destruct s as [|x r]; [each_char c; reflexivity|].
    simpl in Hrest. apply andb_prop in Hrest as [Hx _].
    destruct (lower_hex_char x Hx) as (_ & _ & _ & _ & Hx1 & Hx2 & _).
    each_char c; try reflexivity; cbn [PyInt.skip_prefix]; rewrite Hx1, Hx2; reflexivity. }
  destruct (scan_digits_lower_hex (String c s) Hs 0) as (v & Hv).
  exists v. unfold PyInt.int16. cbn [PyStr.lstrip]. rewrite Hsp.
  each_char c; try (vm_compute in Hc; discriminate Hc);
    cbv zeta; rewrite Hskip, Hd, Hv; reflexivity.
Qed.

Lemma is_canonical_inv (s : string) :
  is_canonical s = true ->
  exists a b c d e f,
    s = String "#" (String a (String b (String c (String d (String e (String f EmptyString))))))
    /\ forallb is_lower_hex [a; b; c; d; e; f] = true.
Proof.
  destruct s as [|h [|a [|b [|c [|d [|e [|f [|g s]]]]]]]];
    try discriminate; try (each_char h; discriminate).
  each_char h; try discriminate. intros H.
  exists a, b, c, d, e, f. split; [reflexivity|].
  simpl in *. rewrite andb_true_r. rewrite <- !andb_assoc in H. exact H.
Qed.

(** A canonical colour normalises to itself. *)
Lemma normalize_canonical (s : string) :
  is_canonical s = true -> normalize_hex_color s = Some s.
Proof.
  intros Hs. destruct (is_canonical_inv s Hs) as (a & b & c & d & e & f & -> & Hall).
  destruct (int16_lower_hex a (String b (String c (String d (String e (String f "")))))
              Hall) as (v & Hv).
  simpl in Hall. repeat (apply andb_prop in Hall as [? Hall]).
  destruct (lower_hex_char f) as (Hf1 & Hf2 & _); [assumption|].
  unfold normalize_hex_color, PyStr.strip.
  cbn [PyStr.lstrip]. change (PyStr.is_space "#") with false. cbv iota.
  cbn [PyStr.rstrip]. rewrite Hf1.
  cbn [PyStr.lstrip]. change (PyStr.is_quote "#") with false. cbv iota.
  cbn [PyStr.rstrip]. rewrite Hf2.
  change (PyStr.startswith (String "#" ?x) "0x") with false.
  cbv iota.
  change (PyStr.startswith (String "#" ?x) "#") with true.
  cbn [negb String.length Nat.eqb PyStr.slice_from].
  rewrite Hv. reflexivity.
Qed.

(** Two lowercase digits read as a channel between 0 and 255. *)
Lemma int16_channel (a b : ascii) :
  is_lower_hex a = true -> is_lower_hex b = true ->
  PyInt.int16 (String a (String b "")) = Some (16 * hex_value a + hex_value b)
  /\ 0 <= 16 * hex_value a + hex_value b <= 255.
Proof.
  intros Ha Hb.
  each_char a; vm_compute in Ha; try discriminate Ha;
    each_char b; vm_compute in Hb; try discriminate Hb;
    (split; [reflexivity | vm_compute; split; discriminate]).
Qed.

(** The channels of a canonical colour lie between 0 and 255. *)
Lemma hex_to_rgb_canonical (s : string) :
  is_canonical s = true ->
  exists r g b,
    hex_to_rgb s = (r, g, b)
    /\ 0 <= r <= 255 /\ 0 <= g <= 255 /\ 0 <= b <= 255.
Proof.
  intros Hs. unfold hex_to_rgb. rewrite (normalize_canonical s Hs).
  destruct (is_canonical_inv s Hs) as (a & b & c & d & e & f & -> & Hall).
  simpl in Hall. repeat (apply andb_prop in Hall as [? Hall]).
  destruct (int16_channel a b) as [Hr ?]; [assumption..|].
  destruct (int16_channel c d) as [Hg ?]; [assumption..|].
  destruct (int16_channel e f) as [Hb ?]; [assumption..|].
  change (PyStr.slice 1 3 (String "#" (String a (String b (String c (String d (String e (String f ""))))))))
    with (String a (String b "")).
  change (PyStr.slice 3 5 (String "#" (String a (String b (String c (String d (String e (String f ""))))))))
    with (String c (String d "")).
  change (PyStr.slice 5 7 (String "#" (String a (String b (String c (String d (String e (String f ""))))))))
    with (String e (String f "")).
  rewrite Hr, Hg, Hb. eauto 10.
Qed.

(** Checked on each of the 256 channel values, for each surface. *)
Lemma channel_adjusted_all (is_light : bool) (s : surface) (v : Z) :
  0 <= v <= 255 -> channel_adjusted is_light s v = true.
Proof.
  intros Hv.
  assert (Hall : forallb (channel_adjusted is_light s) channel_values = true)
    by (destruct is_light, s; vm_compute; reflexivity).
  rewrite forallb_forall in Hall. apply Hall.
  unfold channel_values. rewrite <- (Z2Nat.id v) by lia.
  apply in_map, in_seq. lia.
Qed.

(** On a canonical colour and a factor of the table,
    [adjust_color_for_theme] returns a canonical colour. *)
Lemma adjust_canonical (hex_color : string) (is_light : bool) (s : surface) :
  is_canonical hex_color = true ->
  exists c,
    adjust_color_for_theme hex_color is_light (surface_factor is_light s) = Some c
    /\ is_canonical c = true.
Proof.
  intros Hs. unfold adjust_color_for_theme.
  rewrite (normalize_canonical _ Hs).
  destruct (hex_to_rgb_canonical _ Hs) as (r & g & b & -> & Hr & Hg & Hb).
  pose proof (channel_adjusted_all is_light s r Hr) as Cr.
  pose proof (channel_adjusted_all is_light s g Hg) as Cg.
  pose proof (channel_adjusted_all is_light s b Hb) as Cb.
  unfold channel_adjusted in Cr, Cg, Cb. cbv zeta in Cr, Cg, Cb.
  destruct is_light;
    (destruct (PyNum.int_of_float _) as [r'|] in Cr |- *; [|discriminate Cr]);
    (destruct (PyNum.int_of_float _) as [g'|] in Cg |- *; [|discriminate Cg]);
    (destruct (PyNum.int_of_float _) as [b'|] in Cb |- *; [|discriminate Cb]);
    cbn [mbind option_bind]; (eexists; split; [reflexivity|]);
    unfold rgb_to_hex;
    repeat
      match goal with
      | H : match PyNum.format_02x ?z with _ => _ end = true |- _ =>
          destruct (PyNum.format_02x z) as [|? [|? [|]]]; try discriminate H;
          apply andb_prop in H as [? ?]
      end;
    simpl;
    repeat
      match goal with
      | H : is_lower_hex _ = true |- _ => rewrite H; clear H
      end;
    reflexivity.
Qed.

(** The seven surfaces derived from a canonical background are canonical
    colours. *)
Lemma generate_ui_colors_canonical (c : colors) (is_light : bool) (bg : string) :
  c_primary c !! "background" = Some bg ->
  is_canonical bg = true ->
  exists ui,
    generate_ui_colors c is_light = Some ui
    /\ forallb is_canonical
         [ui_side_bg ui; ui_panel_bg ui; ui_tab_bg ui; ui_input_bg ui;
          ui_list_bg ui; ui_hover_bg ui; ui_border_color ui] = true.
Proof.
  intros Hbg Hc. unfold generate_ui_colors, dict_get. rewrite Hbg.
  change (default "#1e1e2e" (Some bg)) with bg. cbv beta zeta.
  destruct (adjust_canonical bg is_light side_bg Hc) as (c1 & -> & H1).
  destruct (adjust_canonical bg is_light panel_bg Hc) as (c2 & -> & H2).
  destruct (adjust_canonical bg is_light tab_bg Hc) as (c3 & -> & H3).
  destruct (adjust_canonical bg is_light input_bg Hc) as (c4 & -> & H4).
  destruct (adjust_canonical bg is_light list_bg Hc) as (c5 & -> & H5).
  destruct (adjust_canonical bg is_light hover_bg Hc) as (c6 & -> & H6).
  destruct (adjust_canonical bg is_light border_color Hc) as (c7 & -> & H7).
  cbn [mbind option_bind]. eexists. split; [reflexivity|].
  cbn [forallb ui_side_bg ui_panel_bg ui_tab_bg ui_input_bg ui_list_bg
         ui_hover_bg ui_border_color].
  rewrite H1, H2, H3, H4, H5, H6, H7. reflexivity.
Qed.

(** C9 fails on the code: [int(.., 16)] accepts a sign, so the string
    -12345 normalises to #-12345, whose red channel is -1; the dark branch
    clamps from above only and the result, #-1264b, is not a colour. The
    same happens to the surfaces [generate_ui_colors] derives from such a
    background. *)
Theorem adjust_signed_channel :
  normalize_hex_color "-12345" = Some "#-12345"
  /\ hex_to_rgb "#-12345" = (-1, 35, 69)
  /\ adjust_color_for_theme "-12345" false 0.1 = Some "#-1264b"
  /\ is_canonical "#-1264b" = false
  /\ is_light_theme "#-12345" = false
  /\ generate_ui_colors (Colors {[ "background" := "#-12345" ]} None None) false
     = Some (UiColors "#-1264b" "#-1284f" "#-12448" "#-12448" "#-1264b"
               "#-1284f" "#-12a52").
Proof. repeat split; vm_compute; reflexivity. Qed.

(** C7 fails on the code: [int(.., 16)] accepts trailing whitespace, so the
    string made of a double quote, 12345, a space and a double quote
    normalises to #12345 followed by a space, and that result does not
    normalise again: the outer [strip] now removes the space and the length
    test fails. *)
Theorem normalize_not_idempotent :
  let x := String PyStr.dquote ("12345 " ++ String PyStr.dquote "") in
  normalize_hex_color x = Some "#12345 "
  /\ normalize_hex_color "#12345 " = None.
Proof. split; vm_compute; reflexivity. Qed.

(** *** Token rules *)

(** The foreground of [sample_palette] is none of its normal colours. *)
Lemma sample_foreground_not_normal :
  ~ from_normal_slot fallback_normal "#cdd6f4".
Proof.
  intros (name & Hin & Hl).
  each_color_name Hin; vm_compute in Hl; discriminate Hl.
Qed.

(** C6, as the specification states it, fails: the rule for the variable
    scopes takes the palette foreground, which need not be a normal slot
    colour. *)
Lemma token_rules_not_all_normal :
  exists t r,
    generate_vscode_theme "sample" sample_palette = Some t
    /\ In r (textMateRules t)
    /\ scope r = ["variable"; "variable.other"; "variable.parameter"]
    /\ ~ from_normal_slot fallback_normal (foreground r).
Proof.
  eexists. exists (Rule ["variable"; "variable.other"; "variable.parameter"] "#cdd6f4").
  split; [vm_compute; reflexivity|].
  split; [simpl; tauto|].
  split; [reflexivity|].
  exact sample_foreground_not_normal.
Qed.

Lemma dict_get_present (d : gmap string string) (key dflt : string) :
  is_Some (d !! key) -> d !! key = Some (dict_get d key dflt).
Proof. intros [v Hv]. unfold dict_get. rewrite Hv. reflexivity. Qed.

(** C6 (amended): for a palette with its eight normal slots present, every
    token rule has one foreground colour; the rule for the variable scopes,
    the fifth of ten, takes the palette foreground, and each of the nine
    others, none of which has the variable scopes, takes the colour of a
    normal slot. *)
Theorem token_rules_foreground (theme_name : string) (c : colors)
    (normal : gmap string string) (t : theme) :
  c_normal c = Some normal ->
  (forall name, In name color_names -> is_Some (normal !! name)) ->
  generate_vscode_theme theme_name c = Some t ->
  exists before after,
    textMateRules t
    = (before
       ++ Rule variable_scopes (dict_get (c_primary c) "foreground" "#cdd6f4")
       :: after)%list
    /\ length before = 4%nat /\ length after = 5%nat
    /\ length (textMateRules t) = 10%nat
    /\ List.Forall
         (fun r => scope r <> variable_scopes
                   /\ from_normal_slot normal (foreground r))
         (before ++ after)%list.
Proof.
  intros Hn Hall Ht. unfold generate_vscode_theme in Ht.
  destruct (generate_ui_colors c _) as [ui|]; [|discriminate Ht].
  cbn [mbind option_bind] in Ht. injection Ht as <-.
  rewrite Hn. cbn [textMateRules default from_option id]. unfold text_mate_rules.
  assert (Hslot : forall name dflt, In name color_names ->
            from_normal_slot normal (dict_get normal name dflt)).
  { intros name dflt Hin. exists name. split; [exact Hin|].
    apply dict_get_present, Hall, Hin. }
  eexists [_; _; _; _], [_; _; _; _; _].
  split; [reflexivity|]. split; [reflexivity|]. split; [reflexivity|].
  split; [reflexivity|].
  cbn [app].
  repeat (apply List.Forall_cons;
          [cbn [scope foreground]; split;
           [unfold variable_scopes; discriminate
           |apply Hslot; cbn; tauto]|]).
  apply List.Forall_nil.
Qed.

Lemma token_rules_foreground_witness :
  exists t,
    generate_vscode_theme "sample" sample_palette = Some t
    /\ exists before after,
         textMateRules t
         = (before
            ++ Rule variable_scopes
                 (dict_get (c_primary sample_palette) "foreground" "#cdd6f4")
            :: after)%list
         /\ length before = 4%nat /\ length after = 5%nat
         /\ length (textMateRules t) = 10%nat
         /\ List.Forall
              (fun r => scope r <> variable_scopes
                        /\ from_normal_slot fallback_normal (foreground r))
              (before ++ after)%list.
Proof.
  destruct (generate_vscode_theme "sample" sample_palette) as [t|] eqn:Ht;
    [|vm_compute in Ht; discriminate Ht].
  exists t. split; [reflexivity|].
  apply (token_rules_foreground "sample" sample_palette fallback_normal t);
    [reflexivity| |exact Ht].
  intros name Hin.
  each_color_name Hin; vm_compute; eauto.
Defined.

(** *** The loops of [validate_and_fix_colors] *)

(** The two entries of the primary fallback table. *)
Lemma fallback_background : fallback_primary !! "background" = Some "#282a36".
Proof. reflexivity. Qed.

Lemma fallback_foreground : fallback_primary !! "foreground" = Some "#f8f8f2".
Proof. reflexivity. Qed.

Section PrimaryLoop.

Variable raw : gmap string string.

(** An iteration of the first loop sets its key and appends issues. *)
Lemma fix_primary_total (fixed : gmap string string) (issues : list issue)
    (key : string) :
  exists v extra,
    fix_primary raw (Some (fixed, issues)) key
    = Some (<[key := v]> fixed, (issues ++ extra)%list).
Proof.
  unfold fix_primary. cbn [mbind option_bind].
  rewrite fallback_background. cbn [mbind option_bind].
  destruct (raw !! key) as [value|].
  - destruct (normalize_hex_color value) as [n|].
    + exists n, []. rewrite app_nil_r. reflexivity.
    + eexists _, [_]. reflexivity.
  - destruct (if String.eqb key "cursor" then _ else _) as [fg|].
    + eexists _, [_]. reflexivity.
    + eexists _, [_]. reflexivity.
Qed.

(** The iterations for [background] and [foreground] never record the
    plain fallback of the cursor. *)
Lemma fix_primary_other (fixed : gmap string string) (issues : list issue)
    (key : string) :
  key = "background" \/ key = "foreground" ->
  exists v extra,
    fix_primary raw (Some (fixed, issues)) key
    = Some (<[key := v]> fixed, (issues ++ extra)%list)
    /\ Forall (fun i => i <> cursor_fallback_issue) extra.
Proof.
  intros Hkey. unfold fix_primary. cbn [mbind option_bind].
  rewrite fallback_background. cbn [mbind option_bind].
  destruct (raw !! key) as [value|].
  - destruct (normalize_hex_color value) as [n|].
    + exists n, []. rewrite app_nil_r. split; [reflexivity|constructor].
    + eexists _, [_]. split; [reflexivity|].
      constructor; [|constructor].
      destruct Hkey as [-> | ->]; discriminate.
  - replace (String.eqb key "cursor") with false
      by (destruct Hkey as [-> | ->]; reflexivity).
    eexists _, [_]. split; [reflexivity|].
    constructor; [|constructor].
    destruct Hkey as [-> | ->]; discriminate.
Qed.

(** The iteration for a missing [cursor], once [foreground] is set, takes
    the branch that derives the cursor from it. *)
Lemma fix_primary_cursor_missing (fixed : gmap string string)
    (issues : list issue) (fg : string) :
  raw !! "cursor" = None ->
  fixed !! "foreground" = Some fg ->
  fix_primary raw (Some (fixed, issues)) "cursor"
  = Some (<["cursor" := fg]> fixed, append issues cursor_derived_issue).
Proof.
  intros Hraw Hfg. unfold fix_primary. cbn [mbind option_bind].
  rewrite Hraw. change (String.eqb "cursor" "cursor") with true.
  cbv iota. rewrite Hfg. reflexivity.
Qed.

(** The state in which the loop over the primary keys reaches [cursor]:
    [background] and [foreground] are resolved. *)
Lemma primary_loop_before_cursor :
  exists bg fg issues,
    fold_left (fix_primary raw) ["background"; "foreground"] (Some (∅, []))
    = Some (<["foreground" := fg]> (<["background" := bg]> ∅), issues)
    /\ Forall (fun i => i <> cursor_fallback_issue) issues.
Proof.
  destruct (fix_primary_other ∅ [] "background") as (bg & e1 & H1 & F1);
    [left; reflexivity|].
  destruct (fix_primary_other (<["background" := bg]> ∅) ([] ++ e1)%list
              "foreground") as (fg & e2 & H2 & F2); [right; reflexivity|].
  exists bg, fg, (([] ++ e1) ++ e2)%list.
  cbn [fold_left]. rewrite H1, H2. split; [reflexivity|].
  apply Forall_app; split; [exact F1|exact F2].
Qed.

(** The first loop always succeeds and sets the three primary keys. *)
Lemma primary_loop_total :
  exists bg fg cur issues,
    fold_left (fix_primary raw) primary_keys (Some (∅, []))
    = Some (<["cursor" := cur]> (<["foreground" := fg]> (<["background" := bg]> ∅)),
            issues).
Proof.
  destruct primary_loop_before_cursor as (bg & fg & issues & H & _).
  destruct (fix_primary_total
              (<["foreground" := fg]> (<["background" := bg]> ∅)) issues "cursor")
    as (cur & extra & Hc).
  exists bg, fg, cur, (issues ++ extra)%list.
  change primary_keys with (["background"; "foreground"] ++ ["cursor"])%list.
  rewrite fold_left_app, H. exact Hc.
Qed.

End PrimaryLoop.

(** An iteration of a slot loop sets its colour name and appends issues of
    its section. *)
Lemma fix_slot_total (section : string) (raw fallback fixed : gmap string string)
    (issues : list issue) (color_name : string) :
  is_Some (fallback !! color_name) ->
  exists v extra,
    fix_slot section raw fallback (Some (fixed, issues)) color_name
    = Some (<[color_name := v]> fixed, (issues ++ extra)%list)
    /\ Forall (slot_issue section) extra.
Proof.
  intros [fb Hfb]. unfold fix_slot. cbn [mbind option_bind].
  rewrite Hfb. cbn [mbind option_bind].
  destruct (raw !! color_name) as [value|].
  - destruct (normalize_hex_color value) as [n|].
    + exists n, []. rewrite app_nil_r. split; [reflexivity|constructor].
    + eexists _, [_]. split; [reflexivity|].
      constructor; [|constructor]. eexists. left. reflexivity.
  - eexists _, [_]. split; [reflexivity|].
    constructor; [|constructor]. eexists. right. reflexivity.
Qed.

(** A slot loop over names of the fallback table always succeeds. *)
Lemma slot_loop_total (section : string) (raw fallback : gmap string string)
    (names : list string) :
  Forall (fun n => is_Some (fallback !! n)) names ->
  forall fixed issues,
  exists fixed' extra,
    fold_left (fix_slot section raw fallback) names (Some (fixed, issues))
    = Some (fixed', (issues ++ extra)%list)
    /\ Forall (slot_issue section) extra.
Proof.
  induction 1 as [|name names Hname _ IH]; intros fixed issues.
  - exists fixed, []. rewrite app_nil_r. split; [reflexivity|constructor].
  - destruct (fix_slot_total section raw fallback fixed issues name Hname)
      as (v & e1 & H1 & F1).
    destruct (IH (<[name := v]> fixed) (issues ++ e1)%list)
      as (fixed' & e2 & H2 & F2).
    exists fixed', (e1 ++ e2)%list. cbn [fold_left]. rewrite H1, H2.
    rewrite app_assoc. split; [reflexivity|].
    apply Forall_app; split; assumption.
Qed.

Lemma fallback_normal_names :
  Forall (fun n => is_Some (fallback_normal !! n)) color_names.
Proof. repeat constructor; vm_compute; eauto. Qed.

Lemma fallback_bright_names :
  Forall (fun n => is_Some (fallback_bright !! n)) color_names.
Proof. repeat constructor; vm_compute; eauto. Qed.

Lemma slot_issue_not_cursor_fallback (section : string) (i : issue) :
  section = "normal" \/ section = "bright" ->
  slot_issue section i -> i <> cursor_fallback_issue.
Proof.
  intros [-> | ->] (rest & [-> | ->]); discriminate.
Qed.

Lemma contrast_issue_not_cursor_fallback (i : issue) :
  contrast_issue i -> i <> cursor_fallback_issue.
Proof. intros [(c & ->) | ->]; discriminate. Qed.

(** The three loops always succeed; the primary dictionary they return is
    the one of the first loop, and the later loops only add issues of their
    own sections. *)
Lemma resolve_slots_total (raw : colors) :
  exists fixed_primary primary_issues fixed_normal fixed_bright extra,
    fold_left (fix_primary (c_primary raw)) primary_keys (Some (∅, []))
    = Some (fixed_primary, primary_issues)
    /\ resolve_slots raw
       = Some (Colors fixed_primary (Some fixed_normal) (Some fixed_bright),
               (primary_issues ++ extra)%list)
    /\ Forall (fun i => slot_issue "normal" i \/ slot_issue "bright" i) extra.
Proof.
  destruct (primary_loop_total (c_primary raw)) as (bg & fg & cur & ip & Hp).
  destruct (slot_loop_total "normal" (default ∅ (c_normal raw)) fallback_normal
              color_names fallback_normal_names ∅ ip) as (fn & e1 & H1 & F1).
  destruct (slot_loop_total "bright" (default ∅ (c_bright raw)) fallback_bright
              color_names fallback_bright_names ∅ (ip ++ e1)%list)
    as (fb & e2 & H2 & F2).
  eexists _, ip, fn, fb, (e1 ++ e2)%list.
  split; [exact Hp|].
  unfold resolve_slots. rewrite Hp. cbn [mbind option_bind].
  rewrite H1. cbn [mbind option_bind]. rewrite H2. cbn [mbind option_bind].
  rewrite app_assoc. split; [reflexivity|].
  apply Forall_app; split; eapply Forall_impl; eauto; cbv beta; tauto.
Qed.

(** *** Bounds on luminance and contrast *)

Local Open Scope R_scope.

(** [exp] is monotone; [ln] is not positive on (0, 1]. *)
Lemma exp_le (x y : R) : x <= y -> exp x <= exp y.
Proof.
  intros [Hlt | ->]; [left; apply exp_increasing, Hlt | right; reflexivity].
Qed.

Lemma ln_nonpos (b : R) : 0 < b <= 1 -> ln b <= 0.
Proof.
  intros [Hpos [Hlt | ->]].
  - left. rewrite <- ln_1. apply ln_increasing; assumption.
  - right. exact ln_1.
Qed.

(** On (0, 1] the power 2.4 lies between the cube and the square. *)
Lemma Rpower_gamma_bounds (b : R) :
  0 < b <= 1 -> b * b * b <= Rpower b GAMMA_POWER <= b * b.
Proof.
  intros Hb. pose proof (ln_nonpos b Hb) as Hln. destruct Hb as [Hpos _].
  replace (b * b * b) with (Rpower b (INR 3))
    by (rewrite Rpower_pow by exact Hpos; simpl; ring).
  replace (b * b) with (Rpower b (INR 2))
    by (rewrite Rpower_pow by exact Hpos; simpl; ring).
  unfold Rpower, GAMMA_POWER. simpl INR.
  split; apply exp_le; nra.
Qed.

(** Above the threshold [gamma_correct] takes the power branch. *)
Lemma gamma_correct_high (c : R) :
  GAMMA_THRESHOLD < c -> c <= 1 ->
  let b := (c + GAMMA_OFFSET) / GAMMA_DENOMINATOR in
  b * b * b <= gamma_correct c <= b * b.
Proof.
  intros Hc Hc1 b. unfold gamma_correct.
  destruct (Rle_dec c GAMMA_THRESHOLD) as [Hle | _]; [lra|].
  apply Rpower_gamma_bounds. subst b.
  unfold GAMMA_THRESHOLD, GAMMA_OFFSET, GAMMA_DENOMINATOR in *.
  lra.
Qed.

(** The luminance of a colour with known channels. *)
Lemma get_luminance_rgb (s n : string) (r g b : Z) :
  normalize_hex_color s = Some n ->
  luminance_channels n = Some (r, g, b) ->
  get_luminance s =
    LUMINANCE_R * gamma_correct (IZR r / 255.0)
    + LUMINANCE_G * gamma_correct (IZR g / 255.0)
    + LUMINANCE_B * gamma_correct (IZR b / 255.0).
Proof. intros Hn Hc. unfold get_luminance. rewrite Hn, Hc. reflexivity. Qed.

Ltac channel_bounds z :=
  let H := fresh "Hg" in
  pose proof (gamma_correct_high (IZR z / 255.0)) as H;
  unfold GAMMA_THRESHOLD, GAMMA_OFFSET, GAMMA_DENOMINATOR in H;
  specialize (H ltac:(lra) ltac:(lra)); cbv zeta in H.

(** Bounds on the luminance of the four colours the claims name. *)
Lemma luminance_fallback_background :
  0 <= get_luminance "#282a36" <= 0.07.
Proof.
  rewrite (get_luminance_rgb "#282a36" "#282a36" 40 42 54)
    by (vm_compute; reflexivity).
  channel_bounds 40%Z. channel_bounds 42%Z. channel_bounds 54%Z.
  unfold LUMINANCE_R, LUMINANCE_G, LUMINANCE_B. lra.
Qed.

Lemma luminance_fallback_foreground :
  0.8 <= get_luminance "#f8f8f2" <= 1.
Proof.
  rewrite (get_luminance_rgb "#f8f8f2" "#f8f8f2" 248 248 242)
    by (vm_compute; reflexivity).
  channel_bounds 248%Z. channel_bounds 242%Z.
  unfold LUMINANCE_R, LUMINANCE_G, LUMINANCE_B. lra.
Qed.


Lemma luminance_white : 1 <= get_luminance "#ffffff" <= 1.
Proof.
  rewrite (get_luminance_rgb "#ffffff" "#ffffff" 255 255 255)
    by (vm_compute; reflexivity).
  channel_bounds 255%Z.
  unfold LUMINANCE_R, LUMINANCE_G, LUMINANCE_B. lra.
Qed.

Lemma luminance_fefefe : 0.98 <= get_luminance "#fefefe" <= 1.
Proof.
  rewrite (get_luminance_rgb "#fefefe" "#fefefe" 254 254 254)
    by (vm_compute; reflexivity).
  channel_bounds 254%Z.
  unfold LUMINANCE_R, LUMINANCE_G, LUMINANCE_B. lra.
Qed.

(** A ratio of two positive numbers is below [k] when the numerator is
    below [k] times the denominator. *)
Lemma ratio_lt (x y k : R) : 0 < y -> x < k * y -> x / y < k.
Proof.
  intros Hy H. unfold Rdiv.
  apply Rmult_lt_reg_r with (r := y); [exact Hy|].
  rewrite Rmult_assoc, Rinv_l by lra. lra.
Qed.

Lemma ratio_ge (x y k : R) : 0 < y -> k * y <= x -> ~ x / y < k.
Proof.
  intros Hy H Hlt. unfold Rdiv in Hlt.
  apply Rmult_lt_compat_r with (r := y) in Hlt; [|exact Hy].
  rewrite Rmult_assoc, Rinv_l in Hlt by lra. lra.
Qed.

(** Two luminances in [[lo, hi]] give a contrast below [k] as soon as
    [hi + 0.05 < k * (lo + 0.05)]. *)
Lemma contrast_below (c1 c2 : string) (lo hi k : R) :
  0 <= lo ->
  lo <= get_luminance c1 <= hi ->
  lo <= get_luminance c2 <= hi ->
  0 < k ->
  hi + 0.05 < k * (lo + 0.05) ->
  calculate_contrast_ratio c1 c2 < k.
Proof.
  intros Hlo H1 H2 Hk Hlt. unfold calculate_contrast_ratio.
  destruct (Rgt_dec _ _); apply ratio_lt; nra.
Qed.

(** A first luminance in [[0, u]] and a second of at least [l] give a
    contrast of at least [k] as soon as [k * (u + 0.05) <= l + 0.05] and
    [u < l]. *)
Lemma contrast_at_least (c1 c2 : string) (u l k : R) :
  0 <= get_luminance c1 <= u ->
  l <= get_luminance c2 ->
  u < l ->
  0 < k ->
  k * (u + 0.05) <= l + 0.05 ->
  ~ calculate_contrast_ratio c1 c2 < k.
Proof.
  intros H1 H2 Hul Hk Hle. unfold calculate_contrast_ratio.
  destruct (Rgt_dec _ _) as [Hgt | _]; [lra|].
  apply ratio_ge; nra.
Qed.

(** The fallback pair is readable (its ratio is about 13.4). *)
Lemma contrast_fallback_pair :
  ~ calculate_contrast_ratio "#282a36" "#f8f8f2" < MIN_READABLE_CONTRAST.
Proof.
  apply (contrast_at_least "#282a36" "#f8f8f2" 0.07 0.8).
  - exact luminance_fallback_background.
  - exact (proj1 luminance_fallback_foreground).
  - lra.
  - unfold MIN_READABLE_CONTRAST; lra.
  - unfold MIN_READABLE_CONTRAST; lra.
Qed.

(** White against [#fefefe] is below the acceptable ratio (about 1.01). *)
Lemma contrast_white_fefefe :
  calculate_contrast_ratio "#ffffff" "#fefefe" < MIN_ACCEPTABLE_CONTRAST.
Proof.
  apply (contrast_below "#ffffff" "#fefefe" 0.98 1).
  - lra.
  - pose proof luminance_white; lra.
  - exact luminance_fefefe.
  - unfold MIN_ACCEPTABLE_CONTRAST; lra.
  - unfold MIN_ACCEPTABLE_CONTRAST; lra.
Qed.

Local Close Scope R_scope.
(** *** The contrast check *)

(** A readable pair passes the check unchanged. *)
Lemma check_contrast_readable (fixed : colors) (issues : list issue)
    (bg fg : string) :
  c_primary fixed !! "background" = Some bg ->
  c_primary fixed !! "foreground" = Some fg ->
  ~ (calculate_contrast_ratio bg fg < MIN_READABLE_CONTRAST)%R ->
  check_contrast fixed issues = Some (fixed, issues).
Proof.
  intros Hbg Hfg Hc. unfold check_contrast.
  rewrite Hbg, Hfg. cbn [mbind option_bind].
  destruct (Rlt_dec _ _) as [Hlt | _]; [contradiction|reflexivity].
Qed.

(** Below the acceptable ratio the check overwrites both colours and
    appends its two issues. *)
Lemma check_contrast_extreme (fixed : colors) (issues : list issue)
    (bg fg : string) :
  c_primary fixed !! "background" = Some bg ->
  c_primary fixed !! "foreground" = Some fg ->
  (calculate_contrast_ratio bg fg < MIN_ACCEPTABLE_CONTRAST)%R ->
  check_contrast fixed issues
  = Some (Colors (<["foreground" := "#f8f8f2"]>
                    (<["background" := "#282a36"]> (c_primary fixed)))
            (c_normal fixed) (c_bright fixed),
          append (append issues (LowContrast (calculate_contrast_ratio bg fg)))
            (Msg "Applied fallback colors due to extremely low contrast")).
Proof.
  intros Hbg Hfg Hc. unfold check_contrast.
  rewrite Hbg, Hfg. cbn [mbind option_bind].
  destruct (Rlt_dec _ MIN_READABLE_CONTRAST) as [_ | Hge].
  - destruct (Rlt_dec _ MIN_ACCEPTABLE_CONTRAST) as [_ | Hge];
      [|contradiction].
    rewrite fallback_background, fallback_foreground. reflexivity.
  - exfalso. apply Hge. unfold MIN_READABLE_CONTRAST.
    unfold MIN_ACCEPTABLE_CONTRAST in Hc. lra.
Qed.

(** The check always succeeds on a dictionary that holds [background] and
    [foreground]; it leaves every other key alone and only adds issues of
    its own. *)
Lemma check_contrast_total (fixed : colors) (issues : list issue)
    (bg fg : string) :
  c_primary fixed !! "background" = Some bg ->
  c_primary fixed !! "foreground" = Some fg ->
  exists fixed_primary extra,
    check_contrast fixed issues
    = Some (Colors fixed_primary (c_normal fixed) (c_bright fixed),
            (issues ++ extra)%list)
    /\ fixed_primary !! "cursor" = c_primary fixed !! "cursor"
    /\ Forall contrast_issue extra.
Proof.
  intros Hbg Hfg. unfold check_contrast.
  rewrite Hbg, Hfg. cbn [mbind option_bind].
  rewrite fallback_background, fallback_foreground. cbn [mbind option_bind].
  destruct (Rlt_dec _ MIN_READABLE_CONTRAST) as [_ | _].
  - destruct (Rlt_dec _ MIN_ACCEPTABLE_CONTRAST) as [_ | _].
    + eexists _, [_; _]. unfold append. rewrite <- app_assoc.
      split; [reflexivity|]. split.
      * rewrite !lookup_insert_ne by discriminate. reflexivity.
      * constructor; [left; eexists; reflexivity|].
        constructor; [right; reflexivity|constructor].
    + eexists (c_primary fixed), [_]. destruct fixed.
      split; [reflexivity|]. split; [reflexivity|].
      constructor; [left; eexists; reflexivity|constructor].
  - exists (c_primary fixed), []. destruct fixed. rewrite app_nil_r.
    split; [reflexivity|]. split; [reflexivity|constructor].
Qed.

(** [validate_and_fix_colors] raises nothing, whatever the raw palette. *)
Lemma validate_and_fix_colors_total (raw : colors) :
  exists fixed issues, validate_and_fix_colors raw = Some (fixed, issues).
Proof.
  destruct (resolve_slots_total raw) as (fp & ip & fn & fb & extra & Hp & Hr & _).
  destruct (primary_loop_total (c_primary raw)) as (bg & fg & cur & ip' & Hp').
  rewrite Hp' in Hp. injection Hp as <- <-.
  destruct (check_contrast_total
              (Colors (<["cursor" := cur]> (<["foreground" := fg]>
                         (<["background" := bg]> ∅))) (Some fn) (Some fb))
              (ip' ++ extra)%list bg fg) as (p' & cextra & Hc & _).
  - cbn [c_primary]. rewrite !lookup_insert_ne by discriminate.
    apply lookup_insert_eq.
  - cbn [c_primary]. rewrite lookup_insert_ne by discriminate.
    apply lookup_insert_eq.
  - unfold validate_and_fix_colors. rewrite Hr. cbn [mbind option_bind].
    rewrite Hc. eauto.
Qed.

(** *** Validation of concrete palettes *)

(** The three loops on the palettes the claims name. *)
Lemma resolve_slots_empty :
  resolve_slots empty_raw
  = Some (Colors {[ "background" := "#282a36"; "foreground" := "#f8f8f2";
                    "cursor" := "#f8f8f2" ]}
            (Some fallback_normal) (Some fallback_bright),
          [Msg "Missing background color - using fallback";
           Msg "Missing foreground color - using fallback";
           Msg "Missing cursor color - derived from foreground"]
          ++ fallback_issues "normal" ++ fallback_issues "bright")%list.
Proof. vm_compute. reflexivity. Qed.

Lemma resolve_slots_minimal :
  resolve_slots minimal_raw
  = Some (Colors {[ "background" := "#282a36"; "foreground" := "#f8f8f2";
                    "cursor" := "#f8f8f2" ]}
            (Some fallback_normal) (Some fallback_bright),
          [Msg "Missing cursor color - derived from foreground"]
          ++ fallback_issues "normal" ++ fallback_issues "bright")%list.
Proof. vm_compute. reflexivity. Qed.

(** The palette both resolve to passes the contrast check unchanged. *)
Lemma check_contrast_fallback_pair (issues : list issue) :
  let fixed :=
    Colors {[ "background" := "#282a36"; "foreground" := "#f8f8f2";
              "cursor" := "#f8f8f2" ]}
      (Some fallback_normal) (Some fallback_bright) in
  check_contrast fixed issues = Some (fixed, issues).
Proof.
  intros fixed.
  apply (check_contrast_readable fixed issues "#282a36" "#f8f8f2");
    [reflexivity|reflexivity|exact contrast_fallback_pair].
Qed.

(** C3: on the palette with no key at all, [validate_and_fix_colors]
    raises nothing and returns a palette with [background], [foreground],
    [cursor] and the sixteen ANSI slots present: the fallback background
    and foreground, the cursor taken from that foreground, the fallback
    [normal] and [bright] tables; it records one issue for each of the
    nineteen missing fields, which is at least eighteen. *)
Theorem validate_empty_palette :
  exists issues,
    validate_and_fix_colors empty_raw
    = Some (Colors {[ "background" := "#282a36"; "foreground" := "#f8f8f2";
                      "cursor" := "#f8f8f2" ]}
              (Some fallback_normal) (Some fallback_bright),
            issues)
    /\ issues
       = ([Msg "Missing background color - using fallback";
           Msg "Missing foreground color - using fallback";
           Msg "Missing cursor color - derived from foreground"]
          ++ fallback_issues "normal" ++ fallback_issues "bright")%list
    /\ length issues = 19%nat
    /\ (18 <= length issues)%nat.
Proof.
  eexists. split; [|split; [reflexivity|]].
  - unfold validate_and_fix_colors. rewrite resolve_slots_empty.
    cbn [mbind option_bind]. apply check_contrast_fallback_pair.
  - split; [reflexivity|]. simpl. lia.
Qed.

(** Validation of the minimal source. *)
Lemma validate_minimal :
  validate_and_fix_colors minimal_raw
  = Some (Colors {[ "background" := "#282a36"; "foreground" := "#f8f8f2";
                    "cursor" := "#f8f8f2" ]}
            (Some fallback_normal) (Some fallback_bright),
          [Msg "Missing cursor color - derived from foreground"]
          ++ fallback_issues "normal" ++ fallback_issues "bright")%list.
Proof.
  unfold validate_and_fix_colors. rewrite resolve_slots_minimal.
  cbn [mbind option_bind]. apply check_contrast_fallback_pair.
Qed.

(** C4, as the specification states it, fails: validation of the minimal
    source records seventeen issues, not sixteen; the cursor derived from
    the foreground is recorded too. *)
Lemma minimal_source_issue_count :
  exists fixed issues,
    validate_and_fix_colors minimal_raw = Some (fixed, issues)
    /\ length issues <> 16%nat.
Proof.
  eexists _, _. split; [exact validate_minimal|].
  vm_compute. discriminate.
Qed.

(** C4 (amended): for the minimal source the sixteen ANSI keys of the theme
    document hold the fallback colours, the theme is classified as dark,
    and validation records seventeen issues: one for the cursor derived
    from the foreground and one for each of the sixteen ANSI slots. *)
Theorem minimal_source_pipeline (theme_name : string) :
  exists fixed issues t,
    validate_and_fix_colors minimal_raw = Some (fixed, issues)
    /\ issues
       = ([Msg "Missing cursor color - derived from foreground"]
          ++ fallback_issues "normal" ++ fallback_issues "bright")%list
    /\ length issues = 17%nat
    /\ generate_vscode_theme theme_name fixed = Some t
    /\ map (dict_lookup (colorCustomizations t)) ansi_keys = ansi_fallbacks
    /\ Forall is_Some ansi_fallbacks
    /\ is_light_theme (dict_get (c_primary fixed) "background" "#1e1e2e") = false.
Proof.
  eexists _, _, _. split; [exact validate_minimal|].
  split; [reflexivity|]. split; [reflexivity|].
  split; [vm_compute; reflexivity|].
  split; [vm_compute; reflexivity|].
  split; [|vm_compute; reflexivity].
  repeat constructor; vm_compute; eauto.
Qed.

(** *** The extreme low contrast rule *)

Lemma resolve_slots_white :
  resolve_slots white_raw
  = Some (Colors {[ "background" := "#ffffff"; "foreground" := "#fefefe";
                    "cursor" := "#fefefe" ]}
            (Some fallback_normal) (Some fallback_bright),
          [Msg "Missing cursor color - derived from foreground"]
          ++ fallback_issues "normal" ++ fallback_issues "bright")%list.
Proof. vm_compute. reflexivity. Qed.

(** C2: the three loops always resolve a background and a foreground;
    when their contrast ratio is below 2.0, the result holds the fallback
    background and foreground instead, and the issues end with the low
    contrast issue followed by the message of the applied fallback. For the
    background [#ffffff] and the foreground [#fefefe] this is what
    happens. *)
Theorem extreme_low_contrast_fallback :
  (forall raw : colors,
     exists fixed issues bg fg,
       resolve_slots raw = Some (fixed, issues)
       /\ c_primary fixed !! "background" = Some bg
       /\ c_primary fixed !! "foreground" = Some fg
       /\ ((calculate_contrast_ratio bg fg < MIN_ACCEPTABLE_CONTRAST)%R ->
           exists fixed' issues',
             validate_and_fix_colors raw = Some (fixed', issues')
             /\ c_primary fixed' !! "background" = Some "#282a36"
             /\ c_primary fixed' !! "foreground" = Some "#f8f8f2"
             /\ issues'
                = (issues
                   ++ [LowContrast (calculate_contrast_ratio bg fg);
                       Msg "Applied fallback colors due to extremely low contrast"])%list))
  /\ (exists fixed issues,
        validate_and_fix_colors white_raw = Some (fixed, issues)
        /\ c_primary fixed !! "background" = Some "#282a36"
        /\ c_primary fixed !! "foreground" = Some "#f8f8f2"
        /\ In (Msg "Applied fallback colors due to extremely low contrast") issues).
Proof.
  split.
  - intros raw.
    destruct (resolve_slots_total raw) as (fp & ip & fn & fb & extra & Hp & Hr & _).
    destruct (primary_loop_total (c_primary raw)) as (bg & fg & cur & ip' & Hp').
    rewrite Hp' in Hp. injection Hp as <- <-.
    eexists _, _, bg, fg. split; [exact Hr|].
    assert (Hbg : (<["cursor" := cur]> (<["foreground" := fg]>
                     (<["background" := bg]> (∅ : gmap string string))))
                  !! "background" = Some bg)
      by (rewrite !lookup_insert_ne by discriminate; apply lookup_insert_eq).
    assert (Hfg : (<["cursor" := cur]> (<["foreground" := fg]>
                     (<["background" := bg]> (∅ : gmap string string))))
                  !! "foreground" = Some fg)
      by (rewrite lookup_insert_ne by discriminate; apply lookup_insert_eq).
    split; [exact Hbg|]. split; [exact Hfg|].
    intros Hlow. eexists _, _.
    split.
    + unfold validate_and_fix_colors. rewrite Hr. cbn [mbind option_bind].
      apply (check_contrast_extreme _ _ bg fg); [exact Hbg|exact Hfg|exact Hlow].
    + cbn [c_primary]. split.
      * rewrite lookup_insert_ne by discriminate. apply lookup_insert_eq.
      * split; [apply lookup_insert_eq|].
        unfold append. rewrite <- app_assoc. reflexivity.
  - eexists _, _. split.
    + unfold validate_and_fix_colors. rewrite resolve_slots_white.
      cbn [mbind option_bind].
      apply (check_contrast_extreme _ _ "#ffffff" "#fefefe");
        [reflexivity|reflexivity|exact contrast_white_fefefe].
    + cbn [c_primary]. split; [reflexivity|]. split; [reflexivity|].
      unfold append. apply in_or_app. right. left. reflexivity.
Qed.

(** *** The shape of a normalised colour and the forms accepted *)

Lemma startswith_hash (s : string) :
  PyStr.startswith s "#" = true -> exists rest, s = String "#" rest.
Proof.
  destruct s as [|a rest]; [discriminate|].
  unfold PyStr.startswith. cbn [String.prefix].
  destruct (ascii_dec "#" a) as [<- | _]; [eauto | discriminate].
Qed.

Lemma normalize_shape (x y : string) :
  normalize_hex_color x = Some y ->
  exists rest,
    y = String "#" rest
    /\ String.length rest = 6%nat
    /\ is_Some (PyInt.int16 rest).
Proof.
  unfold normalize_hex_color. destruct x as [|c0 x0]; [discriminate|].
  set (v0 := PyStr.strip PyStr.is_quote (PyStr.strip PyStr.is_space (String c0 x0))).
  set (v1 := if PyStr.startswith v0 "0x" then "#" ++ PyStr.slice_from 2 v0 else v0).
  set (v2 := if negb (PyStr.startswith v1 "#") then "#" ++ v1 else v1).
  set (v3 := if (String.length v2 =? 4)%nat
             then "#" ++ PyStr.double_chars (PyStr.slice_from 1 v2) else v2).
  assert (H2 : exists r, v2 = String "#" r).
  { subst v2. destruct (PyStr.startswith v1 "#") eqn:E; cbn [negb].
    - apply startswith_hash, E.
    - eexists. reflexivity. }
  assert (H3 : exists r, v3 = String "#" r).
  { subst v3. destruct (String.length v2 =? 4)%nat; [eexists; reflexivity|exact H2]. }
  destruct H3 as [r ->].
  destruct (String.length (String "#" r) =? 7)%nat eqn:El; cbn [negb]; [|discriminate].
  cbn [PyStr.slice_from].
  destruct (PyInt.int16 r) as [v|] eqn:Ei; [|discriminate].
  intros [= <-]. exists r. cbn [String.length] in El.
  apply Nat.eqb_eq in El. split; [reflexivity|]. split; [lia|eauto].
Qed.

Lemma lstrip_all (p : ascii -> bool) (w : string) :
  all_chars p w = true -> PyStr.lstrip p w = EmptyString.
Proof.
  induction w as [|c w IH]; [reflexivity|].
  unfold all_chars. cbn. intros [Hc Hw]%andb_prop. rewrite Hc. exact (IH Hw).
Qed.

Lemma rstrip_all (p : ascii -> bool) (w : string) :
  all_chars p w = true -> PyStr.rstrip p w = EmptyString.
Proof.
  induction w as [|c w IH]; [reflexivity|].
  unfold all_chars. cbn [list_ascii_of_string forallb].
  intros [Hc Hw]%andb_prop.
  cbn [PyStr.rstrip]. rewrite (IH Hw), Hc. reflexivity.
Qed.

Lemma lstrip_app_l (p : ascii -> bool) (w s : string) :
  all_chars p w = true -> PyStr.lstrip p (w ++ s) = PyStr.lstrip p s.
Proof.
  induction w as [|c w IH]; [reflexivity|].
  unfold all_chars. cbn [list_ascii_of_string forallb].
  intros [Hc Hw]%andb_prop.
  change (String c w ++ s) with (String c (w ++ s)).
  cbn [PyStr.lstrip]. rewrite Hc. exact (IH Hw).
Qed.

Lemma rstrip_app_r (p : ascii -> bool) (s w : string) :
  all_chars p w = true -> PyStr.rstrip p (s ++ w) = PyStr.rstrip p s.
Proof.
  intros Hw. induction s as [|c s IH].
  - apply rstrip_all, Hw.
  - change (String c s ++ w) with (String c (s ++ w)).
    cbn [PyStr.rstrip]. rewrite IH. reflexivity.
Qed.

Lemma lstrip_app_r (p : ascii -> bool) (s w : string) :
  all_chars p w = true ->
  PyStr.lstrip p (s ++ w) =
    match PyStr.lstrip p s with
    | EmptyString => EmptyString
    | r => r ++ w
    end.
Proof.
  intros Hw. induction s as [|c s IH].
  - apply lstrip_all, Hw.
  - change (String c s ++ w) with (String c (s ++ w)).
    cbn [PyStr.lstrip]. destruct (p c); [exact IH|reflexivity].
Qed.

Lemma strip_surrounded (p : ascii -> bool) (w1 x w2 : string) :
  all_chars p w1 = true -> all_chars p w2 = true ->
  PyStr.strip p (w1 ++ x ++ w2) = PyStr.strip p x.
Proof.
  intros H1 H2. unfold PyStr.strip.
  rewrite (lstrip_app_l p w1 _ H1), (lstrip_app_r p x w2 H2).
  destruct (PyStr.lstrip p x) as [|c r]; [reflexivity|].
  apply (rstrip_app_r p (String c r) w2 H2).
Qed.

(** X1: white space around a colour does not matter: a string with white
    space before and after it normalises as the string itself does, to the
    same colour or to the same failure. *)
Theorem normalize_surrounding_whitespace (w1 x w2 : string) :
  all_chars PyStr.is_space w1 = true ->
  all_chars PyStr.is_space w2 = true ->
  normalize_hex_color (w1 ++ x ++ w2) = normalize_hex_color x.
Proof.
  intros H1 H2.
  assert (Hstrip := strip_surrounded PyStr.is_space w1 x w2 H1 H2).
  destruct x as [|c x].
  - destruct (w1 ++ "" ++ w2) as [|c' s'] eqn:E; [reflexivity|].
    unfold normalize_hex_color. rewrite Hstrip. reflexivity.
  - destruct (w1 ++ String c x ++ w2) as [|c' s'] eqn:E.
    + destruct w1; discriminate E.
    + unfold normalize_hex_color. rewrite Hstrip. reflexivity.
Qed.

Lemma hex_digit_char (c : ascii) :
  is_hex_digit c = true ->
  PyStr.is_space c = false
  /\ PyStr.is_quote c = false
  /\ PyInt.is_space c = false
  /\ Ascii.eqb c "_" = false
  /\ Ascii.eqb c "x" = false
  /\ Ascii.eqb c "X" = false
  /\ c <> "x"%char
  /\ c <> "#"%char
  /\ PyInt.hex_digit c = Some (hex_value c).
Proof.
  each_char c; intros H; vm_compute in H; try discriminate H;
    vm_compute; repeat split; congruence.
Qed.

Lemma scan_digits_hex (s : string) :
  all_chars is_hex_digit s = true ->
  forall acc, exists v, PyInt.scan_digits acc false s = Some (v, EmptyString).
Proof.
  induction s as [|c s IH]; intros Hs acc.
  - exists acc. reflexivity.
  - unfold all_chars in Hs. cbn [list_ascii_of_string forallb] in Hs.
    apply andb_prop in Hs as [Hc Hs].
    destruct (hex_digit_char c Hc) as (_ & _ & _ & Hu & _ & _ & _ & _ & Hd).
    cbn [PyInt.scan_digits]. rewrite Hu, Hd. apply IH, Hs.
Qed.

(** [int(s, 16)] succeeds on a non-empty string of hexadecimal digits. *)
Lemma int16_hex (c : ascii) (s : string) :
  all_chars is_hex_digit (String c s) = true ->
  is_Some (PyInt.int16 (String c s)).
Proof.
  intros Hs. pose proof Hs as Hcs. unfold all_chars in Hcs.
  cbn [list_ascii_of_string forallb] in Hcs.
  apply andb_prop in Hcs as [Hc Hrest].
  destruct (hex_digit_char c Hc) as (_ & _ & Hsp & _ & _ & _ & _ & _ & Hd).
  assert (Hskip : PyInt.skip_prefix (String c s) = String c s).
  { destruct s as [|x r]; [each_char c; reflexivity|].
    cbn [list_ascii_of_string forallb] in Hrest. apply andb_prop in Hrest as [Hx _].
    destruct (hex_digit_char x Hx) as (_ & _ & _ & _ & Hx1 & Hx2 & _).
    each_char c; try reflexivity; cbn [PyInt.skip_prefix]; rewrite Hx1, Hx2; reflexivity. }
  destruct (scan_digits_hex (String c s) Hs 0) as (v & Hv).
  exists v. unfold PyInt.int16. cbn [PyStr.lstrip]. rewrite Hsp.
  each_char c; try (vm_compute in Hc; discriminate Hc);
    cbv zeta; rewrite Hskip, Hd, Hv; reflexivity.
Qed.

(** A string of hexadecimal digits is left alone by both [strip]s. *)
Lemma strip_hex (p : ascii -> bool) (s : string) :
  (forall c, is_hex_digit c = true -> p c = false) ->
  all_chars is_hex_digit s = true ->
  PyStr.strip p s = s.
Proof.
  intros Hp Hs. unfold PyStr.strip.
  assert (Hl : PyStr.lstrip p s = s).
  { destruct s as [|c s]; [reflexivity|].
    unfold all_chars in Hs. cbn [list_ascii_of_string forallb] in Hs.
    apply andb_prop in Hs as [Hc _]. cbn [PyStr.lstrip]. rewrite (Hp c Hc).
    reflexivity. }
  rewrite Hl. clear Hl.
  induction s as [|c s IH]; [reflexivity|].
  unfold all_chars in Hs. cbn [list_ascii_of_string forallb] in Hs.
  apply andb_prop in Hs as [Hc Hs]. cbn [PyStr.rstrip].
  rewrite (IH Hs). destruct s; [rewrite (Hp c Hc)|]; reflexivity.
Qed.

Lemma strip_hash_hex (p : ascii -> bool) (s : string) :
  p "#"%char = false ->
  (forall c, is_hex_digit c = true -> p c = false) ->
  all_chars is_hex_digit s = true ->
  PyStr.strip p (String "#" s) = String "#" s.
Proof.
  intros Hh Hp Hs. unfold PyStr.strip. cbn [PyStr.lstrip]. rewrite Hh.
  cbn [PyStr.rstrip].
  fold (PyStr.strip p s).
  assert (Hr : PyStr.rstrip p s = s).
  { pose proof (strip_hex p s Hp Hs) as H. unfold PyStr.strip in H.
    destruct s as [|c s]; [reflexivity|].
    unfold all_chars in Hs. cbn [list_ascii_of_string forallb] in Hs.
    apply andb_prop in Hs as [Hc _].
    cbn [PyStr.lstrip] in H. rewrite (Hp c Hc) in H. exact H. }
  rewrite Hr. destruct s; [rewrite Hh|]; reflexivity.
Qed.

Lemma rstrip_cons (p : ascii -> bool) (c d : ascii) (s : string) :
  PyStr.rstrip p (String d s) = String d s ->
  PyStr.rstrip p (String c (String d s)) = String c (String d s).
Proof.
  intros H. change (PyStr.rstrip p (String c (String d s)))
    with (match PyStr.rstrip p (String d s) with
          | EmptyString => if p c then EmptyString else String c EmptyString
          | r => String c r
          end).
  rewrite H. reflexivity.
Qed.

Lemma rstrip_hex (p : ascii -> bool) (s : string) :
  (forall c, is_hex_digit c = true -> p c = false) ->
  all_chars is_hex_digit s = true ->
  PyStr.rstrip p s = s.
Proof.
  intros Hp Hs. induction s as [|c s IH]; [reflexivity|].
  unfold all_chars in Hs. cbn [list_ascii_of_string forallb] in Hs.
  apply andb_prop in Hs as [Hc Hs]. cbn [PyStr.rstrip].
  rewrite (IH Hs). destruct s; [rewrite (Hp c Hc)|]; reflexivity.
Qed.

Lemma hex_not_space (c : ascii) : is_hex_digit c = true -> PyStr.is_space c = false.
Proof. intros H. apply (hex_digit_char c H). Qed.

Lemma hex_not_quote (c : ascii) : is_hex_digit c = true -> PyStr.is_quote c = false.
Proof. intros H. apply (hex_digit_char c H). Qed.

Ltac six_chars h Hlen :=
  destruct h as [|?a [|?b [|?c [|?d [|?e [|?f [|?g ?h]]]]]]]; try discriminate Hlen.

(** The tail of [normalize_hex_color] on [#] and six hexadecimal digits. *)
Lemma normalize_tail_hex (h : string) :
  String.length h = 6%nat ->
  all_chars is_hex_digit h = true ->
  (let color_value := String "#" h in
   let color_value :=
     if PyStr.startswith color_value "0x"
     then "#" ++ PyStr.slice_from 2 color_value else color_value in
   let color_value :=
     if negb (PyStr.startswith color_value "#")
     then "#" ++ color_value else color_value in
   let color_value :=
     if (String.length color_value =? 4)%nat
     then "#" ++ PyStr.double_chars (PyStr.slice_from 1 color_value)
     else color_value in
   if negb (String.length color_value =? 7)%nat then None
   else match PyInt.int16 (PyStr.slice_from 1 color_value) with
        | Some _ => Some color_value
        | None => None
        end) = Some (String "#" h).
Proof.
  intros Hlen Hh. six_chars h Hlen.
  destruct (int16_hex _ _ Hh) as [v Hv].
  cbv zeta.
  change (PyStr.startswith (String "#" ?x) "0x") with false. cbv iota.
  change (PyStr.startswith (String "#" ?x) "#") with true.
  cbn [negb String.length Nat.eqb PyStr.slice_from].
  rewrite Hv. reflexivity.
Qed.

Lemma normalize_hash_hex (h : string) :
  String.length h = 6%nat ->
  all_chars is_hex_digit h = true ->
  normalize_hex_color (String "#" h) = Some (String "#" h).
Proof.
  intros Hlen Hh. unfold normalize_hex_color.
  rewrite (strip_hash_hex PyStr.is_space h eq_refl hex_not_space Hh).
  rewrite (strip_hash_hex PyStr.is_quote h eq_refl hex_not_quote Hh).
  exact (normalize_tail_hex h Hlen Hh).
Qed.

Lemma normalize_bare_hex (h : string) :
  String.length h = 6%nat ->
  all_chars is_hex_digit h = true ->
  normalize_hex_color h = Some (String "#" h).
Proof.
  intros Hlen Hh. pose proof (normalize_tail_hex h Hlen Hh) as Htail.
  unfold normalize_hex_color.
  rewrite (strip_hex PyStr.is_space h hex_not_space Hh).
  rewrite (strip_hex PyStr.is_quote h hex_not_quote Hh).
  six_chars h Hlen.
  unfold all_chars in Hh. cbn [list_ascii_of_string forallb] in Hh.
  apply andb_prop in Hh as [Ha Hh]. apply andb_prop in Hh as [Hb _].
  destruct (hex_digit_char a Ha) as (_ & _ & _ & _ & _ & _ & _ & Hah & _).
  destruct (hex_digit_char b Hb) as (_ & _ & _ & _ & _ & _ & Hbx & _).
  assert (E1 : PyStr.startswith
                 (String a (String b (String c (String d (String e (String f ""))))))
                 "0x" = false).
  { unfold PyStr.startswith. cbn [String.prefix].
    destruct (ascii_dec "0" a) as [_|_]; [|reflexivity].
    destruct (ascii_dec "x" b) as [E|_]; [symmetry in E; contradiction|reflexivity]. }
  assert (E2 : PyStr.startswith
                 (String a (String b (String c (String d (String e (String f ""))))))
                 "#" = false).
  { unfold PyStr.startswith. cbn [String.prefix].
    destruct (ascii_dec "#" a) as [E|_]; [symmetry in E; contradiction|reflexivity]. }
  rewrite E1. cbv iota. rewrite E2. cbn [negb].
  exact Htail.
Qed.

Lemma normalize_0x_hex (h : string) :
  String.length h = 6%nat ->
  all_chars is_hex_digit h = true ->
  normalize_hex_color ("0x" ++ h) = Some (String "#" h).
Proof.
  intros Hlen Hh. pose proof (normalize_tail_hex h Hlen Hh) as Htail.
  pose proof (rstrip_hex PyStr.is_space h hex_not_space Hh) as Hs.
  pose proof (rstrip_hex PyStr.is_quote h hex_not_quote Hh) as Hq.
  six_chars h Hlen.
  change ("0x" ++ ?s) with (String "0" (String "x" s)).
  unfold normalize_hex_color, PyStr.strip.
  cbn [PyStr.lstrip]. change (PyStr.is_space "0") with false. cbv iota.
  rewrite (rstrip_cons PyStr.is_space "0" "x" _ (rstrip_cons PyStr.is_space "x" a _ Hs)).
  cbn [PyStr.lstrip]. change (PyStr.is_quote "0") with false. cbv iota.
  rewrite (rstrip_cons PyStr.is_quote "0" "x" _ (rstrip_cons PyStr.is_quote "x" a _ Hq)).
  change (PyStr.startswith (String "0" (String "x" ?s)) "0x") with true.
  cbv iota. cbn [PyStr.slice_from].
  change ("#" ++ ?s) with (String "#" s) at 1.
  exact Htail.
Qed.

Lemma normalize_shorthand_hash (a b c : ascii) :
  is_hex_digit a = true -> is_hex_digit b = true -> is_hex_digit c = true ->
  normalize_hex_color (String "#" (String a (String b (String c ""))))
  = Some (String "#" (String a (String a (String b (String b (String c (String c ""))))))).
Proof.
  intros Ha Hb Hc.
  assert (Hh : all_chars is_hex_digit (String a (String b (String c ""))) = true)
    by (unfold all_chars; cbn; rewrite Ha, Hb, Hc; reflexivity).
  assert (Hd : all_chars is_hex_digit
                 (String a (String a (String b (String b (String c (String c "")))))) = true)
    by (unfold all_chars; cbn; rewrite Ha, Hb, Hc; reflexivity).
  destruct (int16_hex _ _ Hd) as [v Hv].
  unfold normalize_hex_color.
  rewrite (strip_hash_hex PyStr.is_space _ eq_refl hex_not_space Hh).
  rewrite (strip_hash_hex PyStr.is_quote _ eq_refl hex_not_quote Hh).
  change (PyStr.startswith (String "#" ?x) "0x") with false. cbv iota.
  change (PyStr.startswith (String "#" ?x) "#") with true.
  cbn [negb String.length Nat.eqb PyStr.slice_from PyStr.double_chars].
  change ("#" ++ ?s) with (String "#" s).
  cbn [negb String.length Nat.eqb PyStr.slice_from].
  rewrite Hv. reflexivity.
Qed.

Lemma normalize_shorthand_bare (a b c : ascii) :
  is_hex_digit a = true -> is_hex_digit b = true -> is_hex_digit c = true ->
  normalize_hex_color (String a (String b (String c "")))
  = Some (String "#" (String a (String a (String b (String b (String c (String c ""))))))).
Proof.
  intros Ha Hb Hc.
  assert (Hh : all_chars is_hex_digit (String a (String b (String c ""))) = true)
    by (unfold all_chars; cbn; rewrite Ha, Hb, Hc; reflexivity).
  assert (Hd : all_chars is_hex_digit
                 (String a (String a (String b (String b (String c (String c "")))))) = true)
    by (unfold all_chars; cbn; rewrite Ha, Hb, Hc; reflexivity).
  destruct (int16_hex _ _ Hd) as [v Hv].
  destruct (hex_digit_char a Ha) as (_ & _ & _ & _ & _ & _ & _ & Hah & _).
  destruct (hex_digit_char b Hb) as (_ & _ & _ & _ & _ & _ & Hbx & _).
  unfold normalize_hex_color.
  rewrite (strip_hex PyStr.is_space _ hex_not_space Hh).
  rewrite (strip_hex PyStr.is_quote _ hex_not_quote Hh).
  assert (E1 : PyStr.startswith (String a (String b (String c ""))) "0x" = false).
  { unfold PyStr.startswith. cbn [String.prefix].
    destruct (ascii_dec "0" a) as [_|_]; [|reflexivity].
    destruct (ascii_dec "x" b) as [E|_]; [symmetry in E; contradiction|reflexivity]. }
  assert (E2 : PyStr.startswith (String a (String b (String c ""))) "#" = false).
  { unfold PyStr.startswith. cbn [String.prefix].
    destruct (ascii_dec "#" a) as [E|_]; [symmetry in E; contradiction|reflexivity]. }
  rewrite E1. cbv iota. rewrite E2. cbn [negb].
  change ("#" ++ ?s) with (String "#" s).
  cbn [negb String.length Nat.eqb PyStr.slice_from PyStr.double_chars].
  change ("#" ++ ?s) with (String "#" s).
  cbn [negb String.length Nat.eqb PyStr.slice_from].
  cbn [PyStr.double_chars String.length Nat.eqb negb].
  rewrite Hv. reflexivity.
Qed.

Lemma normalize_surrounding_whitespace_witness :
  normalize_hex_color ("  " ++ "#1e1e2e" ++ " ") = normalize_hex_color "#1e1e2e".
Proof.
  apply (normalize_surrounding_whitespace "  " "#1e1e2e" " "); reflexivity.
Defined.

(** X2: whatever [normalize_hex_color] returns is a [#] followed by six
    characters that [int(.., 16)] reads as one number; nothing shorter,
    longer or unreadable leaves the function. *)
Theorem normalize_result_shape (x y : string) :
  normalize_hex_color x = Some y ->
  exists rest,
    y = String "#" rest /\ String.length rest = 6%nat /\ is_Some (PyInt.int16 rest).
Proof. exact (normalize_shape x y). Qed.

Lemma normalize_result_shape_witness :
  exists rest,
    "#ffaa00" = String "#" rest /\ String.length rest = 6%nat
    /\ is_Some (PyInt.int16 rest).
Proof. apply (normalize_result_shape "fa0" "#ffaa00"). reflexivity. Defined.

(** X3: six hexadecimal digits of either case are accepted bare, after a
    [#] and after [0x], and all three forms normalise to [#] followed by the
    same six digits, in the case they were written in. *)
Theorem normalize_six_digits (h : string) :
  String.length h = 6%nat ->
  all_chars is_hex_digit h = true ->
  normalize_hex_color (String "#" h) = Some (String "#" h)
  /\ normalize_hex_color h = Some (String "#" h)
  /\ normalize_hex_color ("0x" ++ h) = Some (String "#" h).
Proof.
  intros Hlen Hh. split; [exact (normalize_hash_hex h Hlen Hh)|].
  split; [exact (normalize_bare_hex h Hlen Hh)|exact (normalize_0x_hex h Hlen Hh)].
Qed.

Lemma normalize_six_digits_witness :
  normalize_hex_color (String "#" "1E1e2E") = Some (String "#" "1E1e2E")
  /\ normalize_hex_color "1E1e2E" = Some (String "#" "1E1e2E")
  /\ normalize_hex_color ("0x" ++ "1E1e2E") = Some (String "#" "1E1e2E").
Proof. apply (normalize_six_digits "1E1e2E"); reflexivity. Defined.

(** X4: three hexadecimal digits, bare or after a [#], are expanded by
    doubling each digit. *)
Theorem normalize_shorthand (a b c : ascii) :
  is_hex_digit a = true -> is_hex_digit b = true -> is_hex_digit c = true ->
  let long := String "#" (String a (String a (String b (String b (String c (String c "")))))) in
  normalize_hex_color (String "#" (String a (String b (String c "")))) = Some long
  /\ normalize_hex_color (String a (String b (String c ""))) = Some long.
Proof.
  intros Ha Hb Hc long. split.
  - exact (normalize_shorthand_hash a b c Ha Hb Hc).
  - exact (normalize_shorthand_bare a b c Ha Hb Hc).
Qed.

Lemma normalize_shorthand_witness :
  normalize_hex_color "#fA0" = Some "#ffAA00"
  /\ normalize_hex_color "fA0" = Some "#ffAA00".
Proof. apply (normalize_shorthand "f" "A" "0"); reflexivity. Defined.

(** *** Channels: range and round trips *)

Lemma in_all_ascii (c : ascii) : In c all_ascii.
Proof.
  rewrite <- (ascii_nat_embedding c). apply in_map, in_seq.
  pose proof (nat_ascii_bounded c). lia.
Qed.

Lemma for_all_pairs_spec (P : ascii -> ascii -> bool) :
  for_all_pairs P = true -> forall a b, P a b = true.
Proof.
  unfold for_all_pairs. intros H a b.
  rewrite forallb_forall in H. specialize (H a (in_all_ascii a)).
  rewrite forallb_forall in H. exact (H b (in_all_ascii b)).
Qed.

Lemma pair_bounded_all : for_all_pairs pair_bounded = true.
Proof. vm_compute. reflexivity. Qed.

Lemma pair_round_trip_all : for_all_pairs pair_round_trip = true.
Proof. vm_compute. reflexivity. Qed.

Lemma channel_round_trip_all : forallb channel_round_trip channel_values = true.
Proof. vm_compute. reflexivity. Qed.

Lemma in_channel_values (v : Z) : 0 <= v <= 255 -> In v channel_values.
Proof.
  intros Hv. unfold channel_values. rewrite <- (Z2Nat.id v) by lia.
  apply in_map, in_seq. lia.
Qed.

(** What [int(.., 16)] reads from two characters lies between -15 and
    255. *)
Lemma int16_pair_bounds (a b : ascii) (v : Z) :
  PyInt.int16 (String a (String b "")) = Some v -> -15 <= v <= 255.
Proof.
  pose proof (for_all_pairs_spec _ pair_bounded_all a b) as H.
  unfold pair_bounded in H. intros E. rewrite E in H. lia.
Qed.

(** Two lowercase digits are read as a channel that is written back as
    the same two digits. *)
Lemma format_int16_pair (a b : ascii) :
  is_lower_hex a = true -> is_lower_hex b = true ->
  exists v, PyInt.int16 (String a (String b "")) = Some v
            /\ 0 <= v <= 255
            /\ PyNum.format_02x v = String a (String b "").
Proof.
  pose proof (for_all_pairs_spec _ pair_round_trip_all a b) as H.
  unfold pair_round_trip in H. intros Ha Hb. rewrite Ha, Hb in H. cbn [andb] in H.
  destruct (PyInt.int16 _) as [v|]; [|discriminate H].
  apply andb_prop in H as [H1 H2]. apply String.eqb_eq in H2.
  exists v. split; [reflexivity|]. split; [lia|exact H2].
Qed.

(** A channel between 0 and 255 is written as two lowercase digits that
    are read back as the channel. *)
Lemma int16_format_channel (v : Z) :
  0 <= v <= 255 ->
  exists a b, PyNum.format_02x v = String a (String b "")
              /\ is_lower_hex a = true /\ is_lower_hex b = true
              /\ PyInt.int16 (String a (String b "")) = Some v.
Proof.
  intros Hv. pose proof channel_round_trip_all as Hall.
  rewrite forallb_forall in Hall. specialize (Hall v (in_channel_values v Hv)).
  unfold channel_round_trip in Hall.
  destruct (PyNum.format_02x v) as [|a [|b [|]]]; try discriminate Hall.
  apply andb_prop in Hall as [Hab Hi]. apply andb_prop in Hab as [Ha Hb].
  destruct (PyInt.int16 _) as [v'|] eqn:E; [|discriminate Hi].
  apply Z.eqb_eq in Hi. subst v'. exists a, b.
  repeat split; first [assumption | reflexivity].
Qed.

(** The channels of any string: every one lies between -15 and 255, and
    all three are 0 when normalisation fails. *)
Lemma hex_to_rgb_range (s : string) :
  exists r g b,
    hex_to_rgb s = (r, g, b)
    /\ -15 <= r <= 255 /\ -15 <= g <= 255 /\ -15 <= b <= 255
    /\ (normalize_hex_color s = None -> (r, g, b) = (0, 0, 0)).
Proof.
  unfold hex_to_rgb. destruct (normalize_hex_color s) as [n|] eqn:En.
  - destruct (normalize_shape s n En) as (rest & -> & Hlen & _).
    six_chars rest Hlen.
    change (PyStr.slice 1 3 (String "#" (String a (String b (String c (String d (String e (String f ""))))))))
      with (String a (String b "")).
    change (PyStr.slice 3 5 (String "#" (String a (String b (String c (String d (String e (String f ""))))))))
      with (String c (String d "")).
    change (PyStr.slice 5 7 (String "#" (String a (String b (String c (String d (String e (String f ""))))))))
      with (String e (String f "")).
    destruct (PyInt.int16 (String a (String b ""))) as [r|] eqn:Er;
      [|exists 0, 0, 0; repeat split; (lia || reflexivity || discriminate)].
    destruct (PyInt.int16 (String c (String d ""))) as [g|] eqn:Eg;
      [|exists 0, 0, 0; repeat split; (lia || reflexivity || discriminate)].
    destruct (PyInt.int16 (String e (String f ""))) as [b'|] eqn:Eb;
      [|exists 0, 0, 0; repeat split; (lia || reflexivity || discriminate)].
    exists r, g, b'.
    pose proof (int16_pair_bounds _ _ _ Er). pose proof (int16_pair_bounds _ _ _ Eg).
    pose proof (int16_pair_bounds _ _ _ Eb).
    repeat split; (lia || discriminate).
  - exists 0, 0, 0. repeat split; (lia || reflexivity).
Qed.

(** X5: the channels [hex_to_rgb] returns for any string lie between -15
    and 255 (a sign is read as part of a channel), and all three are 0 when
    the string is not a colour. *)
Theorem hex_to_rgb_channel_range (s : string) :
  exists r g b,
    hex_to_rgb s = (r, g, b)
    /\ -15 <= r <= 255 /\ -15 <= g <= 255 /\ -15 <= b <= 255
    /\ (normalize_hex_color s = None -> (r, g, b) = (0, 0, 0)).
Proof. exact (hex_to_rgb_range s). Qed.

(** [rgb_to_hex] of three channels between 0 and 255 is a canonical colour
    whose channels are the given ones. *)
Lemma rgb_to_hex_channels (r g b : Z) :
  0 <= r <= 255 -> 0 <= g <= 255 -> 0 <= b <= 255 ->
  is_canonical (rgb_to_hex r g b) = true
  /\ hex_to_rgb (rgb_to_hex r g b) = (r, g, b).
Proof.
  intros Hr Hg Hb.
  destruct (int16_format_channel r Hr) as (a1 & b1 & F1 & A1 & B1 & I1).
  destruct (int16_format_channel g Hg) as (a2 & b2 & F2 & A2 & B2 & I2).
  destruct (int16_format_channel b Hb) as (a3 & b3 & F3 & A3 & B3 & I3).
  unfold rgb_to_hex. rewrite F1, F2, F3.
  change ("#" ++ String a1 (String b1 "") ++ String a2 (String b2 "")
          ++ String a3 (String b3 ""))
    with (String "#" (String a1 (String b1 (String a2 (String b2 (String a3 (String b3 ""))))))).
  assert (Hc : is_canonical
                 (String "#" (String a1 (String b1 (String a2 (String b2
                    (String a3 (String b3 ""))))))) = true)
    by (cbn [is_canonical]; rewrite A1, B1, A2, B2, A3, B3; reflexivity).
  split; [exact Hc|].
  unfold hex_to_rgb. rewrite (normalize_canonical _ Hc).
  change (PyStr.slice 1 3 (String "#" (String a1 (String b1 (String a2 (String b2 (String a3 (String b3 ""))))))))
    with (String a1 (String b1 "")).
  change (PyStr.slice 3 5 (String "#" (String a1 (String b1 (String a2 (String b2 (String a3 (String b3 ""))))))))
    with (String a2 (String b2 "")).
  change (PyStr.slice 5 7 (String "#" (String a1 (String b1 (String a2 (String b2 (String a3 (String b3 ""))))))))
    with (String a3 (String b3 "")).
  rewrite I1, I2, I3. reflexivity.
Qed.

(** The channels of a canonical colour lie between 0 and 255 and are
    written back as the colour. *)
Lemma hex_to_rgb_written_back (s : string) :
  is_canonical s = true ->
  exists r g b,
    hex_to_rgb s = (r, g, b)
    /\ 0 <= r <= 255 /\ 0 <= g <= 255 /\ 0 <= b <= 255
    /\ rgb_to_hex r g b = s.
Proof.
  intros Hs. unfold hex_to_rgb. rewrite (normalize_canonical s Hs).
  destruct (is_canonical_inv s Hs) as (a & b & c & d & e & f & -> & Hall).
  simpl in Hall. repeat (apply andb_prop in Hall as [? Hall]).
  destruct (format_int16_pair a b) as (r & Ir & Hr & Fr); [assumption..|].
  destruct (format_int16_pair c d) as (g & Ig & Hg & Fg); [assumption..|].
  destruct (format_int16_pair e f) as (b' & Ib & Hb & Fb); [assumption..|].
  change (PyStr.slice 1 3 (String "#" (String a (String b (String c (String d (String e (String f ""))))))))
    with (String a (String b "")).
  change (PyStr.slice 3 5 (String "#" (String a (String b (String c (String d (String e (String f ""))))))))
    with (String c (String d "")).
  change (PyStr.slice 5 7 (String "#" (String a (String b (String c (String d (String e (String f ""))))))))
    with (String e (String f "")).
  rewrite Ir, Ig, Ib. exists r, g, b'.
  split; [reflexivity|]. repeat (split; [assumption|]).
  unfold rgb_to_hex. rewrite Fr, Fg, Fb. reflexivity.
Qed.

(** X6: three channels between 0 and 255 are written by [rgb_to_hex] as a
    canonical colour, and [hex_to_rgb] reads the same channels back. *)
Theorem rgb_hex_round_trip (r g b : Z) :
  0 <= r <= 255 -> 0 <= g <= 255 -> 0 <= b <= 255 ->
  is_canonical (rgb_to_hex r g b) = true
  /\ hex_to_rgb (rgb_to_hex r g b) = (r, g, b).
Proof. exact (rgb_to_hex_channels r g b). Qed.

Lemma rgb_hex_round_trip_witness :
  is_canonical (rgb_to_hex 30 30 46) = true
  /\ hex_to_rgb (rgb_to_hex 30 30 46) = (30, 30, 46).
Proof. apply (rgb_hex_round_trip 30 30 46); lia. Defined.

(** X7: the channels of a canonical colour lie between 0 and 255, and
    [rgb_to_hex] writes them back as the same colour. *)
Theorem hex_rgb_round_trip (s : string) :
  is_canonical s = true ->
  exists r g b,
    hex_to_rgb s = (r, g, b)
    /\ 0 <= r <= 255 /\ 0 <= g <= 255 /\ 0 <= b <= 255
    /\ rgb_to_hex r g b = s.
Proof. exact (hex_to_rgb_written_back s). Qed.

Lemma hex_rgb_round_trip_witness :
  exists r g b,
    hex_to_rgb "#1e1e2e" = (r, g, b)
    /\ 0 <= r <= 255 /\ 0 <= g <= 255 /\ 0 <= b <= 255
    /\ rgb_to_hex r g b = "#1e1e2e".
Proof. apply (hex_rgb_round_trip "#1e1e2e"). reflexivity. Defined.

(** *** The adjustment of a colour *)

Lemma adjust_color_for_theme_channels (hex_color : string) (is_light : bool)
    (factor : float) :
  adjust_color_for_theme hex_color is_light factor =
    match normalize_hex_color hex_color with
    | None => Some hex_color
    | Some normalized =>
        let '(r, g, b) := hex_to_rgb normalized in
        r' ← adjust_channel is_light factor r;
        g' ← adjust_channel is_light factor g;
        b' ← adjust_channel is_light factor b;
        Some (rgb_to_hex r' g' b')
    end.
Proof.
  unfold adjust_color_for_theme, adjust_channel.
  destruct (normalize_hex_color hex_color) as [n|]; [|reflexivity].
  destruct (hex_to_rgb n) as [[r g] b].
  destruct is_light;
    repeat (destruct (PyNum.int_of_float _); cbn [mbind option_bind]; try reflexivity).
Qed.

Lemma in_signed_channel_values (v : Z) :
  -15 <= v <= 255 -> In v signed_channel_values.
Proof.
  intros Hv. unfold signed_channel_values.
  replace v with (Z.of_nat (Z.to_nat (v + 15)) - 15) by lia.
  apply (in_map (fun n => Z.of_nat n - 15)), in_seq. lia.
Qed.

Lemma channel_defined_all (is_light : bool) (s : surface) :
  forallb (channel_defined is_light s) signed_channel_values = true.
Proof. destruct is_light, s; vm_compute; reflexivity. Qed.

Lemma channel_moves_all (is_light : bool) (s : surface) :
  forallb (channel_moves is_light s) channel_values = true.
Proof. destruct is_light, s; vm_compute; reflexivity. Qed.

Lemma channel_kept_all (is_light : bool) :
  forallb (channel_kept is_light) channel_values = true.
Proof. destruct is_light; vm_compute; reflexivity. Qed.

(** With a factor of the table the adjustment raises nothing, whatever
    the string. *)
Lemma adjust_table_total (hex_color : string) (is_light : bool) (s : surface) :
  is_Some (adjust_color_for_theme hex_color is_light (surface_factor is_light s)).
Proof.
  rewrite adjust_color_for_theme_channels.
  destruct (normalize_hex_color hex_color) as [n|]; [|eauto].
  destruct (hex_to_rgb_range n) as (r & g & b & -> & Hr & Hg & Hb & _).
  pose proof (channel_defined_all is_light s) as Hall.
  rewrite forallb_forall in Hall.
  pose proof (Hall r (in_signed_channel_values r Hr)) as Cr.
  pose proof (Hall g (in_signed_channel_values g Hg)) as Cg.
  pose proof (Hall b (in_signed_channel_values b Hb)) as Cb.
  unfold channel_defined in Cr, Cg, Cb.
  destruct (adjust_channel _ _ r); [|discriminate Cr].
  destruct (adjust_channel _ _ g); [|discriminate Cg].
  destruct (adjust_channel _ _ b); [|discriminate Cb].
  cbn [mbind option_bind]. eauto.
Qed.

Lemma generate_ui_colors_total (c : colors) (is_light : bool) :
  is_Some (generate_ui_colors c is_light).
Proof.
  unfold generate_ui_colors. cbv beta zeta.
  repeat
    match goal with
    | |- context [adjust_color_for_theme ?bg is_light (surface_factor is_light ?s)] =>
        destruct (adjust_table_total bg is_light s) as [? ->];
        cbn [mbind option_bind]
    end.
  eauto.
Qed.

Lemma adjust_canonical_channels (hex_color : string) (is_light : bool)
    (factor : float) (r g b r' g' b' : Z) :
  is_canonical hex_color = true ->
  hex_to_rgb hex_color = (r, g, b) ->
  adjust_channel is_light factor r = Some r' ->
  adjust_channel is_light factor g = Some g' ->
  adjust_channel is_light factor b = Some b' ->
  adjust_color_for_theme hex_color is_light factor = Some (rgb_to_hex r' g' b').
Proof.
  intros Hc Hrgb Hr Hg Hb. rewrite adjust_color_for_theme_channels.
  rewrite (normalize_canonical _ Hc), Hrgb, Hr, Hg, Hb. reflexivity.
Qed.

Lemma channel_moves_spec (is_light : bool) (s : surface) (v : Z) :
  0 <= v <= 255 ->
  exists v',
    adjust_channel is_light (surface_factor is_light s) v = Some v'
    /\ 0 <= v' <= 255
    /\ (if is_light then v' <= v else v <= v').
Proof.
  intros Hv. pose proof (channel_moves_all is_light s) as Hall.
  rewrite forallb_forall in Hall. specialize (Hall v (in_channel_values v Hv)).
  unfold channel_moves in Hall.
  destruct (adjust_channel _ _ v) as [v'|]; [|discriminate Hall].
  exists v'. split; [reflexivity|]. destruct is_light; lia.
Qed.

Lemma channel_kept_spec (is_light : bool) (v : Z) :
  0 <= v <= 255 -> adjust_channel is_light 0 v = Some v.
Proof.
  intros Hv. pose proof (channel_kept_all is_light) as Hall.
  rewrite forallb_forall in Hall. specialize (Hall v (in_channel_values v Hv)).
  unfold channel_kept in Hall.
  destruct (adjust_channel _ _ v) as [v'|]; [|discriminate Hall].
  apply Z.eqb_eq in Hall. congruence.
Qed.

(** X8: with a factor of the table, a canonical colour is darkened in the
    light branch and lightened in the dark branch: no channel moves the
    other way, and the result is a canonical colour. *)
Theorem adjust_direction (hex_color : string) (is_light : bool) (s : surface) :
  is_canonical hex_color = true ->
  exists c r g b r' g' b',
    adjust_color_for_theme hex_color is_light (surface_factor is_light s) = Some c
    /\ is_canonical c = true
    /\ hex_to_rgb hex_color = (r, g, b)
    /\ hex_to_rgb c = (r', g', b')
    /\ (if is_light then r' <= r /\ g' <= g /\ b' <= b
        else r <= r' /\ g <= g' /\ b <= b').
Proof.
  intros Hc.
  destruct (hex_to_rgb_written_back _ Hc) as (r & g & b & Hrgb & Hr & Hg & Hb & _).
  destruct (channel_moves_spec is_light s r Hr) as (r' & Ar & Br & Dr).
  destruct (channel_moves_spec is_light s g Hg) as (g' & Ag & Bg & Dg).
  destruct (channel_moves_spec is_light s b Hb) as (b' & Ab & Bb & Db).
  destruct (rgb_to_hex_channels r' g' b' Br Bg Bb) as [Hcan Hback].
  exists (rgb_to_hex r' g' b'), r, g, b, r', g', b'.
  split; [exact (adjust_canonical_channels _ _ _ _ _ _ _ _ _ Hc Hrgb Ar Ag Ab)|].
  split; [exact Hcan|]. split; [exact Hrgb|]. split; [exact Hback|].
  destruct is_light; auto.
Qed.

(** X9: a factor of zero leaves a canonical colour as it is, in both
    branches. *)
Theorem adjust_zero_factor (hex_color : string) (is_light : bool) :
  is_canonical hex_color = true ->
  adjust_color_for_theme hex_color is_light 0 = Some hex_color.
Proof.
  intros Hc.
  destruct (hex_to_rgb_written_back _ Hc) as (r & g & b & Hrgb & Hr & Hg & Hb & Hback).
  rewrite (adjust_canonical_channels _ _ _ _ _ _ r g b Hc Hrgb
             (channel_kept_spec _ r Hr) (channel_kept_spec _ g Hg)
             (channel_kept_spec _ b Hb)).
  rewrite Hback. reflexivity.
Qed.

Lemma adjust_direction_witness :
  exists c r g b r' g' b',
    adjust_color_for_theme "#1e1e2e" false (surface_factor false side_bg) = Some c
    /\ is_canonical c = true
    /\ hex_to_rgb "#1e1e2e" = (r, g, b)
    /\ hex_to_rgb c = (r', g', b')
    /\ (r <= r' /\ g <= g' /\ b <= b').
Proof. apply (adjust_direction "#1e1e2e" false side_bg). reflexivity. Defined.

Lemma adjust_zero_factor_witness :
  adjust_color_for_theme "#1e1e2e" true 0 = Some "#1e1e2e".
Proof. apply (adjust_zero_factor "#1e1e2e" true). reflexivity. Defined.

(** X10: [generate_ui_colors] returns for every palette and both theme
    types: with the factors of its table no channel of any string leaves
    the range in which the truncation to an integer is defined. When the
    background is not a colour, all seven surfaces are the background
    string as it stands. *)
Theorem generate_ui_colors_defined (c : colors) (is_light : bool) :
  let bg := dict_get (c_primary c) "background" "#1e1e2e" in
  exists ui,
    generate_ui_colors c is_light = Some ui
    /\ (normalize_hex_color bg = None -> ui = UiColors bg bg bg bg bg bg bg).
Proof.
  intros bg. destruct (generate_ui_colors_total c is_light) as [ui Hui].
  exists ui. split; [exact Hui|]. intros Hn.
  unfold generate_ui_colors in Hui. cbv beta zeta in Hui. fold bg in Hui.
  unfold adjust_color_for_theme in Hui. rewrite Hn in Hui.
  cbn [mbind option_bind] in Hui. injection Hui as <-. reflexivity.
Qed.

(** *** The brightness test in exact arithmetic *)

Lemma for_all_triples_spec {A : Type} (P : A -> A -> A -> bool)
    (la lb lc : list A) :
  for_all_triples P la lb lc = true ->
  forall a b c, In a la -> In b lb -> In c lc -> P a b c = true.
Proof.
  unfold for_all_triples. intros H a b c Ha Hb Hc.
  rewrite forallb_forall in H. specialize (H a Ha).
  rewrite forallb_forall in H. specialize (H b Hb).
  rewrite forallb_forall in H. exact (H c Hc).
Qed.

(** The agreement, checked on the 16777216 colours. *)
Lemma brightness_checked :
  for_all_triples weighted_agree
    (weighted 0.299 299) (weighted 0.587 587) (weighted 0.114 114) = true.
Proof. vm_cast_no_check (eq_refl true). Qed.

Lemma in_weighted (w : float) (k : int) (v : Z) :
  0 <= v <= 255 ->
  In (Uint63.of_Z v, (w * of_uint63 (Uint63.of_Z v))%float, (k * Uint63.of_Z v)%uint63)
     (weighted w k).
Proof.
  intros Hv. unfold weighted.
  apply (in_map (fun v => let i := Uint63.of_Z v in
                          (i, (w * of_uint63 i)%float, (k * i)%uint63))).
  apply in_channel_values, Hv.
Qed.

Lemma to_Z_of_channel (v : Z) : 0 <= v <= 255 -> Uint63.to_Z (Uint63.of_Z v) = v.
Proof.
  intros Hv. rewrite Uint63.of_Z_spec. apply Z.mod_small.
  change wB with 9223372036854775808. lia.
Qed.

Lemma float_of_channel (v : Z) :
  0 <= v -> PyNum.float_of_int v = of_uint63 (Uint63.of_Z v).
Proof.
  intros Hv. unfold PyNum.float_of_int.
  destruct (Z.ltb_spec v 0); [lia|reflexivity].
Qed.

Lemma channel_eqb (v k : Z) :
  0 <= v <= 255 -> 0 <= k <= 255 ->
  (Uint63.of_Z v =? Uint63.of_Z k)%uint63 = (v =? k).
Proof.
  intros Hv Hk. destruct (Uint63.eqbP (Uint63.of_Z v) (Uint63.of_Z k)) as [E|E];
    rewrite !to_Z_of_channel in E by assumption;
    symmetry; [apply Z.eqb_eq|apply Z.eqb_neq]; exact E.
Qed.

Lemma weighted_sum_ltb (r g b : Z) :
  0 <= r <= 255 -> 0 <= g <= 255 -> 0 <= b <= 255 ->
  (127500 <? 299 * Uint63.of_Z r + 587 * Uint63.of_Z g + 114 * Uint63.of_Z b)%uint63
  = is_bright_exact r g b.
Proof.
  intros Hr Hg Hb. unfold is_bright_exact.
  assert (E : Uint63.to_Z (299 * Uint63.of_Z r + 587 * Uint63.of_Z g
                           + 114 * Uint63.of_Z b)%uint63
              = 299 * r + 587 * g + 114 * b).
  { rewrite !Uint63.add_spec, !Uint63.mul_spec, !to_Z_of_channel by assumption.
    change (Uint63.to_Z 299) with 299. change (Uint63.to_Z 587) with 587.
    change (Uint63.to_Z 114) with 114.
    change wB with 9223372036854775808.
    rewrite (Z.mod_small (299 * r)), (Z.mod_small (587 * g)),
      (Z.mod_small (114 * b)) by lia.
    rewrite (Z.mod_small (299 * r + 587 * g)) by lia.
    apply Z.mod_small. lia. }
  destruct (Uint63.ltbP 127500 (299 * Uint63.of_Z r + 587 * Uint63.of_Z g
                                + 114 * Uint63.of_Z b)%uint63) as [L|L];
    rewrite E in L; change (Uint63.to_Z 127500) with 127500 in L;
    symmetry; [apply Z.ltb_lt|apply Z.ltb_ge]; lia.
Qed.

(** The float test and the exact test on three channels. *)
Lemma is_bright_spec (r g b : Z) :
  0 <= r <= 255 -> 0 <= g <= 255 -> 0 <= b <= 255 ->
  is_bright r g b
  = is_bright_exact r g b || (r =? 218) && (g =? 58) && (b =? 248).
Proof.
  intros Hr Hg Hb.
  pose proof (for_all_triples_spec _ _ _ _ brightness_checked
                _ _ _ (in_weighted 0.299 299 r Hr) (in_weighted 0.587 587 g Hg)
                (in_weighted 0.114 114 b Hb)) as H.
  unfold weighted_agree in H.
  apply Bool.eqb_prop in H.
  rewrite (weighted_sum_ltb r g b Hr Hg Hb) in H.
  change 218%uint63 with (Uint63.of_Z 218) in H.
  change 58%uint63 with (Uint63.of_Z 58) in H.
  change 248%uint63 with (Uint63.of_Z 248) in H.
  rewrite !channel_eqb in H by lia.
  rewrite <- H. unfold is_bright.
  rewrite !float_of_channel by lia. reflexivity.
Qed.

Lemma is_light_theme_channels (s : string) (r g b : Z) :
  is_canonical s = true ->
  hex_to_rgb s = (r, g, b) ->
  is_light_theme s = is_bright r g b.
Proof.
  intros Hs Hrgb. unfold is_light_theme.
  rewrite (normalize_canonical s Hs), Hrgb. reflexivity.
Qed.

(** X11: on a canonical colour [is_light_theme] is the exact test
    299 r + 587 g + 114 b > 127500 on its channels, with one exception:
    for #da3af8 the exact brightness is 0.5, the float computation gives a
    value above it and the colour is classified as light. *)
Theorem is_light_theme_exact (s : string) :
  is_canonical s = true ->
  exists r g b,
    hex_to_rgb s = (r, g, b)
    /\ is_light_theme s
       = (127500 <? 299 * r + 587 * g + 114 * b) || String.eqb s "#da3af8".
Proof.
  intros Hs.
  destruct (hex_to_rgb_written_back s Hs) as (r & g & b & Hrgb & Hr & Hg & Hb & Hback).
  exists r, g, b. split; [exact Hrgb|].
  rewrite (is_light_theme_channels s r g b Hs Hrgb), (is_bright_spec r g b Hr Hg Hb).
  unfold is_bright_exact. f_equal.
  destruct (String.eqb_spec s "#da3af8") as [E|E].
  - rewrite E in Hrgb. vm_compute in Hrgb. injection Hrgb as <- <- <-. reflexivity.
  - destruct (Z.eqb_spec r 218) as [-> |]; [|reflexivity].
    destruct (Z.eqb_spec g 58) as [-> |]; [|reflexivity].
    destruct (Z.eqb_spec b 248) as [-> |]; [|reflexivity].
    exfalso. apply E. rewrite <- Hback. reflexivity.
Qed.

Lemma is_light_theme_exact_witness :
  is_canonical "#da3af8" = true
  /\ exists r g b,
       hex_to_rgb "#da3af8" = (r, g, b)
       /\ is_light_theme "#da3af8"
          = (127500 <? 299 * r + 587 * g + 114 * b) || String.eqb "#da3af8" "#da3af8".
Proof.
  split; [reflexivity|]. apply (is_light_theme_exact "#da3af8"). reflexivity.
Defined.

(** *** The theme document *)

Lemma distinct_NoDup (l : list string) : distinct l = true -> List.NoDup l.
Proof.
  induction l as [|x l IH]; [constructor|].
  cbn [distinct]. intros [Hx Hl]%andb_prop. constructor; [|exact (IH Hl)].
  intros Hin. apply negb_true_iff in Hx.
  assert (existsb (String.eqb x) l = true); [|congruence].
  apply existsb_exists. exists x. split; [exact Hin|apply String.eqb_refl].
Qed.

(** The values of a dictionary literal are values of its items. *)
Lemma dict_set_values (d : list (string * string)) (key value : string) (kv : string * string) :
  In kv (dict_set d key value) ->
  snd kv = value \/ In kv d.
Proof.
  induction d as [|[k v] d IH]; cbn [dict_set].
  - intros [<- | []]. left. reflexivity.
  - destruct (String.eqb k key).
    + intros [<- | H]; [left; reflexivity|right; right; exact H].
    + intros [<- | H]; [right; left; reflexivity|].
      destruct (IH H) as [E | E]; [left; exact E|right; right; exact E].
Qed.

Lemma dict_literal_values (items : list (string * string)) (kv : string * string) :
  In kv (dict_literal items) -> exists k, In (k, snd kv) items.
Proof.
  unfold dict_literal.
  assert (G : forall d, In kv (fold_left (fun d kv => dict_set d (fst kv) (snd kv)) items d) ->
              (exists k, In (k, snd kv) items) \/ In kv d).
  { induction items as [|[k v] items IH]; intros d H; [right; exact H|].
    cbn [fold_left] in H. destruct (IH _ H) as [(k' & Hk) | Hd].
    - left. exists k'. right. exact Hk.
    - destruct (dict_set_values _ _ _ _ Hd) as [E | E]; [|right; exact E].
      left. exists k. left. cbn [fst snd] in E. rewrite E. reflexivity. }
  intros H. destruct (G [] H) as [E | []]. exact E.
Qed.

Lemma generate_vscode_theme_total (theme_name : string) (c : colors) :
  is_Some (generate_vscode_theme theme_name c).
Proof.
  unfold generate_vscode_theme.
  destruct (generate_ui_colors_total c
              (is_light_theme (dict_get (c_primary c) "background" "#1e1e2e")))
    as [ui ->].
  cbn [mbind option_bind]. eauto.
Qed.

(** X12: whatever the theme name and the palette dictionary, even an empty or
    invalid one, [generate_vscode_theme] returns a document: 310 distinct
    keys, always the same ones in the same order, and ten token rules with
    the same scopes. *)
Theorem theme_document_keys (name1 name2 : string) (c1 c2 : colors) :
  exists t1 t2,
    generate_vscode_theme name1 c1 = Some t1
    /\ generate_vscode_theme name2 c2 = Some t2
    /\ colorTheme t1 = name1
    /\ map fst (colorCustomizations t1) = map fst (colorCustomizations t2)
    /\ length (colorCustomizations t1) = 310%nat
    /\ List.NoDup (map fst (colorCustomizations t1))
    /\ map scope (textMateRules t1) = map scope (textMateRules t2)
    /\ length (textMateRules t1) = 10%nat.
Proof.
  destruct (generate_vscode_theme_total name1 c1) as [t1 H1].
  destruct (generate_vscode_theme_total name2 c2) as [t2 H2].
  exists t1, t2. split; [exact H1|]. split; [exact H2|].
  unfold generate_vscode_theme in H1, H2.
  destruct (generate_ui_colors c1 _) as [ui1|]; [|discriminate H1].
  destruct (generate_ui_colors c2 _) as [ui2|]; [|discriminate H2].
  cbn [mbind option_bind] in H1, H2.
  injection H1 as <-. injection H2 as <-. cbn [colorTheme colorCustomizations textMateRules].
  split; [reflexivity|].
  split; [vm_compute; reflexivity|].
  split; [rewrite <- (length_map fst); vm_compute; reflexivity|].
  split; [apply distinct_NoDup; vm_compute; reflexivity|].
  split; reflexivity.
Qed.

(** The palette keys of the document of any palette. *)
Lemma document_palette_lookup (theme_name : string) (c : colors) :
  exists t,
    generate_vscode_theme theme_name c = Some t
    /\ let bg := dict_get (c_primary c) "background" "#1e1e2e" in
       let fg := dict_get (c_primary c) "foreground" "#cdd6f4" in
       let cursor := dict_get (c_primary c) "cursor" fg in
       let normal := default ∅ (c_normal c) in
       let bright := default ∅ (c_bright c) in
       map (dict_lookup (colorCustomizations t))
         ["editor.background"; "editor.foreground"; "editorCursor.foreground";
          "terminal.background"; "terminal.foreground";
          "terminalCursor.background"; "terminalCursor.foreground"]
       = map Some [bg; fg; cursor; bg; fg; cursor; bg]
       /\ map (dict_lookup (colorCustomizations t)) ansi_keys
          = map Some
              [dict_get normal "black" "#000000"; dict_get normal "red" "#ff5555";
               dict_get normal "green" "#50fa7b"; dict_get normal "yellow" "#f1fa8c";
               dict_get normal "blue" "#bd93f9"; dict_get normal "magenta" "#ff79c6";
               dict_get normal "cyan" "#8be9fd"; dict_get normal "white" "#f8f8f2";
               dict_get bright "black" "#6272a4"; dict_get bright "red" "#ff6e6e";
               dict_get bright "green" "#69ff94"; dict_get bright "yellow" "#ffffa5";
               dict_get bright "blue" "#d6acff"; dict_get bright "magenta" "#ff92df";
               dict_get bright "cyan" "#a4ffff"; dict_get bright "white" "#ffffff"].
Proof.
  destruct (generate_vscode_theme_total theme_name c) as [t H].
  exists t. split; [exact H|].
  unfold generate_vscode_theme in H.
  destruct (generate_ui_colors c _) as [ui|]; [|discriminate H].
  cbn [mbind option_bind] in H. injection H as <-.
  cbn [colorCustomizations]. cbv zeta.
  generalize (dict_get (c_primary c) "background" "#1e1e2e") as bg.
  generalize (dict_get (c_primary c) "foreground" "#cdd6f4") as fg.
  intros fg bg.
  generalize (dict_get (c_primary c) "cursor" fg) as cursor.
  generalize (default ∅ (c_normal c)) as normal.
  generalize (default ∅ (c_bright c)) as bright.
  intros bright normal cursor.
  split; vm_compute; reflexivity.
Qed.

Lemma dict_get_canonical (d : gmap string string) (key dflt : string) :
  canonical_dict d -> is_canonical dflt = true ->
  is_canonical (dict_get d key dflt) = true.
Proof.
  intros Hd Hdflt. unfold dict_get.
  destruct (d !! key) as [v|] eqn:E; [exact (Hd key v E)|exact Hdflt].
Qed.

Lemma canonical_dict_empty : canonical_dict ∅.
Proof. intros k v H. rewrite lookup_empty in H. discriminate H. Qed.

Lemma canonical_dict_checked (d : gmap string string) :
  forallb (fun kv => is_canonical (snd kv)) (map_to_list d) = true ->
  canonical_dict d.
Proof.
  intros H k v E. rewrite forallb_forall in H.
  apply elem_of_map_to_list, list_elem_of_In in E. exact (H _ E).
Qed.

Lemma generate_ui_colors_canonical_default (c : colors) (is_light : bool) :
  is_canonical (dict_get (c_primary c) "background" "#1e1e2e") = true ->
  exists ui,
    generate_ui_colors c is_light = Some ui
    /\ is_canonical (ui_side_bg ui) = true
    /\ is_canonical (ui_panel_bg ui) = true
    /\ is_canonical (ui_tab_bg ui) = true
    /\ is_canonical (ui_input_bg ui) = true
    /\ is_canonical (ui_list_bg ui) = true
    /\ is_canonical (ui_hover_bg ui) = true
    /\ is_canonical (ui_border_color ui) = true.
Proof.
  intros Hc. unfold generate_ui_colors. cbv beta zeta.
  set (bg := dict_get (c_primary c) "background" "#1e1e2e") in *.
  destruct (adjust_canonical bg is_light side_bg Hc) as (c1 & -> & H1).
  destruct (adjust_canonical bg is_light panel_bg Hc) as (c2 & -> & H2).
  destruct (adjust_canonical bg is_light tab_bg Hc) as (c3 & -> & H3).
  destruct (adjust_canonical bg is_light input_bg Hc) as (c4 & -> & H4).
  destruct (adjust_canonical bg is_light list_bg Hc) as (c5 & -> & H5).
  destruct (adjust_canonical bg is_light hover_bg Hc) as (c6 & -> & H6).
  destruct (adjust_canonical bg is_light border_color Hc) as (c7 & -> & H7).
  cbn [mbind option_bind]. eexists. split; [reflexivity|].
  cbn [ui_side_bg ui_panel_bg ui_tab_bg ui_input_bg ui_list_bg ui_hover_bg
         ui_border_color].
  auto 10.
Qed.

Lemma color_customization_items_values (bg fg cursor : string)
    (normal bright : gmap string string) (ui : ui_colors) :
  is_canonical bg = true -> is_canonical fg = true -> is_canonical cursor = true ->
  canonical_dict normal -> canonical_dict bright ->
  is_canonical (ui_side_bg ui) = true ->
  is_canonical (ui_panel_bg ui) = true ->
  is_canonical (ui_tab_bg ui) = true ->
  is_canonical (ui_input_bg ui) = true ->
  is_canonical (ui_list_bg ui) = true ->
  is_canonical (ui_hover_bg ui) = true ->
  is_canonical (ui_border_color ui) = true ->
  List.Forall (fun kv => document_value (snd kv))
    (color_customization_items bg fg cursor normal bright ui).
Proof.
  intros Hbg Hfg Hcur Hn Hb H1 H2 H3 H4 H5 H6 H7.
  unfold color_customization_items.
  repeat (apply List.Forall_cons;
          [cbn [snd];
           first [ left; assumption
                 | left; apply (dict_get_canonical normal); [exact Hn|reflexivity]
                 | left; apply (dict_get_canonical bright); [exact Hb|reflexivity]
                 | right; left; reflexivity
                 | right; right; reflexivity ]
          | ]).
  apply List.Forall_nil.
Qed.

(** The values of the document of a canonical palette. *)
Lemma document_values_canonical (theme_name : string) (c : colors) :
  canonical_dict (c_primary c) ->
  canonical_dict (default ∅ (c_normal c)) ->
  canonical_dict (default ∅ (c_bright c)) ->
  exists t,
    generate_vscode_theme theme_name c = Some t
    /\ (forall k v, In (k, v) (colorCustomizations t) -> document_value v)
    /\ (forall r, In r (textMateRules t) -> is_canonical (foreground r) = true).
Proof.
  intros Hp Hn Hb.
  assert (Hbg : is_canonical (dict_get (c_primary c) "background" "#1e1e2e") = true)
    by (apply dict_get_canonical; [exact Hp|reflexivity]).
  assert (Hfg : is_canonical (dict_get (c_primary c) "foreground" "#cdd6f4") = true)
    by (apply dict_get_canonical; [exact Hp|reflexivity]).
  assert (Hcur : is_canonical
                   (dict_get (c_primary c) "cursor"
                      (dict_get (c_primary c) "foreground" "#cdd6f4")) = true)
    by (apply dict_get_canonical; [exact Hp|exact Hfg]).
  unfold generate_vscode_theme.
  destruct (generate_ui_colors_canonical_default c
              (is_light_theme (dict_get (c_primary c) "background" "#1e1e2e")) Hbg)
    as (ui & -> & H1 & H2 & H3 & H4 & H5 & H6 & H7).
  cbn [mbind option_bind]. eexists. split; [reflexivity|].
  cbn [colorCustomizations textMateRules]. split.
  - intros k v Hin.
    destruct (dict_literal_values _ _ Hin) as (k' & Hk). cbn [snd] in Hk.
    pose proof (color_customization_items_values _ _ _ _ _ ui Hbg Hfg Hcur Hn Hb
                  H1 H2 H3 H4 H5 H6 H7) as Hall.
    rewrite List.Forall_forall in Hall. exact (Hall _ Hk).
  - intros r Hr. unfold text_mate_rules in Hr.
    repeat (destruct Hr as [<- | Hr];
            [cbn [foreground];
             first [ exact Hfg
                   | apply (dict_get_canonical _ _ _ Hn); reflexivity ] | ]).
    destruct Hr.
Qed.

(** X13: in the document of any palette, the editor and terminal keys carry
    the palette's background, foreground and cursor, and the sixteen
    terminal ANSI keys carry the sixteen slots, each with the default the
    source gives for a missing slot. *)
Theorem theme_document_palette_keys (theme_name : string) (c : colors) :
  exists t,
    generate_vscode_theme theme_name c = Some t
    /\ let bg := dict_get (c_primary c) "background" "#1e1e2e" in
       let fg := dict_get (c_primary c) "foreground" "#cdd6f4" in
       let cursor := dict_get (c_primary c) "cursor" fg in
       let normal := default ∅ (c_normal c) in
       let bright := default ∅ (c_bright c) in
       map (dict_lookup (colorCustomizations t))
         ["editor.background"; "editor.foreground"; "editorCursor.foreground";
          "terminal.background"; "terminal.foreground";
          "terminalCursor.background"; "terminalCursor.foreground"]
       = map Some [bg; fg; cursor; bg; fg; cursor; bg]
       /\ map (dict_lookup (colorCustomizations t)) ansi_keys
          = map Some
              [dict_get normal "black" "#000000"; dict_get normal "red" "#ff5555";
               dict_get normal "green" "#50fa7b"; dict_get normal "yellow" "#f1fa8c";
               dict_get normal "blue" "#bd93f9"; dict_get normal "magenta" "#ff79c6";
               dict_get normal "cyan" "#8be9fd"; dict_get normal "white" "#f8f8f2";
               dict_get bright "black" "#6272a4"; dict_get bright "red" "#ff6e6e";
               dict_get bright "green" "#69ff94"; dict_get bright "yellow" "#ffffa5";
               dict_get bright "blue" "#d6acff"; dict_get bright "magenta" "#ff92df";
               dict_get bright "cyan" "#a4ffff"; dict_get bright "white" "#ffffff"].
Proof. exact (document_palette_lookup theme_name c). Qed.

(** X14: when every colour the palette dictionary holds is canonical, every
    value of the document is a canonical colour or one of the two literals
    of the table, and every token rule has a canonical foreground; missing
    entries do not matter, the defaults are canonical. *)
Theorem theme_document_values (theme_name : string) (c : colors) :
  canonical_dict (c_primary c) ->
  canonical_dict (default ∅ (c_normal c)) ->
  canonical_dict (default ∅ (c_bright c)) ->
  exists t,
    generate_vscode_theme theme_name c = Some t
    /\ (forall k v, In (k, v) (colorCustomizations t) -> document_value v)
    /\ (forall r, In r (textMateRules t) -> is_canonical (foreground r) = true).
Proof. exact (document_values_canonical theme_name c). Qed.

Lemma theme_document_values_witness :
  exists t,
    generate_vscode_theme "sample" sample_palette = Some t
    /\ (forall k v, In (k, v) (colorCustomizations t) -> document_value v)
    /\ (forall r, In r (textMateRules t) -> is_canonical (foreground r) = true).
Proof.
  apply (theme_document_values "sample" sample_palette);
    apply canonical_dict_checked; vm_compute; reflexivity.
Defined.

(** *** Validation of any palette *)

Lemma fix_slot_spec (section : string) (raw fallback fixed : gmap string string)
    (issues : list issue) (color_name fb : string) :
  fallback !! color_name = Some fb ->
  exists extra,
    fix_slot section raw fallback (Some (fixed, issues)) color_name
    = Some (<[color_name := resolved raw color_name fb]> fixed, (issues ++ extra)%list)
    /\ length extra = (if field_ok raw color_name then 0 else 1)%nat.
Proof.
  intros Hfb. unfold fix_slot, resolved, field_ok, is_valid_hex_color.
  cbn [mbind option_bind]. rewrite Hfb. cbn [mbind option_bind].
  destruct (raw !! color_name) as [value|]; cbn [mbind option_bind default].
  - destruct (normalize_hex_color value) as [n|]; cbn [default].
    + exists []. rewrite app_nil_r. split; reflexivity.
    + eexists [_]. split; reflexivity.
  - eexists [_]. split; reflexivity.
Qed.

Lemma fold_fix_slot_none (section : string) (raw fallback : gmap string string)
    (names : list string) :
  fold_left (fix_slot section raw fallback) names None = None.
Proof. induction names as [|n names IH]; [reflexivity|exact IH]. Qed.

(** A slot loop: every name of the loop resolves, the other keys are left
    alone, and one issue is added for each missing or invalid slot. *)
Lemma slot_loop_spec (section : string) (raw fallback : gmap string string)
    (names : list string) :
  List.Forall (fun n => is_Some (fallback !! n)) names ->
  forall fixed issues,
  exists fixed' extra,
    fold_left (fix_slot section raw fallback) names (Some (fixed, issues))
    = Some (fixed', (issues ++ extra)%list)
    /\ length extra = bad_fields raw names
    /\ (forall k, In k names ->
          exists fb, fallback !! k = Some fb /\ fixed' !! k = Some (resolved raw k fb))
    /\ (forall k, ~ In k names -> fixed' !! k = fixed !! k).
Proof.
  induction 1 as [|name names [fb Hfb] _ IH]; intros fixed issues.
  - exists fixed, []. rewrite app_nil_r. repeat split; try reflexivity.
    intros k [].
  - destruct (fix_slot_spec section raw fallback fixed issues name fb Hfb)
      as (e1 & H1 & L1).
    destruct (IH (<[name := resolved raw name fb]> fixed) (issues ++ e1)%list)
      as (fixed' & e2 & H2 & L2 & Hin & Hout).
    exists fixed', (e1 ++ e2)%list. cbn [fold_left]. rewrite H1, H2.
    rewrite app_assoc. split; [reflexivity|]. split.
    { rewrite length_app, L1, L2. unfold bad_fields. cbn [map list_sum]. reflexivity. }
    split.
    + intros k [<- | Hk]; [|exact (Hin k Hk)].
      destruct (In_dec string_dec name names) as [Hn | Hn]; [exact (Hin name Hn)|].
      exists fb. split; [exact Hfb|]. rewrite (Hout name Hn). apply lookup_insert_eq.
    + intros k Hk. rewrite (Hout k (fun H => Hk (or_intror H))).
      apply lookup_insert_ne. intros <-. apply Hk. left. reflexivity.
Qed.

Lemma field_ok_spec (raw : gmap string string) (key : string) :
  field_ok raw key = match raw !! key ≫= normalize_hex_color with
                     | Some _ => true | None => false end.
Proof.
  unfold field_ok, is_valid_hex_color.
  destruct (raw !! key) as [value|]; cbn [mbind option_bind]; [|reflexivity].
  destruct (normalize_hex_color value); reflexivity.
Qed.

(** The first loop: the three primary keys resolve, in order, and one
    issue is recorded for each missing or invalid one. *)
Lemma primary_loop_spec (raw : gmap string string) :
  let bg := resolved raw "background" "#282a36" in
  let fg := resolved raw "foreground" "#f8f8f2" in
  exists issues,
    fold_left (fix_primary raw) primary_keys (Some (∅, []))
    = Some (<["cursor" := resolved_cursor raw fg]>
              (<["foreground" := fg]> (<["background" := bg]> ∅)), issues)
    /\ length issues = bad_fields raw primary_keys
    /\ (forall value, raw !! "cursor" = Some value ->
          normalize_hex_color value = None ->
          In (invalid_cursor_issue value) issues).
Proof.
  intros bg fg. subst bg fg.
  unfold primary_keys, bad_fields, resolved, resolved_cursor.
  cbn [fold_left map list_sum]. rewrite !field_ok_spec.
  unfold fix_primary at 3. cbn [mbind option_bind].
  rewrite fallback_background. cbn [mbind option_bind].
  change (String.eqb "background" "cursor") with false. cbv iota.
  change (dict_get fallback_primary "background" "#282a36") with "#282a36".
  destruct (raw !! "background") as [b|]; cbn [mbind option_bind default];
    [destruct (normalize_hex_color b) as [nb|]|]; cbn [default];
  (unfold fix_primary at 2; cbn [mbind option_bind];
   rewrite fallback_background; cbn [mbind option_bind];
   change (String.eqb "foreground" "cursor") with false; cbv iota;
   change (dict_get fallback_primary "foreground" "#282a36") with "#f8f8f2";
   destruct (raw !! "foreground") as [f|]; cbn [mbind option_bind default];
    [destruct (normalize_hex_color f) as [nf|]|]; cbn [default];
   (unfold fix_primary; cbn [mbind option_bind];
    rewrite fallback_background; cbn [mbind option_bind];
    change (String.eqb "cursor" "cursor") with true; cbv iota;
    change (dict_get fallback_primary "cursor" "#282a36") with "#282a36";
    rewrite (lookup_insert_eq _ "foreground");
    destruct (raw !! "cursor") as [c|]; cbn [mbind option_bind default];
     [destruct (normalize_hex_color c) as [nc|] eqn:En|]; cbn [default];
    (eexists; split; [reflexivity|]; split; [reflexivity|];
     intros value Hv Hn; try discriminate Hv; injection Hv as <-;
     try congruence; unfold append; apply in_or_app; right; left; reflexivity))).
Qed.

Lemma fallback_normal_defined :
  List.Forall (fun n => is_Some (fallback_normal !! n)) color_names.
Proof. repeat constructor; eexists; reflexivity. Qed.

Lemma fallback_bright_defined :
  List.Forall (fun n => is_Some (fallback_bright !! n)) color_names.
Proof. repeat constructor; eexists; reflexivity. Qed.

(** The three loops: the dictionaries they build and the number of issues
    they record. *)
Lemma resolve_slots_spec (raw : colors) :
  exists fixed_normal fixed_bright issues,
    resolve_slots raw
    = Some (Colors (resolved_primary (c_primary raw))
              (Some fixed_normal) (Some fixed_bright), issues)
    /\ length issues = problems raw
    /\ section_resolved (default ∅ (c_normal raw)) fallback_normal fixed_normal
    /\ section_resolved (default ∅ (c_bright raw)) fallback_bright fixed_bright
    /\ (forall value, c_primary raw !! "cursor" = Some value ->
          normalize_hex_color value = None ->
          In (invalid_cursor_issue value) issues).
Proof.
  destruct (primary_loop_spec (c_primary raw)) as (ip & Hp & Lp & Hcur).
  destruct (slot_loop_spec "normal" (default ∅ (c_normal raw)) fallback_normal
              color_names fallback_normal_defined ∅ ip)
    as (fn & en & Hn & Ln & Inn & Outn).
  destruct (slot_loop_spec "bright" (default ∅ (c_bright raw)) fallback_bright
              color_names fallback_bright_defined ∅ (ip ++ en)%list)
    as (fb & eb & Hb & Lb & Inb & Outb).
  exists fn, fb, ((ip ++ en) ++ eb)%list.
  unfold resolve_slots. rewrite Hp. cbn [mbind option_bind].
  rewrite Hn. cbn [mbind option_bind]. rewrite Hb. cbn [mbind option_bind].
  split; [reflexivity|]. split.
  { rewrite !length_app, Lp, Ln, Lb. reflexivity. }
  split; [split; [assumption|]|split; [split; [assumption|]|]].
  - intros k Hk. rewrite (Outn k Hk). apply lookup_empty.
  - intros k Hk. rewrite (Outb k Hk). apply lookup_empty.
  - intros value Hv Hnone. apply in_or_app. left. apply in_or_app. left.
    exact (Hcur value Hv Hnone).
Qed.

Lemma resolved_primary_background (raw : gmap string string) :
  resolved_primary raw !! "background" = Some (resolved raw "background" "#282a36").
Proof.
  unfold resolved_primary. cbv zeta.
  rewrite !lookup_insert_ne by discriminate. apply lookup_insert_eq.
Qed.

Lemma resolved_primary_foreground (raw : gmap string string) :
  resolved_primary raw !! "foreground" = Some (resolved raw "foreground" "#f8f8f2").
Proof.
  unfold resolved_primary. cbv zeta.
  rewrite lookup_insert_ne by discriminate. apply lookup_insert_eq.
Qed.

Lemma resolved_primary_cursor (raw : gmap string string) :
  resolved_primary raw !! "cursor"
  = Some (resolved_cursor raw (resolved raw "foreground" "#f8f8f2")).
Proof. unfold resolved_primary. cbv zeta. apply lookup_insert_eq. Qed.

Lemma resolved_primary_other (raw : gmap string string) (key : string) :
  ~ In key primary_keys -> resolved_primary raw !! key = None.
Proof.
  intros Hk. unfold resolved_primary. cbv zeta.
  rewrite !lookup_insert_ne; [apply lookup_empty| | |];
    intros <-; apply Hk; cbn; tauto.
Qed.

Lemma acceptable_readable (c : R) :
  (c < MIN_ACCEPTABLE_CONTRAST -> c < MIN_READABLE_CONTRAST)%R.
Proof. unfold MIN_ACCEPTABLE_CONTRAST, MIN_READABLE_CONTRAST. lra. Qed.

(** The whole of [validate_and_fix_colors]. *)
Lemma validate_spec (raw : colors) :
  let c := resolved_contrast (c_primary raw) in
  exists fixed_normal fixed_bright issues,
    validate_and_fix_colors raw
    = Some (Colors
              (if contrast_fallback c
               then <["foreground" := "#f8f8f2"]>
                      (<["background" := "#282a36"]> (resolved_primary (c_primary raw)))
               else resolved_primary (c_primary raw))
              (Some fixed_normal) (Some fixed_bright),
            (issues ++ contrast_issues c)%list)
    /\ length issues = problems raw
    /\ section_resolved (default ∅ (c_normal raw)) fallback_normal fixed_normal
    /\ section_resolved (default ∅ (c_bright raw)) fallback_bright fixed_bright
    /\ (forall value, c_primary raw !! "cursor" = Some value ->
          normalize_hex_color value = None ->
          In (invalid_cursor_issue value) issues).
Proof.
  intros c.
  destruct (resolve_slots_spec raw)
    as (fn & fb & issues & Hr & Hlen & Hn & Hb & Hcur).
  exists fn, fb, issues. split; [|auto].
  unfold validate_and_fix_colors. rewrite Hr. cbn [mbind option_bind].
  unfold check_contrast. cbn [c_primary c_normal c_bright].
  rewrite resolved_primary_background, resolved_primary_foreground.
  cbn [mbind option_bind]. rewrite fallback_background, fallback_foreground.
  cbn [mbind option_bind]. fold (resolved_contrast (c_primary raw)). fold c.
  unfold contrast_issues, contrast_fallback, append.
  destruct (Rlt_dec c MIN_ACCEPTABLE_CONTRAST) as [Hlow | Hlow].
  - destruct (Rlt_dec c MIN_READABLE_CONTRAST) as [_ | Hn'];
      [|destruct (Hn' (acceptable_readable c Hlow))].
    rewrite <- app_assoc. reflexivity.
  - destruct (Rlt_dec c MIN_READABLE_CONTRAST); [reflexivity|].
    rewrite app_nil_r. reflexivity.
Qed.

(** *** A missing cursor *)

(** C8: when the raw palette has no [cursor], the cursor of the result is
    the foreground the loop has resolved before, that is, the normalised
    foreground of the raw palette, or [#f8f8f2] when the raw palette has no
    valid foreground; it stays so when the contrast check replaces the
    foreground afterwards. The issue of the derivation from the foreground
    is recorded, and the issue of the plain fallback for the cursor is not:
    that branch is never taken. *)
Theorem missing_cursor_derived (raw : colors) :
  c_primary raw !! "cursor" = None ->
  let fg :=
    match c_primary raw !! "foreground" with
    | Some value => default "#f8f8f2" (normalize_hex_color value)
    | None => "#f8f8f2"
    end in
  exists fixed issues fixed' issues',
    resolve_slots raw = Some (fixed, issues)
    /\ c_primary fixed !! "foreground" = Some fg
    /\ c_primary fixed !! "cursor" = Some fg
    /\ validate_and_fix_colors raw = Some (fixed', issues')
    /\ c_primary fixed' !! "cursor" = Some fg
    /\ In cursor_derived_issue issues'
    /\ ~ In cursor_fallback_issue issues'.
Proof.
  intros Hraw fg.
  assert (Hres : fg = resolved (c_primary raw) "foreground" "#f8f8f2").
  { subst fg. unfold resolved.
    destruct (c_primary raw !! "foreground"); reflexivity. }
  clearbody fg. subst fg.
  destruct (primary_loop_before_cursor (c_primary raw))
    as (bg & fg & ip & Hbefore & Fp).
  pose proof (fix_primary_cursor_missing (c_primary raw)
                (<["foreground" := fg]> (<["background" := bg]> ∅)) ip fg Hraw
                (lookup_insert_eq _ "foreground" fg)) as Hcur.
  destruct (resolve_slots_total raw) as (fp & ip' & fn & fb & extra & Hp & Hr & Fe).
  destruct (primary_loop_spec (c_primary raw)) as (ips & Hspec & _).
  cbv zeta in Hspec. rewrite Hp in Hspec.
  pose proof (f_equal (fun o => o ≫= (fun st => fst st !! "foreground")) Hspec)
    as Hlook.
  cbn [mbind option_bind fst] in Hlook.
  rewrite (lookup_insert_ne _ "cursor" "foreground") in Hlook by discriminate.
  rewrite lookup_insert_eq in Hlook. clear Hspec.
  change primary_keys with (["background"; "foreground"] ++ ["cursor"])%list in Hp.
  rewrite fold_left_app, Hbefore in Hp. cbn [fold_left] in Hp.
  rewrite Hcur in Hp. injection Hp as <- <-.
  set (p := <["cursor" := fg]> (<["foreground" := fg]>
               (<["background" := bg]> (∅ : gmap string string)))) in *.
  assert (Hbg : p !! "background" = Some bg)
    by (unfold p; rewrite !lookup_insert_ne by discriminate; apply lookup_insert_eq).
  assert (Hfg : p !! "foreground" = Some fg)
    by (unfold p; rewrite lookup_insert_ne by discriminate; apply lookup_insert_eq).
  assert (Hfg' : fg = resolved (c_primary raw) "foreground" "#f8f8f2").
  { rewrite Hfg in Hlook. injection Hlook as ->. reflexivity. }
  destruct (check_contrast_total (Colors p (Some fn) (Some fb))
              (append ip cursor_derived_issue ++ extra)%list bg fg Hbg Hfg)
    as (p' & cextra & Hc & Hcursor & Fc).
  rewrite <- Hfg'.
  eexists _, _, _, _.
  split; [exact Hr|]. split; [exact Hfg|].
  split; [apply lookup_insert_eq|].
  split; [unfold validate_and_fix_colors; rewrite Hr; exact Hc|].
  cbn [c_primary] in *. split; [rewrite Hcursor; apply lookup_insert_eq|].
  split.
  - unfold append. rewrite !in_app_iff. left. left. right. left. reflexivity.
  - unfold append. rewrite !in_app_iff. intros [[[Hin | Hin] | Hin] | Hin].
    + rewrite List.Forall_forall in Fp. exact (Fp _ Hin eq_refl).
    + destruct Hin as [Hin | []]. discriminate Hin.
    + rewrite List.Forall_forall in Fe. destruct (Fe _ Hin) as [Hs | Hs].
      * exact (slot_issue_not_cursor_fallback "normal" _ (or_introl eq_refl) Hs eq_refl).
      * exact (slot_issue_not_cursor_fallback "bright" _ (or_intror eq_refl) Hs eq_refl).
    + rewrite List.Forall_forall in Fc.
      exact (contrast_issue_not_cursor_fallback _ (Fc _ Hin) eq_refl).
Qed.

Lemma missing_cursor_derived_witness :
  c_primary no_cursor_raw !! "cursor" = None
  /\ c_primary no_cursor_raw !! "foreground" = Some "#cdd6f4"
  /\ exists fixed issues fixed' issues',
       resolve_slots no_cursor_raw = Some (fixed, issues)
       /\ c_primary fixed !! "foreground" = Some "#cdd6f4"
       /\ c_primary fixed !! "cursor" = Some "#cdd6f4"
       /\ validate_and_fix_colors no_cursor_raw = Some (fixed', issues')
       /\ c_primary fixed' !! "cursor" = Some "#cdd6f4"
       /\ In cursor_derived_issue issues'
       /\ ~ In cursor_fallback_issue issues'.
Proof.
  split; [reflexivity|]. split; [reflexivity|].
  apply (missing_cursor_derived no_cursor_raw). reflexivity.
Defined.

Lemma resolved_shape (raw : gmap string string) (key dflt : string) :
  is_hash7 dflt = true -> is_hash7 (resolved raw key dflt) = true.
Proof.
  intros Hd. unfold resolved.
  destruct (raw !! key) as [value|]; cbn [mbind option_bind default]; [|exact Hd].
  destruct (normalize_hex_color value) as [n|] eqn:E; cbn [default from_option id]; [|exact Hd].
  destruct (normalize_shape value n E) as (rest & -> & Hlen & _).
  change (Nat.eqb (String.length rest) 6 = true). rewrite Hlen. reflexivity.
Qed.

Lemma section_shape (raw fallback fixed : gmap string string) :
  (forall name fb, In name color_names -> fallback !! name = Some fb ->
                   is_hash7 fb = true) ->
  section_resolved raw fallback fixed ->
  forall name value, fixed !! name = Some value -> is_hash7 value = true.
Proof.
  intros Hfb [Hin Hout] name value Hv.
  destruct (In_dec string_dec name color_names) as [Hn | Hn].
  - destruct (Hin name Hn) as (fb & Hf & Hr). rewrite Hr in Hv.
    injection Hv as <-. apply resolved_shape. exact (Hfb name fb Hn Hf).
  - rewrite (Hout name Hn) in Hv. discriminate.
Qed.

Lemma fallback_normal_shape (name fb : string) :
  In name color_names -> fallback_normal !! name = Some fb -> is_hash7 fb = true.
Proof.
  intros Hn. repeat (destruct Hn as [<- | Hn]; [intros [= <-]; reflexivity|]).
  destruct Hn.
Qed.

Lemma fallback_bright_shape (name fb : string) :
  In name color_names -> fallback_bright !! name = Some fb -> is_hash7 fb = true.
Proof.
  intros Hn. repeat (destruct Hn as [<- | Hn]; [intros [= <-]; reflexivity|]).
  destruct Hn.
Qed.

Lemma resolved_cursor_shape (raw : gmap string string) (fg : string) :
  is_hash7 fg = true -> is_hash7 (resolved_cursor raw fg) = true.
Proof.
  intros Hfg. unfold resolved_cursor.
  destruct (raw !! "cursor") as [value|]; [|exact Hfg].
  destruct (normalize_hex_color value) as [n|] eqn:E; cbn [default from_option id]; [|reflexivity].
  destruct (normalize_shape value n E) as (rest & -> & Hlen & _).
  change (Nat.eqb (String.length rest) 6 = true). rewrite Hlen. reflexivity.
Qed.

Lemma resolved_primary_shape (raw : gmap string string) (key value : string) :
  resolved_primary raw !! key = Some value -> is_hash7 value = true.
Proof.
  unfold resolved_primary. cbv zeta. intros H.
  apply lookup_insert_Some in H as [[_ <-] | [_ H]].
  { apply resolved_cursor_shape, resolved_shape. reflexivity. }
  apply lookup_insert_Some in H as [[_ <-] | [_ H]].
  { apply resolved_shape. reflexivity. }
  apply lookup_insert_Some in H as [[_ <-] | [_ H]].
  { apply resolved_shape. reflexivity. }
  rewrite lookup_empty in H. discriminate.
Qed.

(** X15: [validate_and_fix_colors] returns for every raw palette, and the
    number of issues it records is the number of missing or invalid fields
    among the nineteen it reads, plus one when the contrast of the resolved
    background and foreground is below 3, plus one more when it is below
    2. *)
Theorem validate_issue_count (raw : colors) :
  let c := resolved_contrast (c_primary raw) in
  exists fixed issues,
    validate_and_fix_colors raw = Some (fixed, issues)
    /\ length issues
       = (problems raw
          + (if Rlt_dec c MIN_ACCEPTABLE_CONTRAST then 2
             else if Rlt_dec c MIN_READABLE_CONTRAST then 1 else 0))%nat.
Proof.
  intros c. destruct (validate_spec raw) as (fn & fb & issues & Hv & Hlen & _).
  fold c in Hv. eexists _, _. split; [exact Hv|].
  rewrite length_app, Hlen. f_equal. unfold contrast_issues.
  destruct (Rlt_dec c MIN_ACCEPTABLE_CONTRAST) as [Hlow | Hlow].
  - destruct (Rlt_dec c MIN_READABLE_CONTRAST) as [_ | Hn'];
      [reflexivity|destruct (Hn' (acceptable_readable c Hlow))].
  - destruct (Rlt_dec c MIN_READABLE_CONTRAST); reflexivity.
Qed.

(** X16: validation records no issue exactly when none of the nineteen
    fields is missing or invalid and the contrast of background and
    foreground is at least 3. *)
Theorem validate_no_issue (raw : colors) :
  exists fixed issues,
    validate_and_fix_colors raw = Some (fixed, issues)
    /\ (issues = [] <->
        problems raw = 0%nat
        /\ ~ (resolved_contrast (c_primary raw) < MIN_READABLE_CONTRAST)%R).
Proof.
  destruct (validate_spec raw) as (fn & fb & issues & Hv & Hlen & _).
  cbv zeta in Hv. eexists _, _. split; [exact Hv|].
  rewrite <- Hlen. unfold contrast_issues.
  destruct (Rlt_dec _ MIN_READABLE_CONTRAST) as [Hlt | Hge].
  - split.
    + intros H. apply app_eq_nil in H as [_ H]. discriminate.
    + intros [_ H]. contradiction.
  - rewrite app_nil_r. split.
    + intros ->. split; [reflexivity|exact Hge].
    + intros [H _]. destruct issues; [reflexivity|discriminate].
Qed.

(** X17: in the result of validation the [normal] and [bright] dictionaries
    hold exactly the eight colour names; each holds the normalised raw
    colour when the raw palette has a valid one, and the fallback of that
    name otherwise. The contrast check never changes them, and any other
    key of the raw sections is dropped. *)
Theorem validate_sections (raw : colors) :
  exists fixed_primary fixed_normal fixed_bright issues,
    validate_and_fix_colors raw
    = Some (Colors fixed_primary (Some fixed_normal) (Some fixed_bright), issues)
    /\ section_resolved (default ∅ (c_normal raw)) fallback_normal fixed_normal
    /\ section_resolved (default ∅ (c_bright raw)) fallback_bright fixed_bright.
Proof.
  destruct (validate_spec raw) as (fn & fb & issues & Hv & _ & Hn & Hb & _).
  eexists _, fn, fb, _. split; [exact Hv|]. split; assumption.
Qed.

(** X18: the primary dictionary of the result has exactly the keys
    [background], [foreground] and [cursor]. Background and foreground are
    the normalised raw colours (or their fallbacks) unless the contrast of
    these two is below 2, in which case both are the fallbacks. The cursor
    is settled before the contrast check: a missing cursor keeps the
    foreground resolved by the loop even when the check replaces the
    foreground afterwards. *)
Theorem validate_primary (raw : colors) :
  let p := c_primary raw in
  let bg := resolved p "background" "#282a36" in
  let fg := resolved p "foreground" "#f8f8f2" in
  let low := Rlt_dec (calculate_contrast_ratio bg fg) MIN_ACCEPTABLE_CONTRAST in
  exists fixed issues,
    validate_and_fix_colors raw = Some (fixed, issues)
    /\ c_primary fixed !! "background" = Some (if low then "#282a36" else bg)
    /\ c_primary fixed !! "foreground" = Some (if low then "#f8f8f2" else fg)
    /\ c_primary fixed !! "cursor" = Some (resolved_cursor p fg)
    /\ (forall key, ~ In key primary_keys -> c_primary fixed !! key = None).
Proof.
  intros p bg fg low.
  destruct (validate_spec raw) as (fn & fb & issues & Hv & _).
  cbv zeta in Hv. eexists _, _. split; [exact Hv|]. cbn [c_primary].
  unfold contrast_fallback, resolved_contrast. fold p bg fg. fold low.
  destruct low as [Hlow | Hlow].
  - split; [rewrite lookup_insert_ne by discriminate; apply lookup_insert_eq|].
    split; [apply lookup_insert_eq|].
    split; [rewrite !lookup_insert_ne by discriminate; apply resolved_primary_cursor|].
    intros key Hk.
    rewrite !lookup_insert_ne; [apply resolved_primary_other, Hk| |];
      intros <-; apply Hk; cbn; tauto.
  - split; [apply resolved_primary_background|].
    split; [apply resolved_primary_foreground|].
    split; [apply resolved_primary_cursor|].
    intros key Hk. apply resolved_primary_other, Hk.
Qed.

(** X19: every colour of a validated palette, primary or ANSI, is a [#]
    followed by six characters, whatever the raw palette holds. *)
Theorem validate_shape (raw : colors) :
  exists fixed_primary fixed_normal fixed_bright issues,
    validate_and_fix_colors raw
    = Some (Colors fixed_primary (Some fixed_normal) (Some fixed_bright), issues)
    /\ (forall key value, fixed_primary !! key = Some value -> is_hash7 value = true)
    /\ (forall key value, fixed_normal !! key = Some value -> is_hash7 value = true)
    /\ (forall key value, fixed_bright !! key = Some value -> is_hash7 value = true).
Proof.
  destruct (validate_spec raw) as (fn & fb & issues & Hv & _ & Hn & Hb & _).
  cbv zeta in Hv. eexists _, fn, fb, _. split; [exact Hv|].
  split; [|split].
  - intros key value H. destruct (contrast_fallback _).
    + apply lookup_insert_Some in H as [[_ <-] | [_ H]]; [reflexivity|].
      apply lookup_insert_Some in H as [[_ <-] | [_ H]]; [reflexivity|].
      exact (resolved_primary_shape _ _ _ H).
    + exact (resolved_primary_shape _ _ _ H).
  - exact (section_shape _ _ _ fallback_normal_shape Hn).
  - exact (section_shape _ _ _ fallback_bright_shape Hb).
Qed.

(** X20: a [cursor] entry that is not a colour is replaced by [#282a36], the
    fallback of the background (the fallback table has no cursor), and the
    issue recorded for it quotes the raw entry. *)
Theorem validate_invalid_cursor (raw : colors) (value : string) :
  c_primary raw !! "cursor" = Some value ->
  is_valid_hex_color value = false ->
  exists fixed issues,
    validate_and_fix_colors raw = Some (fixed, issues)
    /\ c_primary fixed !! "cursor" = Some "#282a36"
    /\ fallback_primary !! "background" = Some "#282a36"
    /\ fallback_primary !! "cursor" = None
    /\ In (invalid_cursor_issue value) issues.
Proof.
  intros Hv Hbad.
  assert (Hn : normalize_hex_color value = None).
  { unfold is_valid_hex_color in Hbad.
    destruct (normalize_hex_color value); [discriminate|reflexivity]. }
  destruct (validate_spec raw) as (fn & fb & issues & Hr & _ & _ & _ & Hcur).
  cbv zeta in Hr. eexists _, _. split; [exact Hr|]. cbn [c_primary].
  assert (Hc : resolved_primary (c_primary raw) !! "cursor" = Some "#282a36").
  { rewrite resolved_primary_cursor. unfold resolved_cursor.
    rewrite Hv, Hn. reflexivity. }
  split.
  { destruct (contrast_fallback _); [|exact Hc].
    rewrite !lookup_insert_ne by discriminate. exact Hc. }
  split; [reflexivity|]. split; [reflexivity|].
  apply in_or_app. left. exact (Hcur value Hv Hn).
Qed.

Lemma validate_invalid_cursor_witness :
  exists fixed issues,
    validate_and_fix_colors named_cursor_raw = Some (fixed, issues)
    /\ c_primary fixed !! "cursor" = Some "#282a36"
    /\ fallback_primary !! "background" = Some "#282a36"
    /\ fallback_primary !! "cursor" = None
    /\ In (invalid_cursor_issue "white") issues.
Proof.
  apply (validate_invalid_cursor named_cursor_raw "white"); reflexivity.
Defined.

(** *** The contrast ratio *)

Local Open Scope R_scope.

Lemma channels_luminance_black : channels_luminance (0, 0, 0)%Z = 0.
Proof.
  unfold channels_luminance, gamma_correct.
  destruct (Rle_dec (0 / 255.0) GAMMA_THRESHOLD) as [_ | H].
  - unfold GAMMA_DIVISOR. lra.
  - exfalso. apply H. unfold GAMMA_THRESHOLD. lra.
Qed.

(** [get_luminance] is the luminance of the channels [hex_to_rgb] reads:
    the two functions parse a colour alike, and the luminance of the
    channels of a failure, all 0, is the 0 that [get_luminance] returns
    for one. *)
Lemma get_luminance_hex_to_rgb (s : string) :
  get_luminance s = channels_luminance (hex_to_rgb s).
Proof.
  unfold get_luminance, hex_to_rgb, luminance_channels.
  destruct (normalize_hex_color s) as [n|];
    [|symmetry; apply channels_luminance_black].
  destruct (PyInt.int16 (PyStr.slice 1 3 n)) as [r|]; cbn [mbind option_bind];
    [|symmetry; apply channels_luminance_black].
  destruct (PyInt.int16 (PyStr.slice 3 5 n)) as [g|]; cbn [mbind option_bind];
    [|symmetry; apply channels_luminance_black].
  destruct (PyInt.int16 (PyStr.slice 5 7 n)) as [b|]; cbn [mbind option_bind];
    [|symmetry; apply channels_luminance_black].
  reflexivity.
Qed.

(** [gamma_correct] maps [[0, 1]] into [[0, 1]], and takes a value that is
    negative to one above -0.005 as long as it is at least -15/255. *)
Lemma gamma_correct_range (c : R) :
  -15 / 255 <= c <= 1 ->
  -0.005 <= gamma_correct c <= 1 /\ (0 <= c -> 0 <= gamma_correct c).
Proof.
  intros Hc. destruct (Rle_dec c GAMMA_THRESHOLD) as [Hle | Hgt].
  - unfold gamma_correct. destruct (Rle_dec c GAMMA_THRESHOLD); [|contradiction].
    unfold GAMMA_THRESHOLD, GAMMA_DIVISOR in *. split; [split|intros H0]; lra.
  - pose proof (gamma_correct_high c) as H.
    unfold GAMMA_THRESHOLD, GAMMA_OFFSET, GAMMA_DENOMINATOR in *.
    specialize (H ltac:(lra) ltac:(lra)). cbv zeta in H.
    set (b := (c + 0.055) / 1.055) in *.
    assert (Hb : 0 < b <= 1) by (subst b; split; lra).
    split; [split|intros _]; nra.
Qed.

Lemma channel_fraction (v : Z) :
  (-15 <= v <= 255)%Z ->
  -15 / 255 <= IZR v / 255.0 <= 1 /\ ((0 <= v)%Z -> 0 <= IZR v / 255.0).
Proof.
  intros [Hlo Hhi]. apply IZR_le in Hlo, Hhi.
  split; [split|intros H0; apply IZR_le in H0]; lra.
Qed.

(** The luminance of any string lies in [[-0.005, 1]]; that of a string
    whose channels are not negative lies in [[0, 1]]. *)
Lemma get_luminance_range (s : string) :
  -0.005 <= get_luminance s <= 1.
Proof.
  rewrite get_luminance_hex_to_rgb.
  destruct (hex_to_rgb_range s) as (r & g & b & -> & Hr & Hg & Hb & _).
  unfold channels_luminance.
  destruct (gamma_correct_range _ (proj1 (channel_fraction r Hr))) as [Gr _].
  destruct (gamma_correct_range _ (proj1 (channel_fraction g Hg))) as [Gg _].
  destruct (gamma_correct_range _ (proj1 (channel_fraction b Hb))) as [Gb _].
  unfold LUMINANCE_R, LUMINANCE_G, LUMINANCE_B. lra.
Qed.

Lemma get_luminance_canonical (s : string) :
  is_canonical s = true -> 0 <= get_luminance s <= 1.
Proof.
  intros Hs. pose proof (get_luminance_range s) as Hrange.
  split; [|lra]. rewrite get_luminance_hex_to_rgb.
  destruct (hex_to_rgb_canonical s Hs) as (r & g & b & -> & Hr & Hg & Hb).
  unfold channels_luminance.
  assert (Hr' : (-15 <= r <= 255)%Z) by lia.
  assert (Hg' : (-15 <= g <= 255)%Z) by lia.
  assert (Hb' : (-15 <= b <= 255)%Z) by lia.
  destruct (channel_fraction r Hr') as [Fr Pr].
  destruct (channel_fraction g Hg') as [Fg Pg].
  destruct (channel_fraction b Hb') as [Fb Pb].
  destruct (gamma_correct_range _ Fr) as [_ Gr].
  destruct (gamma_correct_range _ Fg) as [_ Gg].
  destruct (gamma_correct_range _ Fb) as [_ Gb].
  specialize (Gr (Pr ltac:(lia))). specialize (Gg (Pg ltac:(lia))).
  specialize (Gb (Pb ltac:(lia))).
  unfold LUMINANCE_R, LUMINANCE_G, LUMINANCE_B. lra.
Qed.

Lemma ratio_bounds (x y lo : R) :
  0 < y -> y <= x -> x <= lo * y -> 1 <= x / y <= lo.
Proof.
  intros Hy Hxy Hlo. unfold Rdiv. split.
  - apply Rmult_le_reg_r with (r := y); [exact Hy|].
    rewrite Rmult_assoc, Rinv_l by lra. lra.
  - apply Rmult_le_reg_r with (r := y); [exact Hy|].
    rewrite Rmult_assoc, Rinv_l by lra. lra.
Qed.

(** X21: the contrast ratio does not depend on the order of its two
    colours. *)
Theorem contrast_ratio_symmetric (color1 color2 : string) :
  calculate_contrast_ratio color1 color2 = calculate_contrast_ratio color2 color1.
Proof.
  unfold calculate_contrast_ratio.
  destruct (Rgt_dec (get_luminance color1) (get_luminance color2)) as [H12 | H12];
    destruct (Rgt_dec (get_luminance color2) (get_luminance color1)) as [H21 | H21];
    try reflexivity; [lra|].
  replace (get_luminance color2) with (get_luminance color1) by lra.
  reflexivity.
Qed.

(** X22: for any two strings, colours or not, the contrast ratio is defined
    (no division by zero: a luminance is never -0.05), is at least 1, and
    is 1 for a string against itself. *)
Theorem contrast_ratio_at_least_one (color1 color2 : string) :
  get_luminance color1 + 0.05 > 0
  /\ 1 <= calculate_contrast_ratio color1 color2
  /\ calculate_contrast_ratio color1 color1 = 1.
Proof.
  pose proof (get_luminance_range color1) as H1.
  pose proof (get_luminance_range color2) as H2.
  split; [lra|]. unfold calculate_contrast_ratio. split.
  - destruct (Rgt_dec _ _);
      apply (ratio_bounds _ _ 24); lra.
  - destruct (Rgt_dec _ _); [lra|].
    unfold Rdiv. apply Rinv_r. lra.
Qed.

(** X23: for two colours written as [#] and six lowercase digits the
    luminances lie in [[0, 1]] and the contrast ratio lies in [[1, 21]]. *)
Theorem contrast_ratio_canonical (color1 color2 : string) :
  is_canonical color1 = true ->
  is_canonical color2 = true ->
  0 <= get_luminance color1 <= 1
  /\ 0 <= get_luminance color2 <= 1
  /\ 1 <= calculate_contrast_ratio color1 color2 <= 21.
Proof.
  intros Hc1 Hc2.
  pose proof (get_luminance_canonical color1 Hc1) as H1.
  pose proof (get_luminance_canonical color2 Hc2) as H2.
  split; [exact H1|]. split; [exact H2|].
  unfold calculate_contrast_ratio.
  destruct (Rgt_dec _ _); apply ratio_bounds; lra.
Qed.

Lemma contrast_ratio_canonical_witness :
  0 <= get_luminance "#000000" <= 1
  /\ 0 <= get_luminance "#ffffff" <= 1
  /\ 1 <= calculate_contrast_ratio "#000000" "#ffffff" <= 21.
Proof.
  apply (contrast_ratio_canonical "#000000" "#ffffff"); reflexivity.
Defined.

Local Close Scope R_scope.

(** *** Validation followed by generation *)

Lemma dict_get_some (d : gmap string string) (key dflt value : string) :
  d !! key = Some value -> dict_get d key dflt = value.
Proof. intros H. unfold dict_get. rewrite H. reflexivity. Qed.

Lemma section_lookup (raw fallback fixed : gmap string string) (name : string) :
  section_resolved raw fallback fixed -> In name color_names ->
  exists value, fixed !! name = Some value
                /\ forall dflt, dict_get fixed name dflt = value.
Proof.
  intros [Hin _] Hn. destruct (Hin name Hn) as (fb & _ & Hv).
  eexists. split; [exact Hv|]. intros dflt. exact (dict_get_some _ _ _ _ Hv).
Qed.

Ltac slot_value H name fixed :=
  let v := fresh "v" in
  let Hv := fresh "Hv" in
  let Hd := fresh "Hd" in
  destruct (section_lookup _ _ fixed name H ltac:(cbn; tauto)) as (v & Hv & Hd);
  rewrite Hd, ?Hv; clear Hd.

(** X24: validation followed by generation always yields a document, and in
    it the generator's own defaults for a missing colour are never used:
    the editor and terminal keys carry the three primary colours of the
    validated palette and the sixteen terminal ANSI keys carry its sixteen
    slots. *)
Theorem pipeline_uses_validated_colors (theme_name : string) (raw : colors) :
  exists fixed_primary fixed_normal fixed_bright issues t bg fg cursor,
    validate_and_fix_colors raw
    = Some (Colors fixed_primary (Some fixed_normal) (Some fixed_bright), issues)
    /\ generate_theme_for_colors theme_name raw = Some (t, issues)
    /\ fixed_primary !! "background" = Some bg
    /\ fixed_primary !! "foreground" = Some fg
    /\ fixed_primary !! "cursor" = Some cursor
    /\ map (dict_lookup (colorCustomizations t))
         ["editor.background"; "editor.foreground"; "editorCursor.foreground";
          "terminal.background"; "terminal.foreground";
          "terminalCursor.background"; "terminalCursor.foreground"]
       = map Some [bg; fg; cursor; bg; fg; cursor; bg]
    /\ map (dict_lookup (colorCustomizations t)) ansi_keys
       = (map (fun name => fixed_normal !! name) color_names
          ++ map (fun name => fixed_bright !! name) color_names)%list.
Proof.
  destruct (validate_spec raw) as (fn & fb & issues & Hv & _ & Hn & Hb & _).
  cbv zeta in Hv.
  set (fp := if contrast_fallback _ then _ else _) in Hv.
  assert (Hp : exists bg fg cursor,
             fp !! "background" = Some bg /\ fp !! "foreground" = Some fg
             /\ fp !! "cursor" = Some cursor).
  { subst fp. destruct (contrast_fallback _).
    - eexists _, _, _.
      split; [rewrite lookup_insert_ne by discriminate; apply lookup_insert_eq|].
      split; [apply lookup_insert_eq|].
      rewrite !lookup_insert_ne by discriminate. apply resolved_primary_cursor.
    - eexists _, _, _.
      split; [apply resolved_primary_background|].
      split; [apply resolved_primary_foreground|].
      apply resolved_primary_cursor. }
  destruct Hp as (bg & fg & cursor & Hbg & Hfg & Hcur).
  destruct (document_palette_lookup theme_name (Colors fp (Some fn) (Some fb)))
    as (t & Ht & Hkeys & Hansi).
  cbn [c_primary c_normal c_bright default from_option id] in Hkeys, Hansi.
  eexists fp, fn, fb, _, t, bg, fg, cursor.
  split; [exact Hv|].
  split; [unfold generate_theme_for_colors; rewrite Hv; cbn [mbind option_bind];
          rewrite Ht; reflexivity|].
  split; [exact Hbg|]. split; [exact Hfg|]. split; [exact Hcur|].
  rewrite !(dict_get_some _ _ _ _ Hbg), !(dict_get_some _ _ _ _ Hfg),
    !(dict_get_some _ _ _ _ Hcur) in Hkeys.
  split; [exact Hkeys|].
  rewrite Hansi. unfold color_names. cbn [map app].
  slot_value Hn "black" fn. slot_value Hn "red" fn. slot_value Hn "green" fn.
  slot_value Hn "yellow" fn. slot_value Hn "blue" fn. slot_value Hn "magenta" fn.
  slot_value Hn "cyan" fn. slot_value Hn "white" fn.
  slot_value Hb "black" fb. slot_value Hb "red" fb. slot_value Hb "green" fb.
  slot_value Hb "yellow" fb. slot_value Hb "blue" fb. slot_value Hb "magenta" fb.
  slot_value Hb "cyan" fb. slot_value Hb "white" fb.
  reflexivity.
Qed.

Lemma resolved_canonical (raw : gmap string string) (key dflt : string) :
  canonical_dict raw -> is_canonical dflt = true ->
  is_canonical (resolved raw key dflt) = true.
Proof.
  intros Hraw Hd. unfold resolved.
  destruct (raw !! key) as [value|] eqn:E; cbn [mbind option_bind default]; [|exact Hd].
  rewrite (normalize_canonical value (Hraw key value E)). exact (Hraw key value E).
Qed.

Lemma resolved_cursor_canonical (raw : gmap string string) (fg : string) :
  canonical_dict raw -> is_canonical fg = true ->
  is_canonical (resolved_cursor raw fg) = true.
Proof.
  intros Hraw Hfg. unfold resolved_cursor.
  destruct (raw !! "cursor") as [value|] eqn:E; [|exact Hfg].
  rewrite (normalize_canonical value (Hraw _ value E)). exact (Hraw _ value E).
Qed.

Lemma canonical_dict_insert (d : gmap string string) (key value : string) :
  is_canonical value = true -> canonical_dict d -> canonical_dict (<[key := value]> d).
Proof.
  intros Hv Hd k v H. apply lookup_insert_Some in H as [[_ <-] | [_ H]];
    [exact Hv|exact (Hd k v H)].
Qed.

Lemma resolved_primary_canonical (raw : gmap string string) :
  canonical_dict raw -> canonical_dict (resolved_primary raw).
Proof.
  intros Hraw. unfold resolved_primary. cbv zeta.
  repeat apply canonical_dict_insert;
    try apply resolved_cursor_canonical; try apply resolved_canonical;
    try exact Hraw; try reflexivity.
  apply canonical_dict_empty.
Qed.

Lemma fallback_normal_canonical (name fb : string) :
  In name color_names -> fallback_normal !! name = Some fb -> is_canonical fb = true.
Proof.
  intros Hn. repeat (destruct Hn as [<- | Hn]; [intros [= <-]; reflexivity|]).
  destruct Hn.
Qed.

Lemma fallback_bright_canonical (name fb : string) :
  In name color_names -> fallback_bright !! name = Some fb -> is_canonical fb = true.
Proof.
  intros Hn. repeat (destruct Hn as [<- | Hn]; [intros [= <-]; reflexivity|]).
  destruct Hn.
Qed.

Lemma section_canonical (raw fallback fixed : gmap string string) :
  canonical_dict raw ->
  (forall name fb, In name color_names -> fallback !! name = Some fb ->
                   is_canonical fb = true) ->
  section_resolved raw fallback fixed -> canonical_dict fixed.
Proof.
  intros Hraw Hfb [Hin Hout] name value Hv.
  destruct (In_dec string_dec name color_names) as [Hn | Hn].
  - destruct (Hin name Hn) as (fb & Hf & Hr). rewrite Hr in Hv.
    injection Hv as <-. apply resolved_canonical; [exact Hraw|exact (Hfb name fb Hn Hf)].
  - rewrite (Hout name Hn) in Hv. discriminate.
Qed.

(** X25: when every colour the raw palette holds is canonical, so is every
    colour of the validated palette, and every value of the document
    generated from it is a canonical colour or one of the two literals of
    the table; missing colours do not matter. *)
Theorem pipeline_canonical (theme_name : string) (raw : colors) :
  canonical_dict (c_primary raw) ->
  canonical_dict (default ∅ (c_normal raw)) ->
  canonical_dict (default ∅ (c_bright raw)) ->
  exists fixed issues t,
    validate_and_fix_colors raw = Some (fixed, issues)
    /\ generate_theme_for_colors theme_name raw = Some (t, issues)
    /\ canonical_dict (c_primary fixed)
    /\ canonical_dict (default ∅ (c_normal fixed))
    /\ canonical_dict (default ∅ (c_bright fixed))
    /\ (forall k v, In (k, v) (colorCustomizations t) -> document_value v)
    /\ (forall r, In r (textMateRules t) -> is_canonical (foreground r) = true).
Proof.
  intros Hp Hn Hb.
  destruct (validate_spec raw) as (fn & fb & issues & Hv & _ & Sn & Sb & _).
  cbv zeta in Hv.
  set (fp := if contrast_fallback _ then _ else _) in Hv.
  assert (Cp : canonical_dict fp).
  { subst fp. destruct (contrast_fallback _).
    - apply canonical_dict_insert; [reflexivity|].
      apply canonical_dict_insert; [reflexivity|].
      apply resolved_primary_canonical, Hp.
    - apply resolved_primary_canonical, Hp. }
  pose proof (section_canonical _ _ _ Hn fallback_normal_canonical Sn) as Cn.
  pose proof (section_canonical _ _ _ Hb fallback_bright_canonical Sb) as Cb.
  destruct (document_values_canonical theme_name (Colors fp (Some fn) (Some fb))
              Cp Cn Cb) as (t & Ht & Hvals & Hrules).
  eexists _, _, t. split; [exact Hv|].
  split; [unfold generate_theme_for_colors; rewrite Hv; cbn [mbind option_bind];
          rewrite Ht; reflexivity|].
  auto 10.
Qed.

Lemma pipeline_canonical_witness :
  exists fixed issues t,
    validate_and_fix_colors minimal_raw = Some (fixed, issues)
    /\ generate_theme_for_colors "minimal" minimal_raw = Some (t, issues)
    /\ canonical_dict (c_primary fixed)
    /\ canonical_dict (default ∅ (c_normal fixed))
    /\ canonical_dict (default ∅ (c_bright fixed))
    /\ (forall k v, In (k, v) (colorCustomizations t) -> document_value v)
    /\ (forall r, In r (textMateRules t) -> is_canonical (foreground r) = true).
Proof.
  apply (pipeline_canonical "minimal" minimal_raw);
    apply canonical_dict_checked; vm_compute; reflexivity.
Defined.

(** *** The primary colours of the parsed palette *)

Lemma parse_minimal_source : parse_alacritty_colors (Some minimal_source) = minimal_raw.
Proof. vm_compute. reflexivity. Qed.

Lemma parse_unreadable : parse_alacritty_colors None = empty_raw.
Proof. reflexivity. Qed.

Lemma sapp_nil_r (s : string) : s ++ "" = s.
Proof.
  induction s as [|c s IH]; [reflexivity|].
  change (String c s ++ "") with (String c (s ++ "")). rewrite IH. reflexivity.
Qed.

Lemma sapp_assoc (a b c : string) : (a ++ b) ++ c = a ++ (b ++ c).
Proof.
  induction a as [|x a IH]; [reflexivity|].
  change (String x (a ++ b) ++ c = String x (a ++ (b ++ c))).
  change (String x ((a ++ b) ++ c) = String x (a ++ (b ++ c))).
  rewrite IH. reflexivity.
Qed.

Lemma all_chars_cons (p : ascii -> bool) (c : ascii) (s : string) :
  all_chars p (String c s) = p c && all_chars p s.
Proof. reflexivity. Qed.

Lemma all_chars_app (p : ascii -> bool) (a b : string) :
  all_chars p (a ++ b) = all_chars p a && all_chars p b.
Proof.
  induction a as [|x a IH]; [reflexivity|].
  change (String x a ++ b) with (String x (a ++ b)).
  rewrite !all_chars_cons, IH, andb_assoc. reflexivity.
Qed.

Lemma after_prefix_sound (p s r : string) :
  PyRe.after_prefix p s = Some r -> s = p ++ r.
Proof.
  revert s. induction p as [|a p IH]; intros s H.
  - cbn in H. injection H as ->. reflexivity.
  - destruct s as [|b s]; [discriminate H|]. cbn [PyRe.after_prefix] in H.
    destruct (Ascii.eqb_spec a b) as [-> |]; [|discriminate H].
    change (String b p ++ r) with (String b (p ++ r)). rewrite (IH s H). reflexivity.
Qed.

Lemma after_prefix_app (p r : string) : PyRe.after_prefix p (p ++ r) = Some r.
Proof.
  induction p as [|a p IH]; [reflexivity|].
  change (String a p ++ r) with (String a (p ++ r)).
  cbn [PyRe.after_prefix]. rewrite Ascii.eqb_refl. exact IH.
Qed.

Lemma lstrip_split (p : ascii -> bool) (s : string) :
  exists w, s = w ++ PyStr.lstrip p s /\ all_chars p w = true.
Proof.
  induction s as [|c s (w & Hs & Hw)]; [exists ""; split; reflexivity|].
  cbn [PyStr.lstrip]. destruct (p c) eqn:Hc.
  - exists (String c w). split.
    + change (String c w ++ PyStr.lstrip p s) with (String c (w ++ PyStr.lstrip p s)).
      rewrite <- Hs. reflexivity.
    + rewrite all_chars_cons, Hc, Hw. reflexivity.
  - exists "". split; reflexivity.
Qed.

Lemma lstrip_head (p : ascii -> bool) (c : ascii) (s : string) :
  p c = false -> PyStr.lstrip p (String c s) = String c s.
Proof. intros H. cbn [PyStr.lstrip]. rewrite H. reflexivity. Qed.

Lemma span_sound (q : ascii -> bool) (s run rest : string) :
  PyRe.span q s = (run, rest) ->
  s = run ++ rest /\ all_chars q run = true.
Proof.
  revert run rest. induction s as [|c s IH]; intros run rest H.
  - cbn in H. injection H as <- <-. split; reflexivity.
  - cbn [PyRe.span] in H. destruct (q c) eqn:Hc.
    + destruct (PyRe.span q s) as [run' rest'] eqn:E.
      injection H as <- <-. destruct (IH run' rest' eq_refl) as [Hs Hr].
      split.
      * change (String c run' ++ rest') with (String c (run' ++ rest')).
        rewrite <- Hs. reflexivity.
      * rewrite all_chars_cons, Hc, Hr. reflexivity.
    + injection H as <- <-. split; reflexivity.
Qed.

Lemma span_head (q : ascii -> bool) (s run rest : string) (c : ascii) :
  PyRe.span q s = (run, String c rest) -> q c = false.
Proof.
  revert run. induction s as [|d s IH]; intros run H.
  - cbn in H. discriminate H.
  - cbn [PyRe.span] in H. destruct (q d) eqn:Hd.
    + destruct (PyRe.span q s) as [run' rest'] eqn:E.
      injection H as <- ->. exact (IH run' eq_refl).
    + injection H as <- <- <-. exact Hd.
Qed.

Lemma span_app (q : ascii -> bool) (v : string) (c : ascii) (r : string) :
  all_chars q v = true -> q c = false ->
  PyRe.span q (v ++ String c r) = (v, String c r).
Proof.
  intros Hv Hc. induction v as [|d v IH].
  - change ("" ++ String c r) with (String c r). cbn [PyRe.span].
    rewrite Hc. reflexivity.
  - rewrite all_chars_cons in Hv. apply andb_prop in Hv as [Hd Hv].
    change (String d v ++ String c r) with (String d (v ++ String c r)).
    cbn [PyRe.span]. rewrite Hd, (IH Hv). reflexivity.
Qed.

(** A match at the head of [s] reads an assignment that begins there. *)
Lemma match_assignment_sound (key s value : string) :
  PyRe.match_assignment key s = Some value ->
  exists ws1 ws2 q1 q2 post,
    s = assignment "" key ws1 ws2 q1 value q2 post
    /\ all_chars PyStr.is_space ws1 = true
    /\ all_chars PyStr.is_space ws2 = true
    /\ PyStr.is_quote q1 = true /\ PyStr.is_quote q2 = true
    /\ value <> "" /\ all_chars not_quote value = true.
Proof.
  unfold PyRe.match_assignment. intros H.
  destruct (PyRe.after_prefix key s) as [s1|] eqn:E1; [|discriminate H].
  cbn [mbind option_bind] in H.
  apply after_prefix_sound in E1.
  destruct (lstrip_split PyStr.is_space s1) as (ws1 & Hs1 & Hws1).
  destruct (PyStr.lstrip PyStr.is_space s1) as [|e s2]; [discriminate H|].
  destruct (Ascii.eqb_spec e "=") as [-> | Hne].
  2:{ exfalso. revert H. clear - Hne.
      destruct e as [[] [] [] [] [] [] [] []]; try discriminate; congruence. }
  destruct (lstrip_split PyStr.is_space s2) as (ws2 & Hs2 & Hws2).
  destruct (PyStr.lstrip PyStr.is_space s2) as [|q1 s3]; [discriminate H|].
  destruct (PyStr.is_quote q1) eqn:Hq1; [|discriminate H].
  destruct (PyRe.span (fun c => negb (PyStr.is_quote c)) s3) as [run rest] eqn:E3.
  destruct run as [|c run]; [discriminate H|].
  destruct rest as [|q2 post]; [discriminate H|].
  injection H as <-.
  pose proof (span_head _ _ _ _ _ E3) as Hq2. apply negb_false_iff in Hq2.
  destruct (span_sound _ _ _ _ E3) as [Hs3 Hrun].
  exists ws1, ws2, q1, q2, post.
  split.
  { unfold assignment. rewrite E1, Hs1, Hs2, Hs3. reflexivity. }
  repeat (split; [assumption|]). split; [discriminate|exact Hrun].
Qed.

(** What [re.search] returns was matched somewhere. *)
Lemma search_assignment_sound (key s value : string) :
  PyRe.search_assignment key s = Some value ->
  exists pre t, s = pre ++ t /\ PyRe.match_assignment key t = Some value.
Proof.
  induction s as [|c s IH]; intros H.
  - cbn [PyRe.search_assignment] in H.
    destruct (PyRe.match_assignment key "") as [v|] eqn:E; [|discriminate H].
    exists "", "". split; [reflexivity|]. rewrite E. exact H.
  - cbn [PyRe.search_assignment] in H.
    destruct (PyRe.match_assignment key (String c s)) as [v|] eqn:E.
    + exists "", (String c s). split; [reflexivity|]. rewrite E. exact H.
    + destruct (IH H) as (pre & t & -> & Ht).
      exists (String c pre), t. split; [reflexivity|exact Ht].
Qed.

Lemma lookup_set_match (key content : string) (d : gmap string string) (k : string) :
  set_match key content d !! k
  = if String.eqb key k then
      match PyRe.search_assignment key content with
      | Some value => Some value
      | None => d !! k
      end
    else d !! k.
Proof.
  unfold set_match. destruct (String.eqb_spec key k) as [-> | Hne].
  - destruct (PyRe.search_assignment k content); [apply lookup_insert_eq|reflexivity].
  - destruct (PyRe.search_assignment key content); [|reflexivity].
    apply lookup_insert_ne. exact Hne.
Qed.

(** The primary entries of the parsed palette are what the searches
    returned. *)
Lemma parse_primary_lookup (content key : string) :
  c_primary (parse_alacritty_colors (Some content)) !! key
  = if existsb (String.eqb key) primary_keys
    then PyRe.search_assignment key content else None.
Proof.
  cbn [parse_alacritty_colors c_primary]. rewrite !lookup_set_match, lookup_empty.
  unfold primary_keys. cbn [existsb].
  destruct (String.eqb_spec key "background") as [-> |];
    [cbn; destruct (PyRe.search_assignment _ _); reflexivity|].
  destruct (String.eqb_spec key "foreground") as [-> |];
    [cbn; destruct (PyRe.search_assignment _ _); reflexivity|].
  destruct (String.eqb_spec key "cursor") as [-> |];
    [cbn; destruct (PyRe.search_assignment _ _); reflexivity|].
  cbn [orb].
  destruct (String.eqb_spec "cursor" key); [congruence|].
  destruct (String.eqb_spec "foreground" key); [congruence|].
  destruct (String.eqb_spec "background" key); [congruence|].
  reflexivity.
Qed.

(** X26: a primary colour of the parsed palette is never empty and holds no
    quote; its key is [background], [foreground] or [cursor], and the text
    holds the key followed by [=] and the colour between two quotes, with
    nothing but white space around the [=]. Nothing is said about where:
    the patterns are not anchored to a line or a section. *)
Theorem parse_primary_sound (content key value : string) :
  c_primary (parse_alacritty_colors (Some content)) !! key = Some value ->
  In key primary_keys
  /\ value <> "" /\ all_chars not_quote value = true
  /\ exists pre ws1 ws2 q1 q2 post,
       content = assignment pre key ws1 ws2 q1 value q2 post
       /\ all_chars PyStr.is_space ws1 = true
       /\ all_chars PyStr.is_space ws2 = true
       /\ PyStr.is_quote q1 = true /\ PyStr.is_quote q2 = true.
Proof.
  rewrite parse_primary_lookup. intros H.
  destruct (existsb (String.eqb key) primary_keys) eqn:Hk; [|discriminate H].
  apply existsb_exists in Hk as (k & Hin & Heq). apply String.eqb_eq in Heq as <-.
  split; [exact Hin|].
  destruct (search_assignment_sound key content value H) as (pre & t & -> & Ht).
  destruct (match_assignment_sound key t value Ht)
    as (ws1 & ws2 & q1 & q2 & post & -> & H1 & H2 & H3 & H4 & H5 & H6).
  split; [exact H5|]. split; [exact H6|].
  exists pre, ws1, ws2, q1, q2, post. unfold assignment.
  repeat (split; [try assumption; reflexivity|]). assumption.
Qed.

Lemma parse_primary_sound_witness :
  In "foreground" primary_keys
  /\ "#f8f8f2" <> "" /\ all_chars not_quote "#f8f8f2" = true
  /\ exists pre ws1 ws2 q1 q2 post,
       minimal_source = assignment pre "foreground" ws1 ws2 q1 "#f8f8f2" q2 post
       /\ all_chars PyStr.is_space ws1 = true
       /\ all_chars PyStr.is_space ws2 = true
       /\ PyStr.is_quote q1 = true /\ PyStr.is_quote q2 = true.
Proof.
  apply (parse_primary_sound minimal_source "foreground" "#f8f8f2").
  vm_compute. reflexivity.
Defined.

(** The search passes over a text in which the pattern has no match. *)
Lemma search_assignment_skip (key pre follow : string) :
  matched_within key pre follow = false ->
  PyRe.search_assignment key (pre ++ follow) = PyRe.search_assignment key follow.
Proof.
  induction pre as [|c pre IH]; intros H; [reflexivity|].
  cbn [matched_within] in H.
  destruct (PyRe.match_assignment key (String c pre ++ follow)) eqn:E;
    [discriminate H|].
  change (String c pre ++ follow) with (String c (pre ++ follow)) in *.
  cbn [PyRe.search_assignment]. rewrite E. exact (IH H).
Qed.

Lemma quote_not_space (q : ascii) : PyStr.is_quote q = true -> PyStr.is_space q = false.
Proof.
  unfold PyStr.is_quote. intros H. apply orb_prop in H as [H | H];
    apply Ascii.eqb_eq in H; subst q; reflexivity.
Qed.

(** The pattern matches an assignment that begins at the head of the
    text. *)
Lemma match_assignment_complete (key ws1 ws2 : string) (q1 : ascii)
    (value : string) (q2 : ascii) (post : string) :
  all_chars PyStr.is_space ws1 = true ->
  all_chars PyStr.is_space ws2 = true ->
  PyStr.is_quote q1 = true -> PyStr.is_quote q2 = true ->
  value <> "" -> all_chars not_quote value = true ->
  PyRe.match_assignment key (assignment "" key ws1 ws2 q1 value q2 post)
  = Some value.
Proof.
  intros H1 H2 Hq1 Hq2 Hne Hv. unfold assignment, PyRe.match_assignment.
  change ("" ++ ?x) with x. rewrite after_prefix_app. cbn [mbind option_bind].
  rewrite (lstrip_app_l _ ws1 _ H1).
  change ("=" ++ ?x) with (String "=" x).
  rewrite (lstrip_head PyStr.is_space "=" _ eq_refl).
  rewrite (lstrip_app_l _ ws2 _ H2), (lstrip_head _ q1 _ (quote_not_space q1 Hq1)).
  rewrite Hq1.
  rewrite (span_app (fun c => negb (PyStr.is_quote c)) value q2 post Hv);
    [|rewrite Hq2; reflexivity].
  destruct value as [|c value]; [contradiction|reflexivity].
Qed.

(** X27: the first assignment of a primary key that the pattern matches is
    the one the parsed palette holds: when the pattern has no match that
    begins in the text before it, the palette holds the text between its
    quotes, for any white space around the [=], either quote on either
    side, and any text after it. *)
Theorem parse_primary_found (pre key ws1 ws2 : string) (q1 : ascii)
    (value : string) (q2 : ascii) (post : string) :
  In key primary_keys ->
  matched_within key pre (assignment "" key ws1 ws2 q1 value q2 post) = false ->
  all_chars PyStr.is_space ws1 = true ->
  all_chars PyStr.is_space ws2 = true ->
  PyStr.is_quote q1 = true -> PyStr.is_quote q2 = true ->
  value <> "" -> all_chars not_quote value = true ->
  c_primary (parse_alacritty_colors
               (Some (assignment pre key ws1 ws2 q1 value q2 post))) !! key
  = Some value.
Proof.
  intros Hin Hpre H1 H2 Hq1 Hq2 Hne Hv. rewrite parse_primary_lookup.
  replace (existsb (String.eqb key) primary_keys) with true.
  2:{ symmetry. apply existsb_exists. exists key. split; [exact Hin|].
      apply String.eqb_refl. }
  change (assignment pre key ws1 ws2 q1 value q2 post)
    with (pre ++ assignment "" key ws1 ws2 q1 value q2 post).
  rewrite (search_assignment_skip key pre _ Hpre).
  pose proof (match_assignment_complete key ws1 ws2 q1 value q2 post
                H1 H2 Hq1 Hq2 Hne Hv) as Hm.
  destruct (assignment "" key ws1 ws2 q1 value q2 post);
    cbn [PyRe.search_assignment]; rewrite Hm; reflexivity.
Qed.

Lemma parse_primary_found_witness :
  c_primary (parse_alacritty_colors
               (Some (assignment "[colors.cursor] text = '#000000' " "cursor"
                        " " "  " PyStr.dquote "#f5e0dc" "'" " # block")))
    !! "cursor"
  = Some "#f5e0dc".
Proof.
  apply (parse_primary_found "[colors.cursor] text = '#000000' " "cursor"
           " " "  " PyStr.dquote "#f5e0dc" "'" " # block");
    first [reflexivity | discriminate | cbn; tauto].
Defined.

(** *** The sections of the parsed palette *)

Lemma slength_app (a b : string) :
  String.length (a ++ b) = (String.length a + String.length b)%nat.
Proof.
  induction a as [|x a IH]; [reflexivity|].
  change (String x a ++ b) with (String x (a ++ b)).
  cbn [String.length]. rewrite IH. reflexivity.
Qed.

Lemma all_chars_lstrip (q p : ascii -> bool) (s : string) :
  all_chars q s = true -> all_chars q (PyStr.lstrip p s) = true.
Proof.
  induction s as [|c s IH]; [reflexivity|]. intros H. cbn [PyStr.lstrip].
  destruct (p c); [|exact H].
  rewrite all_chars_cons in H. apply andb_prop in H as [_ H]. exact (IH H).
Qed.

Lemma all_chars_rstrip (q p : ascii -> bool) (s : string) :
  all_chars q s = true -> all_chars q (PyStr.rstrip p s) = true.
Proof.
  induction s as [|c s IH]; [reflexivity|]. intros H.
  rewrite all_chars_cons in H. apply andb_prop in H as [Hc H].
  specialize (IH H). cbn [PyStr.rstrip].
  destruct (PyStr.rstrip p s) as [|d r].
  - destruct (p c); [reflexivity|]. rewrite all_chars_cons, Hc. reflexivity.
  - rewrite all_chars_cons, Hc. exact IH.
Qed.

Lemma all_chars_strip (q p : ascii -> bool) (s : string) :
  all_chars q s = true -> all_chars q (PyStr.strip p s) = true.
Proof. intros H. apply all_chars_rstrip, all_chars_lstrip, H. Qed.

Lemma all_chars_weaken (p q : ascii -> bool) (s : string) :
  (forall c, p c = true -> q c = true) ->
  all_chars p s = true -> all_chars q s = true.
Proof.
  intros Hpq. induction s as [|c s IH]; [reflexivity|].
  rewrite !all_chars_cons. intros [Hc Hs]%andb_prop.
  rewrite (Hpq c Hc), (IH Hs). reflexivity.
Qed.

Lemma lstrip_idem (p : ascii -> bool) (s : string) :
  PyStr.lstrip p (PyStr.lstrip p s) = PyStr.lstrip p s.
Proof.
  induction s as [|c s IH]; [reflexivity|]. cbn [PyStr.lstrip].
  destruct (p c) eqn:Hc; [exact IH|]. cbn [PyStr.lstrip]. rewrite Hc. reflexivity.
Qed.

Lemma rstrip_step (p : ascii -> bool) (c : ascii) (s : string) :
  PyStr.rstrip p (String c s)
  = match PyStr.rstrip p s with
    | EmptyString => if p c then EmptyString else String c EmptyString
    | r => String c r
    end.
Proof. reflexivity. Qed.

Lemma rstrip_idem (p : ascii -> bool) (s : string) :
  PyStr.rstrip p (PyStr.rstrip p s) = PyStr.rstrip p s.
Proof.
  induction s as [|c s IH]; [reflexivity|]. rewrite rstrip_step.
  destruct (PyStr.rstrip p s) as [|d r] eqn:E.
  - destruct (p c) eqn:Hc; [reflexivity|]. cbn [PyStr.rstrip]. rewrite Hc. reflexivity.
  - rewrite rstrip_step, IH. reflexivity.
Qed.

(** A string that [lstrip] leaves alone is empty or begins with a
    character that is kept. *)
Lemma lstrip_fixed (p : ascii -> bool) (c : ascii) (s : string) :
  PyStr.lstrip p (String c s) = String c s -> p c = false.
Proof.
  intros H. cbn [PyStr.lstrip] in H. destruct (p c) eqn:Hc; [|reflexivity].
  exfalso. destruct (lstrip_split p s) as (w & Hs & _).
  assert (Hlen : String.length s = (String.length w + S (String.length s))%nat).
  { rewrite Hs at 1. rewrite slength_app, H. reflexivity. }
  lia.
Qed.

Lemma lstrip_rstrip (p : ascii -> bool) (s : string) :
  PyStr.lstrip p s = s -> PyStr.lstrip p (PyStr.rstrip p s) = PyStr.rstrip p s.
Proof.
  destruct s as [|c s]; [reflexivity|]. intros H.
  pose proof (lstrip_fixed p c s H) as Hc.
  rewrite rstrip_step. destruct (PyStr.rstrip p s); [rewrite Hc|];
    cbn [PyStr.lstrip]; rewrite Hc; reflexivity.
Qed.

Lemma strip_idem (p : ascii -> bool) (s : string) :
  PyStr.strip p (PyStr.strip p s) = PyStr.strip p s.
Proof.
  unfold PyStr.strip.
  rewrite (lstrip_rstrip p (PyStr.lstrip p s) (lstrip_idem p s)).
  apply rstrip_idem.
Qed.

(** The two sides of the first separator. *)
Lemma split_once_sound (sep : ascii) (s before after : string) :
  PyText.split_once sep s = Some (before, after) ->
  s = before ++ String sep after /\ all_chars (is_not sep) before = true.
Proof.
  revert before. induction s as [|c s IH]; intros before H; [discriminate H|].
  cbn [PyText.split_once] in H. destruct (Ascii.eqb_spec c sep) as [-> | Hne].
  - injection H as <- <-. split; reflexivity.
  - destruct (PyText.split_once sep s) as [[b a]|]; [|discriminate H].
    cbn [mbind option_bind] in H. injection H as <- <-.
    destruct (IH b eq_refl) as [Hs Hb]. split.
    + change (String c b ++ String sep a) with (String c (b ++ String sep a)).
      rewrite <- Hs. reflexivity.
    + rewrite all_chars_cons, Hb. unfold is_not.
      destruct (Ascii.eqb_spec c sep); [contradiction|reflexivity].
Qed.

Lemma split_once_app (sep : ascii) (before after : string) :
  all_chars (is_not sep) before = true ->
  PyText.split_once sep (before ++ String sep after) = Some (before, after).
Proof.
  induction before as [|c b IH]; intros H.
  - change ("" ++ String sep after) with (String sep after).
    cbn [PyText.split_once]. rewrite Ascii.eqb_refl. reflexivity.
  - rewrite all_chars_cons in H. apply andb_prop in H as [Hc Hb].
    change (String c b ++ String sep after) with (String c (b ++ String sep after)).
    cbn [PyText.split_once]. unfold is_not in Hc. apply negb_true_iff in Hc.
    rewrite Hc, (IH Hb). reflexivity.
Qed.

Lemma split_all_chars (q : ascii -> bool) (sep : ascii) (s : string) :
  all_chars q s = true ->
  List.Forall (fun l => all_chars q l = true) (PyText.split sep s).
Proof.
  induction s as [|c s IH]; intros H; [repeat constructor|].
  rewrite all_chars_cons in H. apply andb_prop in H as [Hc H].
  specialize (IH H). cbn [PyText.split].
  destruct (Ascii.eqb c sep); [constructor; [reflexivity|exact IH]|].
  destruct (PyText.split sep s) as [|l ls].
  - repeat constructor. rewrite all_chars_cons, Hc. reflexivity.
  - inversion IH as [|? ? Hl Hls]; subst. constructor; [|exact Hls].
    rewrite all_chars_cons, Hc. exact Hl.
Qed.

Lemma split_no_sep (sep : ascii) (s : string) :
  List.Forall (fun l => all_chars (is_not sep) l = true) (PyText.split sep s).
Proof.
  induction s as [|c s IH]; [repeat constructor|]. cbn [PyText.split].
  destruct (Ascii.eqb_spec c sep) as [-> | Hne]; [constructor; [reflexivity|exact IH]|].
  assert (Hc : is_not sep c = true)
    by (unfold is_not; destruct (Ascii.eqb_spec c sep); [contradiction|reflexivity]).
  destruct (PyText.split sep s) as [|l ls].
  - repeat constructor. rewrite all_chars_cons, Hc. reflexivity.
  - inversion IH as [|? ? Hl Hls]; subst. constructor; [|exact Hls].
    rewrite all_chars_cons, Hc. exact Hl.
Qed.

(** The group of a section holds no opening bracket. *)
Lemma lazy_until_bracket_plain (s : string) :
  all_chars (is_not "[") (PyRe.lazy_until_bracket s) = true.
Proof.
  induction s as [|c s IH]; [reflexivity|]. cbn [PyRe.lazy_until_bracket].
  destruct (Ascii.eqb c "[") eqn:Hc; [reflexivity|].
  assert (Hn : is_not "[" c = true) by (unfold is_not; rewrite Hc; reflexivity).
  destruct s as [|d s].
  - destruct (Ascii.eqb c PyRe.newline); [reflexivity|].
    rewrite all_chars_cons, Hn. reflexivity.
  - rewrite all_chars_cons, Hn. exact IH.
Qed.

(** What the search of a section returns is the group after an occurrence
    of the header. *)
Lemma search_section_sound (header s body : string) :
  PyRe.search_section header s = Some body ->
  exists pre rest, s = pre ++ header ++ rest /\ body = PyRe.lazy_until_bracket rest.
Proof.
  induction s as [|c s IH]; intros H.
  - cbn [PyRe.search_section] in H.
    destruct (PyRe.after_prefix header "") as [r|] eqn:E; [|discriminate H].
    injection H as <-. exists "", r. split; [exact (after_prefix_sound _ _ _ E)|reflexivity].
  - cbn [PyRe.search_section] in H.
    destruct (PyRe.after_prefix header (String c s)) as [r|] eqn:E.
    + injection H as <-. exists "", r.
      split; [exact (after_prefix_sound _ _ _ E)|reflexivity].
    + destruct (IH H) as (pre & rest & -> & Hb).
      exists (String c pre), rest. split; [reflexivity|exact Hb].
Qed.

(** An iteration of the loop stores clean entries only. *)
Lemma parse_line_clean (d : gmap string string) (line : string) :
  all_chars (is_not PyRe.newline) line = true ->
  all_chars (is_not "[") line = true ->
  (forall k v, d !! k = Some v -> clean_entry k v = true) ->
  forall k v, parse_line d line !! k = Some v -> clean_entry k v = true.
Proof.
  intros Hnl Hbr Hd k v. unfold parse_line.
  destruct (PyText.split_once "=" line) as [[key value]|] eqn:E; [|apply Hd].
  destruct (split_once_sound _ _ _ _ E) as [-> Hkey].
  rewrite all_chars_app, all_chars_cons in Hnl, Hbr.
  apply andb_prop in Hnl as [Hnl1 [_ Hnl2]%andb_prop].
  apply andb_prop in Hbr as [Hbr1 [_ Hbr2]%andb_prop].
  cbv zeta.
  set (key' := PyStr.strip PyStr.is_space key).
  set (value' := PyStr.strip PyStr.is_quote (PyStr.strip PyStr.is_space value)).
  destruct (PyText.nonempty key' && PyText.nonempty value'
            && negb (PyStr.startswith key' "#")) eqn:Hok; [|apply Hd].
  intros H. apply lookup_insert_Some in H as [[<- <-] | [_ H]]; [|exact (Hd k v H)].
  unfold clean_entry. rewrite Hok. cbn [andb].
  subst key' value'. rewrite !strip_idem, !String.eqb_refl. cbn [andb].
  repeat (rewrite all_chars_strip by (try apply all_chars_strip; assumption)).
  reflexivity.
Qed.

Lemma fold_parse_line_clean (lines : list string) :
  List.Forall (fun l => all_chars (is_not PyRe.newline) l = true) lines ->
  List.Forall (fun l => all_chars (is_not "[") l = true) lines ->
  forall d,
    (forall k v, d !! k = Some v -> clean_entry k v = true) ->
    forall k v, fold_left parse_line lines d !! k = Some v -> clean_entry k v = true.
Proof.
  induction lines as [|l lines IH]; intros Hnl Hbr d Hd; [exact Hd|].
  inversion Hnl; subst. inversion Hbr; subst. cbn [fold_left].
  apply IH; [assumption..|]. apply parse_line_clean; assumption.
Qed.

Lemma parse_section_clean (header content key value : string) :
  parse_section header content !! key = Some value -> clean_entry key value = true.
Proof.
  unfold parse_section.
  destruct (PyRe.search_section header content) as [body|] eqn:E;
    [|rewrite lookup_empty; discriminate].
  destruct (search_section_sound _ _ _ E) as (pre & rest & _ & ->).
  apply fold_parse_line_clean.
  - apply split_no_sep.
  - apply split_all_chars, lazy_until_bracket_plain.
  - intros k v H. rewrite lookup_empty in H. discriminate H.
Qed.

(** X28: whatever the text, the parsed palette has both sections, and every
    entry of a section is clean: key and value are not empty and hold
    neither a line feed nor an opening bracket, the key is no comment,
    holds no [=] and has no white space around it, and the value has no
    quote at either end. *)
Theorem parse_sections_clean (content : string) :
  exists normal bright,
    c_normal (parse_alacritty_colors (Some content)) = Some normal
    /\ c_bright (parse_alacritty_colors (Some content)) = Some bright
    /\ forall key value,
         normal !! key = Some value \/ bright !! key = Some value ->
         clean_entry key value = true.
Proof.
  eexists _, _. split; [reflexivity|]. split; [reflexivity|].
  intros key value [H | H]; exact (parse_section_clean _ _ _ _ H).
Qed.

(** A literal that does not begin a string at least as long as itself does
    not begin any extension of it. *)
Lemma after_prefix_extend (literal x rest : string) :
  (String.length literal <= String.length x)%nat ->
  PyRe.after_prefix literal x = None ->
  PyRe.after_prefix literal (x ++ rest) = None.
Proof.
  revert x. induction literal as [|a literal IH]; intros x Hlen H; [discriminate H|].
  destruct x as [|b x]; [cbn in Hlen; lia|].
  change (String b x ++ rest) with (String b (x ++ rest)).
  cbn [PyRe.after_prefix] in *. destruct (Ascii.eqb a b); [|reflexivity].
  apply IH; [cbn [String.length] in Hlen; lia|exact H].
Qed.

(** The search of a section passes over a text in which the header does
    not occur and finds the header that follows it. *)
Lemma search_section_found (header pre rest : string) :
  occurs_within header pre header = false ->
  PyRe.search_section header (pre ++ header ++ rest)
  = Some (PyRe.lazy_until_bracket rest).
Proof.
  induction pre as [|c pre IH]; intros H.
  - change ("" ++ ?x) with x.
    destruct (header ++ rest) eqn:E; cbn [PyRe.search_section];
      rewrite <- E, after_prefix_app; reflexivity.
  - cbn [occurs_within] in H.
    destruct (PyRe.after_prefix header (String c pre ++ header)) eqn:E;
      [discriminate H|].
    change (String c pre ++ header ++ rest) with (String c (pre ++ header ++ rest)).
    cbn [PyRe.search_section].
    replace (PyRe.after_prefix header (String c (pre ++ header ++ rest))) with (@None string).
    + exact (IH H).
    + symmetry. change (String c (pre ++ header ++ rest)) with (String c pre ++ header ++ rest).
      rewrite <- sapp_assoc. apply after_prefix_extend; [|exact E].
      rewrite slength_app. lia.
Qed.

(** The lazy group runs through a text without bracket up to the bracket
    that follows it. *)
Lemma lazy_until_bracket_stop (body rest : string) :
  all_chars (is_not "[") body = true ->
  PyRe.lazy_until_bracket (body ++ String "[" rest) = body.
Proof.
  induction body as [|c body IH]; intros H; [reflexivity|].
  rewrite all_chars_cons in H. apply andb_prop in H as [Hc Hb].
  unfold is_not in Hc. apply negb_true_iff in Hc.
  change (String c body ++ String "[" rest) with (String c (body ++ String "[" rest)).
  cbn [PyRe.lazy_until_bracket]. rewrite Hc, (IH Hb).
  destruct body; reflexivity.
Qed.

(** X29: a section ends at the first opening bracket after its header: what
    follows that bracket is never read, whether it is the next header or
    the rest of a line that holds a bracket. *)
Theorem parse_section_ends_at_bracket (header pre body rest rest' : string) :
  occurs_within header pre header = false ->
  all_chars (is_not "[") body = true ->
  parse_section header (pre ++ header ++ body ++ String "[" rest)
  = parse_section header (pre ++ header ++ body ++ String "[" rest').
Proof.
  intros Hpre Hbody. unfold parse_section.
  rewrite !(search_section_found header pre _ Hpre).
  rewrite !(lazy_until_bracket_stop body _ Hbody). reflexivity.
Qed.

Lemma parse_section_ends_at_bracket_witness :
  parse_section "[colors.normal]"
    ("[colors.primary] " ++ "[colors.normal]" ++ " black = '#000000' white = "
       ++ String "[" "255, 255, 255] red = '#ff0000'")
  = parse_section "[colors.normal]"
      ("[colors.primary] " ++ "[colors.normal]" ++ " black = '#000000' white = "
         ++ String "[" "").
Proof.
  apply (parse_section_ends_at_bracket "[colors.normal]" "[colors.primary] "
           " black = '#000000' white = " "255, 255, 255] red = '#ff0000'" "");
    reflexivity.
Defined.

Lemma lazy_line_last (line : string) :
  all_chars (is_not "[") line = true ->
  PyRe.lazy_until_bracket (line ++ String PyRe.newline "") = line.
Proof.
  induction line as [|c line IH]; intros H; [reflexivity|].
  rewrite all_chars_cons in H. apply andb_prop in H as [Hc Hl].
  unfold is_not in Hc. apply negb_true_iff in Hc.
  change (String c line ++ ?x) with (String c (line ++ x)).
  cbn [PyRe.lazy_until_bracket]. rewrite Hc, (IH Hl).
  destruct line; reflexivity.
Qed.

Lemma lazy_line_more (line : string) (c : ascii) (tail : string) :
  all_chars (is_not "[") line = true ->
  PyRe.lazy_until_bracket (line ++ String PyRe.newline (String c tail))
  = line ++ String PyRe.newline (PyRe.lazy_until_bracket (String c tail)).
Proof.
  induction line as [|d line IH]; intros H; [reflexivity|].
  rewrite all_chars_cons in H. apply andb_prop in H as [Hd Hl].
  unfold is_not in Hd. apply negb_true_iff in Hd.
  change (String d line ++ ?x) with (String d (line ++ x)).
  cbn [PyRe.lazy_until_bracket]. rewrite Hd, (IH Hl).
  destruct line; reflexivity.
Qed.

Lemma split_line (line rest : string) :
  all_chars (is_not PyRe.newline) line = true ->
  PyText.split PyRe.newline (line ++ String PyRe.newline rest)
  = line :: PyText.split PyRe.newline rest.
Proof.
  induction line as [|c line IH]; intros H; [reflexivity|].
  rewrite all_chars_cons in H. apply andb_prop in H as [Hc Hl].
  unfold is_not in Hc. apply negb_true_iff in Hc.
  change (String c line ++ ?x) with (String c (line ++ x)).
  cbn [PyText.split]. rewrite Hc, (IH Hl). reflexivity.
Qed.

Lemma split_one (line : string) :
  all_chars (is_not PyRe.newline) line = true ->
  PyText.split PyRe.newline line = [line].
Proof.
  induction line as [|c line IH]; intros H; [reflexivity|].
  rewrite all_chars_cons in H. apply andb_prop in H as [Hc Hl].
  unfold is_not in Hc. apply negb_true_iff in Hc.
  cbn [PyText.split]. rewrite Hc, (IH Hl). reflexivity.
Qed.

(** [strip] leaves a string alone that holds none of the characters it
    removes. *)
Lemma rstrip_none (p : ascii -> bool) (s : string) :
  all_chars (fun c => negb (p c)) s = true -> PyStr.rstrip p s = s.
Proof.
  induction s as [|c s IH]; intros H; [reflexivity|].
  rewrite all_chars_cons in H. apply andb_prop in H as [Hc Hs].
  apply negb_true_iff in Hc. rewrite rstrip_step, (IH Hs).
  destruct s; [rewrite Hc|]; reflexivity.
Qed.

Lemma rstrip_end (p : ascii -> bool) (s : string) (c : ascii) :
  p c = false -> PyStr.rstrip p (s ++ String c "") = s ++ String c "".
Proof.
  intros Hc. induction s as [|d s IH].
  - change ("" ++ ?x) with x. cbn [PyStr.rstrip]. rewrite Hc. reflexivity.
  - change (String d s ++ ?x) with (String d (s ++ x)).
    rewrite rstrip_step, IH. destruct s; reflexivity.
Qed.

Lemma parse_line_empty (d : gmap string string) : parse_line d "" = d.
Proof. reflexivity. Qed.

Lemma key_char_spec (c : ascii) :
  key_char c = true ->
  PyStr.is_space c = false /\ is_not "=" c = true /\ is_not "[" c = true
  /\ is_not PyRe.newline c = true.
Proof.
  unfold key_char. intros [[H1 H2]%andb_prop H3]%andb_prop.
  apply negb_true_iff in H1. repeat (split; [assumption|]).
  unfold is_not. destruct (Ascii.eqb_spec c PyRe.newline) as [-> |]; [|reflexivity].
  discriminate H1.
Qed.

Lemma value_char_spec (c : ascii) :
  value_char c = true ->
  PyStr.is_quote c = false /\ is_not PyRe.newline c = true /\ is_not "[" c = true.
Proof.
  unfold value_char, not_quote. intros [[H1 H2]%andb_prop H3]%andb_prop.
  apply negb_true_iff in H1. auto.
Qed.

Lemma quote_char (q : ascii) :
  PyStr.is_quote q = true ->
  PyStr.is_space q = false /\ is_not PyRe.newline q = true /\ is_not "[" q = true.
Proof.
  unfold PyStr.is_quote. intros H. apply orb_prop in H as [H | H];
    apply Ascii.eqb_eq in H; subst q; repeat split; reflexivity.
Qed.

(** The line of a plain entry is read back as the entry. *)
Lemma parse_line_entry (d : gmap string string) (q : ascii) (key value : string) :
  PyStr.is_quote q = true ->
  plain_key key = true -> plain_value value = true ->
  parse_line d (entry_line q (key, value)) = <[key := value]> d.
Proof.
  intros Hq [[Hk1 Hk2]%andb_prop Hk3]%andb_prop [Hv1 Hv2]%andb_prop.
  destruct (quote_char q Hq) as (Hqs & _ & _).
  unfold entry_line. cbn [fst snd].
  change (key ++ " = " ++ String q (value ++ String q ""))
    with (key ++ String " " (String "=" (String " " (String q (value ++ String q ""))))).
  replace (key ++ String " " (String "=" (String " " (String q (value ++ String q "")))))
    with ((key ++ " ") ++ String "=" (String " " (String q (value ++ String q ""))))
    by (rewrite sapp_assoc; reflexivity).
  unfold parse_line. rewrite split_once_app.
  2:{ rewrite all_chars_app. rewrite (all_chars_weaken key_char (is_not "=") key);
        [reflexivity| |exact Hk3].
      intros c Hc. apply (key_char_spec c Hc). }
  cbv zeta.
  assert (Hkey : PyStr.strip PyStr.is_space (key ++ " ") = key).
  { pose proof (strip_surrounded PyStr.is_space "" key " " eq_refl eq_refl) as H.
    change ("" ++ ?x) with x in H. rewrite H.
    unfold PyStr.strip.
    assert (Hns : all_chars (fun c => negb (PyStr.is_space c)) key = true).
    { apply (all_chars_weaken key_char); [|exact Hk3].
      intros c Hc. destruct (key_char_spec c Hc) as [-> _]. reflexivity. }
    destruct key as [|c key]; [reflexivity|].
    rewrite all_chars_cons in Hns. apply andb_prop in Hns as [Hc Hns].
    apply negb_true_iff in Hc. rewrite (lstrip_head _ c key Hc).
    apply rstrip_none. rewrite all_chars_cons, Hc, Hns. reflexivity. }
  assert (Hvalue : PyStr.strip PyStr.is_quote
                     (PyStr.strip PyStr.is_space
                        (String " " (String q (value ++ String q "")))) = value).
  { assert (Hnq : all_chars (fun c => negb (PyStr.is_quote c)) value = true).
    { apply (all_chars_weaken value_char); [|exact Hv2].
      intros c Hc. destruct (value_char_spec c Hc) as [-> _]. reflexivity. }
    unfold PyStr.strip at 2. cbn [PyStr.lstrip].
    change (PyStr.is_space " ") with true. cbv iota. rewrite Hqs.
    change (String q (value ++ String q "")) with ((String q value) ++ String q "").
    rewrite (rstrip_end PyStr.is_space (String q value) q Hqs).
    change ((String q value) ++ String q "") with (String q (value ++ String q "")).
    unfold PyStr.strip. cbn [PyStr.lstrip]. rewrite Hq.
    destruct value as [|c value]; [discriminate Hv1|].
    rewrite all_chars_cons in Hnq. apply andb_prop in Hnq as [Hc Hnq].
    apply negb_true_iff in Hc.
    change (String c value ++ String q "") with (String c (value ++ String q "")).
    rewrite (lstrip_head _ c _ Hc).
    change (String c (value ++ String q "")) with (String c value ++ String q "").
    rewrite (rstrip_app_r PyStr.is_quote (String c value) (String q ""));
      [|unfold all_chars; cbn; rewrite Hq; reflexivity].
    apply rstrip_none. rewrite all_chars_cons, Hc, Hnq. reflexivity. }
  rewrite Hkey, Hvalue, Hk1, Hv1, Hk2. reflexivity.
Qed.

Lemma entry_line_plain (q : ascii) (entry : string * string) :
  PyStr.is_quote q = true -> plain_entry entry = true ->
  all_chars (is_not PyRe.newline) (entry_line q entry) = true
  /\ all_chars (is_not "[") (entry_line q entry) = true.
Proof.
  intros Hq [[[_ _]%andb_prop Hk]%andb_prop [_ Hv]%andb_prop]%andb_prop.
  destruct (quote_char q Hq) as (_ & Hq1 & Hq2).
  unfold entry_line.
  change (" = " ++ ?x) with (String " " (String "=" (String " " x))).
  rewrite !all_chars_app, !all_chars_cons, !all_chars_app, !all_chars_cons, Hq1, Hq2.
  rewrite (all_chars_weaken key_char (is_not PyRe.newline) (fst entry));
    [|intros c Hc; apply (key_char_spec c Hc)|exact Hk].
  rewrite (all_chars_weaken key_char (is_not "[") (fst entry));
    [|intros c Hc; apply (key_char_spec c Hc)|exact Hk].
  rewrite (all_chars_weaken value_char (is_not PyRe.newline) (snd entry));
    [|intros c Hc; apply (value_char_spec c Hc)|exact Hv].
  rewrite (all_chars_weaken value_char (is_not "[") (snd entry));
    [|intros c Hc; apply (value_char_spec c Hc)|exact Hv].
  split; reflexivity.
Qed.

(** The lines of the group of a section text are read back as its
    entries, whether the text ends the string or is followed by a
    bracket. *)
Lemma fold_section_text (q : ascii) (entries : list (string * string))
    (rest : string) :
  PyStr.is_quote q = true ->
  forallb plain_entry entries = true ->
  rest = "" \/ (exists r, rest = String "[" r) ->
  forall d,
    fold_left parse_line
      (PyText.split PyRe.newline
         (PyRe.lazy_until_bracket (section_text q entries ++ rest))) d
    = fold_left (fun d entry => <[fst entry := snd entry]> d) entries d.
Proof.
  intros Hq Hall Hrest.
  induction entries as [|[key value] entries IH]; intros d.
  - change (section_text q [] ++ rest) with rest.
    destruct Hrest as [-> | [r ->]]; reflexivity.
  - cbn [forallb] in Hall. apply andb_prop in Hall as [He Hall].
    destruct (entry_line_plain q (key, value) Hq He) as [Hnl Hbr].
    pose proof He as [Hk Hv]%andb_prop. cbn [fst snd] in Hk, Hv.
    cbn [section_text fold_right]. fold (section_text q entries).
    rewrite sapp_assoc.
    change (String PyRe.newline (section_text q entries) ++ rest)
      with (String PyRe.newline (section_text q entries ++ rest)).
    cbn [fold_left fst snd].
    destruct (section_text q entries ++ rest) as [|c tail] eqn:E.
    + rewrite (lazy_line_last _ Hbr), (split_one _ Hnl). cbn [fold_left].
      rewrite (parse_line_entry d q key value Hq Hk Hv).
      exact (IH Hall (<[key := value]> d)).
    + rewrite (lazy_line_more _ c tail Hbr), (split_line _ _ Hnl).
      cbn [fold_left]. rewrite (parse_line_entry d q key value Hq Hk Hv).
      exact (IH Hall _).
Qed.

(** X30: the text of a section is read back: after a text in which the
    header does not occur, the header, a line feed and one line
    [key = 'value'] for each entry of a list of plain entries give that
    list as a dictionary (a later entry replacing an earlier one of its
    key), whether the text ends there or another header follows. *)
Theorem parse_section_round_trip (header pre : string) (q : ascii)
    (entries : list (string * string)) (rest : string) :
  occurs_within header pre header = false ->
  PyStr.is_quote q = true ->
  forallb plain_entry entries = true ->
  rest = "" \/ (exists r, rest = String "[" r) ->
  parse_section header
    (pre ++ header ++ String PyRe.newline (section_text q entries ++ rest))
  = dict_of entries.
Proof.
  intros Hpre Hq Hall Hrest. unfold parse_section, dict_of.
  rewrite (search_section_found header pre _ Hpre).
  destruct (section_text q entries ++ rest) as [|c tail] eqn:E.
  - pose proof (fold_section_text q entries rest Hq Hall Hrest ∅) as H.
    rewrite E in H. exact H.
  - change (String PyRe.newline (String c tail))
      with ("" ++ String PyRe.newline (String c tail)).
    rewrite (lazy_line_more "" c tail eq_refl), (split_line "" _ eq_refl).
    cbn [fold_left]. rewrite parse_line_empty. rewrite <- E.
    exact (fold_section_text q entries rest Hq Hall Hrest ∅).
Qed.

Lemma parse_section_round_trip_witness :
  parse_section "[colors.bright]"
    ("[colors.normal] " ++ "[colors.bright]"
       ++ String PyRe.newline
            (section_text PyStr.dquote [("black", "#585b70"); ("red", "0xf38ba8")]
               ++ "[colors.cursor]"))
  = dict_of [("black", "#585b70"); ("red", "0xf38ba8")].
Proof.
  apply (parse_section_round_trip "[colors.bright]" "[colors.normal] " PyStr.dquote
           [("black", "#585b70"); ("red", "0xf38ba8")] "[colors.cursor]");
    first [reflexivity | right; eexists; reflexivity].
Defined.
